(** * Admin credential routes (server/routes/authRoutes.js)

    A shallow embedding of the administrator authentication routes:
    seeding, one-time login codes, password reset, admin deletion and
    the e-mail delivery fallback chain, followed by the properties the
    specification states about them.

    Conventions of the embedding.
    - JavaScript values that reach the code from JSON (request bodies,
      the stored e-mail settings document) or from [process.env] are
      [JsVal]s; [||], [String(..)], [Number(..)], [.trim()] and
      [.toLowerCase()] are the functions [jsOr], [toStr], [toNumber],
      [trim] and [toLowerCase].  Strings are byte strings; case folding
      and trimming act on the ASCII range.  Numbers are the doubles,
      each given exactly (an integer, or an odd numerator over a power
      of two), the two infinities and [NaN]; the two zeros are one.
      [Number(..)] reads the whole grammar of numeric strings and
      rounds to the nearest double, and [String(..)] of a number is
      its shortest decimal form.
    - The Admin collection is a list of documents in natural order;
      [findOne] returns the first match, [save] writes a document back
      under its [_id].  Identifiers are opaque strings, and store
      operations do not fail.
    - A handler is a computation over a [World] (the collection, the
      trace of external effects and the number of random salts drawn
      so far) which returns a value or throws; the state reached before
      a throw is kept.
    - What a handler cannot compute itself arrives in an [Oracle]: the
      clock (read once per request), the random draw behind the
      one-time code, the stored e-mail settings and the outcome of the
      two network calls.
    - [JSON.parse], [crypto], [bcryptjs], [jsonwebtoken] and the
      ObjectId generator are an interface ([Primitives]) with the laws
      the routes rely on ([PrimitiveLaws]).

    The file has three parts: the embedding, the vocabulary of the
    properties with the sample data the examples run on, and the
    properties themselves.  The embedding ends with the mail helpers
    of the contact routes (server/routes/contactRoutes.js), which
    resolve the same configuration as the admin routes. *)

From Stdlib Require Import String Ascii List ZArith Bool Lia DecimalString.
From Stdlib Require Import DecimalPos.
Import ListNotations.
Local Open Scope Z_scope.
Local Open Scope string_scope.

(** ** JavaScript values *)

Module Js.

#[local] Set Warnings "-register-all".

Inductive JsVal : Type :=
| JUndefined
| JNull
| JBool (b : bool)
| JNum (n : Z)
| JFrac (m : Z) (k : positive)
| JInf (negative : bool)
| JNaN
| JStr (s : string)
| JArr (items : list JsVal)
| JObj (fields : list (string * JsVal)).

Definition isEmpty (s : string) : bool :=
  match s with EmptyString => true | String _ _ => false end.

(** ToBoolean. *)
Definition truthy (v : JsVal) : bool :=
  match v with
  | JUndefined | JNull | JNaN => false
  | JBool b => b
  | JNum n => negb (n =? 0)%Z
  | JFrac _ _ | JInf _ => true
  | JStr s => negb (isEmpty s)
  | JArr _ | JObj _ => true
  end.

(** [a || b]. *)
Definition jsOr (a b : JsVal) : JsVal := if truthy a then a else b.

(** [v != null]. *)
Definition notNullish (v : JsVal) : bool :=
  match v with JUndefined | JNull => false | _ => true end.

(** [o?.k] on an object that may be missing. *)
Fixpoint assoc (k : string) (l : list (string * JsVal)) : JsVal :=
  match l with
  | [] => JUndefined
  | (k', v) :: r => if String.eqb k k' then v else assoc k r
  end.

Definition getField (o : JsVal) (k : string) : JsVal :=
  match o with JObj l => assoc k l | _ => JUndefined end.

(** *** Numbers

    A number is a double given exactly: an integer [JNum n], a fraction
    [JFrac m k] that stands for [m / 2^k] with [m] odd, or an infinity.
    The two zeros are not told apart. *)

Local Open Scope Z_scope.

(** The [l] with [2^l <= a / b < 2^(l+1)], for positive [a] and [b]. *)
Definition floorLog2 (a b : Z) : Z :=
  let l := Z.log2 a - Z.log2 b in
  if (if 0 <=? l then b * 2 ^ l <=? a else b <=? a * 2 ^ (- l))
  then l else l - 1.

(** The double nearest to [a / b], ties to the even mantissa, as a
    mantissa and the exponent of its last bit; [None] where it is
    infinite. *)
Definition nearestDouble (a b : Z) : option (Z * Z) :=
  let ex := Z.max (floorLog2 a b - 52) (-1074) in
  let num := if 0 <=? ex then a else a * 2 ^ (- ex) in
  let den := if 0 <=? ex then b * 2 ^ ex else b in
  let q := num / den in
  let r := num mod den in
  let q' := if 2 * r <? den then q
            else if den <? 2 * r then q + 1
            else if Z.even q then q else q + 1 in
  if (971 <? ex) || ((ex =? 971) && (q' =? 2 ^ 53)) then None
  else Some (q', ex).

(** **** [Number::toString]

    The shortest decimal form that reads back as the same double. *)

(** [a' / b'] rounds to the double [a / b]. *)
Definition roundsTo (a' b' a b : Z) : bool :=
  match nearestDouble a' b' with
  | Some (q, ex) =>
      if 0 <=? ex then q * 2 ^ ex * b =? a else q * b =? a * 2 ^ (- ex)
  | None => false
  end.

(** [a / b < 10^c]. *)
Definition below (a b c : Z) : bool :=
  if 0 <=? c then a <? b * 10 ^ c else a * 10 ^ (- c) <? b.

(** The [n] with [10^(n-1) <= a / b < 10^n]. *)
Definition decimalExponent (a b : Z) : Z :=
  let est := (floorLog2 a b * 30103) / 100000 in
  if below a b est then est
  else if below a b (est + 1) then est + 1 else est + 2.

(** The shortest [s], of [k] digits or more, with [s * 10^(n-k)]
    rounding to [a / b]; of two, the closer one. *)
Fixpoint shortest (fuel : nat) (k : Z) (a b n : Z) : option (Z * Z) :=
  match fuel with
  | O => None
  | S fuel' =>
      let t := k - n in
      let num := if 0 <=? t then a * 10 ^ t else a in
      let den := if 0 <=? t then b else b * 10 ^ (- t) in
      let lo := num / den in
      let r := num mod den in
      let hi := lo + 1 in
      let rounds s :=
        if 0 <=? t then roundsTo s (10 ^ t) a b
        else roundsTo (s * 10 ^ (- t)) 1 a b in
      let pick :=
        if rounds lo && rounds hi
        then Some (if 2 * r <? den then lo
                   else if den <? 2 * r then hi
                   else if Z.even lo then lo else hi)
        else if rounds lo then Some lo
        else if rounds hi then Some hi
        else None in
      match pick with
      | Some s => Some (if s =? 10 ^ k then (10 ^ (k - 1), n + 1) else (s, n))
      | None => shortest fuel' (k + 1) a b n
      end
  end.

Fixpoint zeros (n : nat) : string :=
  match n with O => EmptyString | S k => String "0" (zeros k) end.

Definition decimal (n : Z) : string := NilZero.string_of_int (Z.to_int n).

(** The digits [s] with the decimal point after the [n]-th. *)
Definition formatNumber (s n : Z) : string :=
  let digits := decimal s in
  let k := Z.of_nat (String.length digits) in
  if (k <=? n) && (n <=? 21) then digits ++ zeros (Z.to_nat (n - k))
  else if (0 <? n) && (n <=? 21)
  then substring 0 (Z.to_nat n) digits ++ "."
       ++ substring (Z.to_nat n) (Z.to_nat (k - n)) digits
  else if (-6 <? n) && (n <=? 0)
  then "0." ++ zeros (Z.to_nat (- n)) ++ digits
  else
    let e := n - 1 in
    let exponent := (if 0 <=? e then "e+" else "e-") ++ decimal (Z.abs e) in
    match digits with
    | String d EmptyString => String d exponent
    | String d rest => String d ("." ++ rest ++ exponent)
    | EmptyString => exponent
    end.

(** [Number::toString] of the positive [a / b]. *)
Definition positiveToString (a b : Z) : string :=
  match shortest 17 1 a b (decimalExponent a b) with
  | Some (s, n) => formatNumber s n
  | None => decimal (a / b)
  end.

Local Open Scope string_scope.

(** [String(v)]; an array is its elements joined by commas, with
    [null] and [undefined] elements left empty.  An integer below
    [2^53] is its own shortest form. *)
Fixpoint toStr (v : JsVal) : string :=
  match v with
  | JUndefined => "undefined"
  | JNull => "null"
  | JBool true => "true"
  | JBool false => "false"
  | JNum n =>
      if (Z.abs n <? 9007199254740992)%Z then decimal n
      else if (n <? 0)%Z then "-" ++ positiveToString (- n) 1
      else positiveToString n 1
  | JFrac m k =>
      if (m <? 0)%Z then "-" ++ positiveToString (- m) (2 ^ Z.pos k)
      else positiveToString m (2 ^ Z.pos k)
  | JInf negative => if negative then "-Infinity" else "Infinity"
  | JNaN => "NaN"
  | JStr s => s
  | JArr l =>
      (fix join (l : list JsVal) : string :=
         match l with
         | [] => ""
         | x :: r =>
             let e := match x with
                      | JUndefined | JNull => ""
                      | _ => toStr x
                      end in
             match r with
             | [] => e
             | _ :: _ => e ++ "," ++ join r
             end
         end) l
  | JObj _ => "[object Object]"
  end.

(** White space removed by [String.prototype.trim], ASCII range. *)
Definition isSpace (c : ascii) : bool :=
  let n := nat_of_ascii c in
  (Nat.leb 9 n && Nat.leb n 13) || Nat.eqb n 32.

Fixpoint trimStart (s : string) : string :=
  match s with
  | EmptyString => EmptyString
  | String c r => if isSpace c then trimStart r else s
  end.

Fixpoint trimEnd (s : string) : string :=
  match s with
  | EmptyString => EmptyString
  | String c r =>
      let r' := trimEnd r in
      if isSpace c && isEmpty r' then EmptyString else String c r'
  end.

Definition trim (s : string) : string := trimEnd (trimStart s).

Definition lowerChar (c : ascii) : ascii :=
  let n := nat_of_ascii c in
  if Nat.leb 65 n && Nat.leb n 90 then ascii_of_nat (n + 32) else c.

Fixpoint toLowerCase (s : string) : string :=
  match s with
  | EmptyString => EmptyString
  | String c r => String (lowerChar c) (toLowerCase r)
  end.

Fixpoint startsWith (p s : string) : bool :=
  match p, s with
  | EmptyString, _ => true
  | String a p', String b s' => Ascii.eqb a b && startsWith p' s'
  | String _ _, EmptyString => false
  end.

(** [s.includes(p)]. *)
Fixpoint includes (p s : string) : bool :=
  startsWith p s ||
  match s with
  | EmptyString => false
  | String _ r => includes p r
  end.

(** *** [Number(..)]

    [StringToNumber]: surrounding white space is ignored, the empty
    string is 0, and what is left is read as a [StringNumericLiteral]:
    an optionally signed decimal literal (digits with an optional
    fraction and exponent, or [Infinity]) or an unsigned binary, octal
    or hexadecimal integer.  Anything else is [NaN].  The value is
    rounded to the nearest double. *)

Local Open Scope Z_scope.

(** The number [q / 2^k], in lowest terms. *)
Fixpoint halve (k : nat) (q : positive) : JsVal :=
  match k, q with
  | O, _ => JNum (Z.pos q)
  | S k', xO q' => halve k' q'
  | S _, _ => JFrac (Z.pos q) (Pos.of_nat k)
  end.

(** The number [q * 2^ex]. *)
Definition finiteNumber (q ex : Z) : JsVal :=
  match q with
  | Z.pos p => if 0 <=? ex then JNum (q * 2 ^ ex)
               else halve (Z.to_nat (- ex)) p
  | _ => JNum 0
  end.

(** The Number value for [a / b], where [0 <= a] and [0 < b]. *)
Definition numberOf (a b : Z) : JsVal :=
  if a =? 0 then JNum 0
  else match nearestDouble a b with
       | Some (q, ex) => finiteNumber q ex
       | None => JInf false
       end.

(** [- v] on a number. *)
Definition negate (v : JsVal) : JsVal :=
  match v with
  | JNum n => JNum (- n)
  | JFrac m k => JFrac (- m) k
  | JInf b => JInf (negb b)
  | _ => v
  end.

(** The value of a decimal or hexadecimal digit. *)
Definition digitValue (c : ascii) : option Z :=
  let n := Z.of_nat (nat_of_ascii c) in
  if (48 <=? n) && (n <=? 57) then Some (n - 48)
  else if (97 <=? n) && (n <=? 102) then Some (n - 87)
  else if (65 <=? n) && (n <=? 70) then Some (n - 55)
  else None.

(** The value of a run of digits of a base, read after [acc]. *)
Fixpoint digitsFrom (base acc : Z) (s : string) : option Z :=
  match s with
  | EmptyString => Some acc
  | String c r =>
      match digitValue c with
      | Some d => if d <? base then digitsFrom base (acc * base + d) r
                  else None
      | None => None
      end
  end.

Definition isDecimalDigit (c : ascii) : bool :=
  let n := nat_of_ascii c in Nat.leb 48 n && Nat.leb n 57.

(** The leading decimal digits and what follows them. *)
Fixpoint spanDigits (s : string) : string * string :=
  match s with
  | EmptyString => (EmptyString, EmptyString)
  | String c r =>
      if isDecimalDigit c
      then let (d, t) := spanDigits r in (String c d, t)
      else (EmptyString, s)
  end.

Definition digitsValue (d : string) : Z :=
  match digitsFrom 10 0 d with Some n => n | None => 0 end.

(** [ExponentPart]: the exponent, when [s] is one or empty. *)
Definition exponentPart (s : string) : option Z :=
  match s with
  | EmptyString => Some 0
  | String c r =>
      if Ascii.eqb c "e" || Ascii.eqb c "E" then
        let (negative, r) :=
          match r with
          | String "+" r' => (false, r')
          | String "-" r' => (true, r')
          | _ => (false, r)
          end in
        let (d, rest) := spanDigits r in
        if isEmpty d || negb (isEmpty rest) then None
        else Some (if negative then - digitsValue d else digitsValue d)
      else None
  end.

(** [StrUnsignedDecimalLiteral] other than [Infinity]: its digits as
    an integer and the power of ten that scales them. *)
Definition decimalLiteral (s : string) : option (Z * Z) :=
  let (whole, r) := spanDigits s in
  let (fraction, r) :=
    match r with
    | String "." r' => spanDigits r'
    | _ => (EmptyString, r)
    end in
  if isEmpty whole && isEmpty fraction then None
  else
    match exponentPart r with
    | Some e => Some (digitsValue (whole ++ fraction),
                      e - Z.of_nat (String.length fraction))
    | None => None
    end.

(** [StrUnsignedDecimalLiteral]. *)
Definition unsignedDecimal (s : string) : JsVal :=
  if (s =? "Infinity")%string then JInf false
  else
    match decimalLiteral s with
    | Some (m, e) =>
        if 0 <=? e then numberOf (m * 10 ^ e) 1 else numberOf m (10 ^ (- e))
    | None => JNaN
    end.

(** [NonDecimalIntegerLiteral]: the base a prefix announces. *)
Definition prefixBase (c : ascii) : option Z :=
  if Ascii.eqb c "x" || Ascii.eqb c "X" then Some 16
  else if Ascii.eqb c "o" || Ascii.eqb c "O" then Some 8
  else if Ascii.eqb c "b" || Ascii.eqb c "B" then Some 2
  else None.

Definition stringToNumber (s : string) : JsVal :=
  match trim s with
  | EmptyString => JNum 0
  | String "-" r => negate (unsignedDecimal r)
  | String "+" r => unsignedDecimal r
  | String "0" (String c r) as t =>
      match prefixBase c with
      | Some base =>
          if isEmpty r then JNaN
          else match digitsFrom base 0 r with
               | Some n => numberOf n 1
               | None => JNaN
               end
      | None => unsignedDecimal t
      end
  | t => unsignedDecimal t
  end.

Local Open Scope string_scope.

(** [Number(v)]. *)
Definition toNumber (v : JsVal) : JsVal :=
  match v with
  | JUndefined => JNaN
  | JNull => JNum 0
  | JBool b => JNum (if b then 1 else 0)
  | JNum n => JNum n
  | JFrac m k => JFrac m k
  | JInf negative => JInf negative
  | JNaN => JNaN
  | JStr s => stringToNumber s
  | JArr _ | JObj _ => stringToNumber (toStr v)
  end.

(** [v === n] for a number literal [n]. *)
Definition strictEqNum (v : JsVal) (n : Z) : bool :=
  match v with JNum m => (m =? n)%Z | _ => false end.

(** [Number.isFinite(v)]. *)
Definition isFinite (v : JsVal) : bool :=
  match v with JNum _ | JFrac _ _ => true | _ => false end.

(** [s.length]. *)
Definition strLength (s : string) : Z := Z.of_nat (String.length s).

End Js.
Import Js.

Notation "a '|||' b" := (jsOr a b) (at level 50, left associativity).

(** ** Configuration: [process.env] *)

(** Every variable the routes read; [None] is an unset variable. *)
Record Env : Type := {
  env_JWT_SECRET : option string;
  env_NODE_ENV : option string;
  env_REQUIRE_ADMIN_EMAIL_VERIFICATION : option string;
  env_DISABLE_PUBLIC_ADMIN_SIGNUP : option string;
  env_ADMIN_ACCOUNTS : option string;
  env_ADMIN_EMAIL : option string;
  env_ADMIN_PASSWORD : option string;
  env_ADMIN_NAME : option string;
  env_SMTP_HOST : option string;
  env_SMTP_USER : option string;
  env_SMTP_PASS : option string;
  env_SMTP_PORT : option string;
  env_SMTP_SECURE : option string;
  env_EMAIL_USER : option string;
  env_EMAIL_PASS : option string;
  env_RESEND_API_KEY : option string;
  env_CONTACT_FROM_EMAIL : option string
}.

(** [process.env.X] as a JavaScript value. *)
Definition ev (x : option string) : JsVal :=
  match x with Some s => JStr s | None => JUndefined end.

(** ** Documents of the Admin collection *)

Record Admin : Type := {
  _id : string;
  name : string;
  email : string;
  passwordHash : string;
  isVerified : bool;
  loginVerificationCodeHash : string;
  loginVerificationExpiresAt : option Z;
  resetPasswordTokenHash : string;
  resetPasswordExpiresAt : option Z
}.

Definition set_name (v : string) (a : Admin) : Admin :=
  {| _id := _id a; name := v; email := email a;
     passwordHash := passwordHash a; isVerified := isVerified a;
     loginVerificationCodeHash := loginVerificationCodeHash a;
     loginVerificationExpiresAt := loginVerificationExpiresAt a;
     resetPasswordTokenHash := resetPasswordTokenHash a;
     resetPasswordExpiresAt := resetPasswordExpiresAt a |}.

Definition set_passwordHash (v : string) (a : Admin) : Admin :=
  {| _id := _id a; name := name a; email := email a;
     passwordHash := v; isVerified := isVerified a;
     loginVerificationCodeHash := loginVerificationCodeHash a;
     loginVerificationExpiresAt := loginVerificationExpiresAt a;
     resetPasswordTokenHash := resetPasswordTokenHash a;
     resetPasswordExpiresAt := resetPasswordExpiresAt a |}.

Definition set_isVerified (v : bool) (a : Admin) : Admin :=
  {| _id := _id a; name := name a; email := email a;
     passwordHash := passwordHash a; isVerified := v;
     loginVerificationCodeHash := loginVerificationCodeHash a;
     loginVerificationExpiresAt := loginVerificationExpiresAt a;
     resetPasswordTokenHash := resetPasswordTokenHash a;
     resetPasswordExpiresAt := resetPasswordExpiresAt a |}.

Definition set_loginVerificationCodeHash (v : string) (a : Admin) : Admin :=
  {| _id := _id a; name := name a; email := email a;
     passwordHash := passwordHash a; isVerified := isVerified a;
     loginVerificationCodeHash := v;
     loginVerificationExpiresAt := loginVerificationExpiresAt a;
     resetPasswordTokenHash := resetPasswordTokenHash a;
     resetPasswordExpiresAt := resetPasswordExpiresAt a |}.

Definition set_loginVerificationExpiresAt (v : option Z) (a : Admin) : Admin :=
  {| _id := _id a; name := name a; email := email a;
     passwordHash := passwordHash a; isVerified := isVerified a;
     loginVerificationCodeHash := loginVerificationCodeHash a;
     loginVerificationExpiresAt := v;
     resetPasswordTokenHash := resetPasswordTokenHash a;
     resetPasswordExpiresAt := resetPasswordExpiresAt a |}.

Definition set_resetPasswordTokenHash (v : string) (a : Admin) : Admin :=
  {| _id := _id a; name := name a; email := email a;
     passwordHash := passwordHash a; isVerified := isVerified a;
     loginVerificationCodeHash := loginVerificationCodeHash a;
     loginVerificationExpiresAt := loginVerificationExpiresAt a;
     resetPasswordTokenHash := v;
     resetPasswordExpiresAt := resetPasswordExpiresAt a |}.

Definition set_resetPasswordExpiresAt (v : option Z) (a : Admin) : Admin :=
  {| _id := _id a; name := name a; email := email a;
     passwordHash := passwordHash a; isVerified := isVerified a;
     loginVerificationCodeHash := loginVerificationCodeHash a;
     loginVerificationExpiresAt := loginVerificationExpiresAt a;
     resetPasswordTokenHash := resetPasswordTokenHash a;
     resetPasswordExpiresAt := v |}.

(** A date filter [{ $gt: now }]: a null date matches nothing. *)
Definition dateGt (d : option Z) (now : Z) : bool :=
  match d with Some t => (now <? t)%Z | None => false end.

(** ** Library primitives *)

(** The claims [jwt.sign] receives. *)
Record JwtPayload : Type := {
  jwt_email : string;
  jwt_role : string;
  jwt_id : string
}.

(** [sha256_hex c] is [crypto.createHash("sha256").update(c).digest("hex")];
    [bcrypt_hash n p] is [bcrypt.hash(p, 10)] with the [n]-th random salt
    of the process; [jwt_sign p key exp now] is
    [jwt.sign(p, key, { expiresIn: exp })] at time [now];
    [newObjectId ids] is the identifier the driver gives a document
    inserted into a collection holding [ids]; [json_parse s] is
    [JSON.parse(s)], [None] when it throws. *)
Class Primitives : Type := {
  json_parse : string -> option JsVal;
  sha256_hex : string -> string;
  bcrypt_hash : nat -> string -> string;
  bcrypt_compare : string -> string -> bool;
  jwt_sign : JwtPayload -> string -> string -> Z -> string;
  newObjectId : list string -> string
}.

Class PrimitiveLaws (P : Primitives) : Prop := {
  bcrypt_compare_hash : forall n p, bcrypt_compare p (bcrypt_hash n p) = true;
  newObjectId_fresh : forall ids, ~ In (newObjectId ids) ids
}.

(** ** The world a handler runs in *)

(** What [nodemailer.createTransport] was given. *)
Inductive Transport : Type :=
| GmailService (user pass : JsVal)
| SmtpServer (host port : JsVal) (secure : bool) (user pass : JsVal).

(** Effects that leave the process, in the order they happen. *)
Inductive Event : Type :=
| StoreSave (doc : Admin)
| StoreCreate (doc : Admin)
| StoreDelete (id : string)
| ResendPost (apiKey : string) (from : JsVal) (to subject text : string)
| SmtpSendMail (t : Transport) (from : JsVal) (to subject text : string).

Definition isStoreWrite (e : Event) : bool :=
  match e with
  | StoreSave _ | StoreCreate _ | StoreDelete _ => true
  | _ => false
  end.

Record World : Type := {
  admins : list Admin;
  trace : list Event;
  saltsDrawn : nat
}.

Definition withAdmins (l : list Admin) (e : Event) (w : World) : World :=
  {| admins := l; trace := trace w ++ [e]; saltsDrawn := saltsDrawn w |}.

Definition emit (e : Event) (w : World) : World :=
  {| admins := admins w; trace := trace w ++ [e]; saltsDrawn := saltsDrawn w |}.

Inductive Outcome (A : Type) : Type :=
| Returned (a : A)
| Thrown.
Arguments Returned {A} a.
Arguments Thrown {A}.

Definition M (A : Type) : Type := World -> Outcome A * World.

Definition ret {A} (a : A) : M A := fun w => (Returned a, w).

Definition throw {A} : M A := fun w => (Thrown, w).

Definition bind {A B} (c : M A) (k : A -> M B) : M B :=
  fun w =>
    match c w with
    | (Returned a, w') => k a w'
    | (Thrown, w') => (Thrown, w')
    end.

(** [try { c } catch { h }]. *)
Definition tryCatch {A} (c : M A) (h : M A) : M A :=
  fun w =>
    match c w with
    | (Returned a, w') => (Returned a, w')
    | (Thrown, w') => h w'
    end.

Notation "x <- c ;; k" := (bind c (fun x => k))
  (at level 61, c at next level, right associativity).
Notation "c ;;; k" := (bind c (fun _ => k))
  (at level 61, right associativity).

(** What the handler reads from outside during one request. *)
Inductive ContentLookup : Type :=
| ContentThrows
| ContentFound (doc : JsVal).

Inductive FetchResult : Type :=
| FetchThrows
| FetchResponse (ok : bool).

Inductive SendMailResult : Type :=
| SendMailThrows
| SendMailDone.

(** [randomDraw] is [Math.floor(100000 + Math.random() * 900000) - 100000];
    [emailSettingsDoc] is the result of
    [Content.findOne({ key: "emailSettings" })], [JNull] when there is no
    such document. *)
Record Oracle : Type := {
  now : Z;
  randomDraw : Z;
  emailSettingsDoc : ContentLookup;
  resendFetch : FetchResult;
  smtpSendMail : SendMailResult
}.

(** ** The routes *)

Section Routes.

Context {P : Primitives}.
Variable env : Env.

(** *** The Admin model *)

Definition Admin_findOne (p : Admin -> bool) : M (option Admin) :=
  fun w => (Returned (find p (admins w)), w).

(** The query [{ email: em }]. *)
Definition byEmail (em : string) (a : Admin) : bool := email a =? em.

Definition Admin_findById (id : string) : M (option Admin) :=
  Admin_findOne (fun a => _id a =? id).

Definition Admin_countDocuments : M Z :=
  fun w => (Returned (Z.of_nat (length (admins w))), w).

Definition writeBack (a : Admin) (l : list Admin) : list Admin :=
  map (fun d => if _id d =? _id a then a else d) l.

(** [doc.save()]. *)
Definition Admin_save (a : Admin) : M unit :=
  fun w => (Returned tt, withAdmins (writeBack a (admins w)) (StoreSave a) w).

(** Modelled from the spec: the schema (models/Admin.js) is not among
    the sources.  The data model of the specification has the
    reset-token hash and expiry empty until a reset is requested, so a
    created document takes the fields [Admin.create] is given, a fresh
    [_id], and an empty reset token with no expiry. *)
Definition Admin_create (nm em ph : string) (verified : bool)
    (codeHash : string) (codeExpiry : option Z) : M Admin :=
  fun w =>
    let doc := {| _id := newObjectId (map _id (admins w));
                  name := nm; email := em; passwordHash := ph;
                  isVerified := verified;
                  loginVerificationCodeHash := codeHash;
                  loginVerificationExpiresAt := codeExpiry;
                  resetPasswordTokenHash := "";
                  resetPasswordExpiresAt := None |} in
    (Returned doc, withAdmins (admins w ++ [doc]) (StoreCreate doc) w).

Fixpoint removeFirst (id : string) (l : list Admin) : list Admin :=
  match l with
  | [] => []
  | d :: r => if _id d =? id then r else d :: removeFirst id r
  end.

Definition Admin_deleteOne (id : string) : M unit :=
  fun w => (Returned tt, withAdmins (removeFirst id (admins w)) (StoreDelete id) w).

(** [bcrypt.hash(p, 10)]: draws the next salt. *)
Definition bcryptHash (p : string) : M string :=
  fun w =>
    (Returned (bcrypt_hash (saltsDrawn w) p),
     {| admins := admins w; trace := trace w;
        saltsDrawn := S (saltsDrawn w) |}).

(** [for (const x of l) { f(x) }]. *)
Fixpoint forOf {A} (f : A -> M unit) (l : list A) : M unit :=
  match l with
  | [] => ret tt
  | x :: r => f x ;;; forOf f r
  end.

(** *** Module constants *)

Definition JWT_SECRET : string :=
  toStr (ev (env_JWT_SECRET env) ||| JStr "secretkey").

Definition LOGIN_CODE_TTL_MS : Z := 10 * 60 * 1000.

Definition REQUIRE_ADMIN_EMAIL_VERIFICATION : bool :=
  toLowerCase
    (toStr (ev (env_REQUIRE_ADMIN_EMAIL_VERIFICATION env) ||| JStr "false"))
  =? "true".

Definition DEFAULT_PRIMARY_ADMIN_EMAIL : string := "aethonplast@gmail.com".
Definition DEFAULT_PRIMARY_ADMIN_PASSWORD : string := "aethonplast@2026".
Definition DEFAULT_PRIMARY_ADMIN_NAME : string := "Primary Admin".

(** [process.env.NODE_ENV !== "production"] is [negb production]. *)
Definition production : bool :=
  match env_NODE_ENV env with
  | Some s => s =? "production"
  | None => false
  end.

(** *** Seeding *)

Definition parseAdminAccounts : option (list JsVal) :=
  let raw := ev (env_ADMIN_ACCOUNTS env) in
  if negb (truthy raw) then None
  else match json_parse (toStr raw) with
       | Some (JArr parsed) => Some parsed
       | _ => None
       end.

Definition singleSeed : list JsVal :=
  [ JObj [ ("email", ev (env_ADMIN_EMAIL env) ||| JStr DEFAULT_PRIMARY_ADMIN_EMAIL);
           ("password", ev (env_ADMIN_PASSWORD env) ||| JStr DEFAULT_PRIMARY_ADMIN_PASSWORD);
           ("name", ev (env_ADMIN_NAME env) ||| JStr DEFAULT_PRIMARY_ADMIN_NAME);
           ("forceSync", JBool true) ] ].

Definition seeds : list JsVal :=
  match parseAdminAccounts with
  | Some (s :: r) => s :: r
  | _ => singleSeed
  end.

Definition clearLoginCode (a : Admin) : Admin :=
  set_loginVerificationExpiresAt None (set_loginVerificationCodeHash "" a).

(** The three drift checks of a force-synced seed; the boolean is
    [shouldSave]. *)
Definition syncPassword (seed : JsVal) (existing : Admin) : M (Admin * bool) :=
  let passwordMatches :=
    bcrypt_compare (toStr (getField seed "password")) (passwordHash existing) in
  if negb passwordMatches
  then h <- bcryptHash (toStr (getField seed "password")) ;;
       ret (set_passwordHash h existing, true)
  else ret (existing, false).

Definition syncName (seed : JsVal) (s : Admin * bool) : Admin * bool :=
  if negb (name (fst s) =? toStr (getField seed "name" ||| JStr ""))
  then (set_name (toStr (getField seed "name" ||| JStr "")) (fst s), true)
  else s.

Definition syncVerified (s : Admin * bool) : Admin * bool :=
  if negb (isVerified (fst s)) then (set_isVerified true (fst s), true) else s.

(** One iteration of the loop of [ensureSeedAdmins]. *)
Definition seedStep (seed : JsVal) : M unit :=
  if negb (truthy (getField seed "email"))
     || negb (truthy (getField seed "password"))
  then ret tt
  else
    let normalizedEmail := toLowerCase (trim (toStr (getField seed "email"))) in
    existing <- Admin_findOne (byEmail normalizedEmail) ;;
    match existing with
    | Some existing =>
        if truthy (getField seed "forceSync") then
          s <- syncPassword seed existing ;;
          let s := syncVerified (syncName seed s) in
          if snd s then Admin_save (clearLoginCode (fst s)) else ret tt
        else ret tt
    | None =>
        ph <- bcryptHash (toStr (getField seed "password")) ;;
        Admin_create (toStr (getField seed "name" ||| JStr ""))
                     normalizedEmail ph true "" None ;;;
        ret tt
    end.

Definition ensureSeedAdmins : M unit := forOf seedStep seeds.

(** *** E-mail delivery *)

Definition getEmailSettings (o : Oracle) : JsVal :=
  match emailSettingsDoc o with
  | ContentThrows => JObj []
  | ContentFound doc => getField doc "data" ||| JObj []
  end.

Definition createTransporter (settings : JsVal) : option Transport :=
  let host := getField settings "smtpHost" ||| ev (env_SMTP_HOST env) in
  let user := getField settings "smtpUser" ||| ev (env_SMTP_USER env)
              ||| ev (env_EMAIL_USER env) in
  let pass := getField settings "smtpPass" ||| ev (env_SMTP_PASS env)
              ||| ev (env_EMAIL_PASS env) in
  if negb (truthy user) || negb (truthy pass) then None
  else if negb (truthy host) then Some (GmailService user pass)
  else
    let port := toNumber (getField settings "smtpPort"
                          ||| ev (env_SMTP_PORT env) ||| JNum 587) in
    let secure :=
      if notNullish (getField settings "smtpSecure")
      then toLowerCase (toStr (getField settings "smtpSecure")) =? "true"
      else if notNullish (ev (env_SMTP_SECURE env))
      then toLowerCase (toStr (ev (env_SMTP_SECURE env))) =? "true"
      else strictEqNum port 465 in
    Some (SmtpServer host port secure user pass).

Definition getResendApiKey (settings : JsVal) : string :=
  if truthy (ev (env_RESEND_API_KEY env))
  then toStr (ev (env_RESEND_API_KEY env))
  else
    let host := toLowerCase (toStr (getField settings "smtpHost"
                                    ||| ev (env_SMTP_HOST env) ||| JStr "")) in
    let user := toLowerCase (toStr (getField settings "smtpUser"
                                    ||| ev (env_SMTP_USER env) ||| JStr "")) in
    let pass := toStr (getField settings "smtpPass"
                       ||| ev (env_SMTP_PASS env) ||| JStr "") in
    if includes "resend.com" host && (user =? "resend") && negb (isEmpty pass)
    then pass
    else "".

(** The sender both delivery paths use. *)
Definition fromAddress (settings : JsVal) : JsVal :=
  getField settings "contactFromEmail" ||| ev (env_CONTACT_FROM_EMAIL env)
  ||| getField settings "smtpUser" ||| ev (env_SMTP_USER env)
  ||| ev (env_EMAIL_USER env).

Definition sendWithResend (o : Oracle) (to subject text : string)
    (settings : JsVal) : M bool :=
  let apiKey := getResendApiKey settings in
  if isEmpty apiKey then ret false
  else
    let from := fromAddress settings in
    if negb (truthy from) then ret false
    else fun w =>
      let w' := emit (ResendPost apiKey from to subject text) w in
      match resendFetch o with
      | FetchThrows => (Thrown, w')
      | FetchResponse ok => (Returned ok, w')
      end.

(** [transporter.sendMail(..)]. *)
Definition sendMail (o : Oracle) (t : Transport) (from : JsVal)
    (to subject text : string) : M unit :=
  fun w =>
    let w' := emit (SmtpSendMail t from to subject text) w in
    match smtpSendMail o with
    | SendMailThrows => (Thrown, w')
    | SendMailDone => (Returned tt, w')
    end.

Definition generateVerificationCode (o : Oracle) : string :=
  toStr (JNum (100000 + randomDraw o)).

Definition saveVerificationCode (o : Oracle) (admin : Admin) (code : string)
    : M Admin :=
  let admin := set_loginVerificationCodeHash (sha256_hex code) admin in
  let admin := set_loginVerificationExpiresAt
                 (Some (now o + LOGIN_CODE_TTL_MS)) admin in
  Admin_save admin ;;; ret admin.

Definition verificationText (code : string) : string :=
  "Your admin verification code is: " ++ code ++ ". It expires in 10 minutes.".

Definition sendVerificationCode (o : Oracle) (em code : string) : M bool :=
  let settings := getEmailSettings o in
  sentViaResend <- sendWithResend o em "Admin verification code"
                     (verificationText code) settings ;;
  if sentViaResend then ret true
  else
    match createTransporter settings with
    | None => ret false
    | Some transporter =>
        sendMail o transporter (fromAddress settings) em
                 "Admin verification code" (verificationText code) ;;;
        ret true
    end.

(** Returns the bypass flag and the document as the caller sees it
    afterwards. *)
Definition handleMissingSmtpVerification (admin : Admin) : M (bool * Admin) :=
  if REQUIRE_ADMIN_EMAIL_VERIFICATION then ret (false, admin)
  else
    let admin := clearLoginCode (set_isVerified true admin) in
    Admin_save admin ;;; ret (true, admin).

Definition formatVerificationResponse (baseMessage : string) (codeSent : bool)
    (code : string) : list (string * JsVal) :=
  if codeSent then [ ("message", JStr baseMessage) ]
  else if negb production then
    [ ("message",
       JStr "SMTP is not configured. Use this verification code locally.");
      ("verificationCode", JStr code) ]
  else
    [ ("message",
       JStr "Email is not configured. Set SMTP credentials in server .env.") ].

(** *** Requests and responses *)

(** [req.params.id], [req.body] and [req.admin] (set by the [auth]
    middleware from the session token). *)
Record Request : Type := {
  req_params_id : JsVal;
  req_body : JsVal;
  req_admin : JsVal
}.

Record Response : Type := {
  status : Z;
  body : list (string * JsVal)
}.

(** [res.status(st).json(b)]. *)
Definition json (st : Z) (b : list (string * JsVal)) : M Response :=
  ret {| status := st; body := b |}.

Definition msg (m : string) : list (string * JsVal) := [ ("message", JStr m) ].

(** The [try { .. } catch (error) { return res.status(500).json(..) }]
    every handler is wrapped in. *)
Definition handler (c : M Response) (failure : string)
    : World -> Response * World :=
  fun w =>
    match c w with
    | (Returned r, w') => (r, w')
    | (Thrown, w') => ({| status := 500; body := msg failure |}, w')
    end.

Definition normalizeEmail (v : JsVal) : string :=
  toLowerCase (trim (toStr (v ||| JStr ""))).

Definition signToken (o : Oracle) (admin : Admin) : string :=
  jwt_sign {| jwt_email := email admin; jwt_role := "admin";
              jwt_id := _id admin |}
           JWT_SECRET "1d" (now o).

Definition adminSummary (admin : Admin) : JsVal :=
  JObj [ ("email", JStr (email admin)); ("role", JStr "admin");
         ("name", JStr (name admin) ||| JStr "") ].

(** *** DELETE /admins/:id *)

Definition deleteAdmin (req : Request) : World -> Response * World :=
  handler
    (let targetId := toStr (req_params_id req ||| JStr "") in
     if isEmpty targetId then json 400 (msg "Admin id is required")
     else
       adminsCount <- Admin_countDocuments ;;
       if (adminsCount <=? 1)%Z
       then json 400 (msg "Cannot delete the last admin account")
       else
         targetAdmin <- Admin_findById targetId ;;
         match targetAdmin with
         | None => json 404 (msg "Admin not found")
         | Some targetAdmin =>
             let requesterId :=
               toStr (getField (req_admin req) "id" ||| JStr "") in
             let requesterEmail :=
               toLowerCase
                 (trim (toStr (getField (req_admin req) "email" ||| JStr ""))) in
             if (negb (isEmpty requesterId) && (requesterId =? _id targetAdmin))
                || (negb (isEmpty requesterEmail)
                    && (requesterEmail
                        =? toLowerCase
                             (toStr (JStr (email targetAdmin) ||| JStr ""))))
             then json 400 (msg "You cannot delete your own admin account")
             else
               Admin_deleteOne (_id targetAdmin) ;;;
               json 200 (msg "Admin removed successfully")
         end)
    "Failed to delete admin".

(** *** POST /admin/signup *)

Definition signup (req : Request) (o : Oracle) : World -> Response * World :=
  handler
    (if toLowerCase
          (toStr (ev (env_DISABLE_PUBLIC_ADMIN_SIGNUP env) ||| JStr "true"))
        =? "true"
     then json 403 (msg "Admin signup is disabled.")
     else
       ensureSeedAdmins ;;;
       let nm := trim (toStr (getField (req_body req) "name" ||| JStr "")) in
       let em := normalizeEmail (getField (req_body req) "email") in
       let pw := toStr (getField (req_body req) "password" ||| JStr "") in
       if isEmpty em || isEmpty pw
       then json 400 (msg "Email and password are required")
       else if (strLength pw <? 6)%Z
       then json 400 (msg "Password must be at least 6 characters")
       else
         existing <- Admin_findOne (byEmail em) ;;
         match existing with
         | Some _ => json 409 (msg "Admin account already exists for this email")
         | None =>
             ph <- bcryptHash pw ;;
             admin <- Admin_create nm em ph false "" None ;;
             let code := generateVerificationCode o in
             admin <- saveVerificationCode o admin code ;;
             sent <- sendVerificationCode o em code ;;
             let continue :=
               let payload :=
                 formatVerificationResponse
                   "Verification code sent to your email." sent code in
               json (if sent then 201 else 200)
                    (payload ++ [ ("verificationRequired", JBool true);
                                  ("email", JStr em) ]) in
             if negb sent then
               r <- handleMissingSmtpVerification admin ;;
               if fst r
               then json 201
                      [ ("message",
                         JStr "Admin created and verified (SMTP not configured).");
                        ("verificationRequired", JBool false);
                        ("email", JStr em) ]
               else continue
             else continue
         end)
    "Failed to create admin account".

(** *** POST /admins *)

Definition createAdmin (req : Request) : World -> Response * World :=
  handler
    (ensureSeedAdmins ;;;
     let nm := trim (toStr (getField (req_body req) "name" ||| JStr "")) in
     let em := normalizeEmail (getField (req_body req) "email") in
     let pw := toStr (getField (req_body req) "password" ||| JStr "") in
     if isEmpty em || isEmpty pw
     then json 400 (msg "Email and password are required")
     else if (strLength pw <? 6)%Z
     then json 400 (msg "Password must be at least 6 characters")
     else
       existing <- Admin_findOne (byEmail em) ;;
       match existing with
       | Some _ => json 409 (msg "Admin account already exists for this email")
       | None =>
           ph <- bcryptHash pw ;;
           admin <- Admin_create nm em ph true "" None ;;
           json 201
             [ ("message", JStr "Admin created");
               ("admin", JObj [ ("id", JStr (_id admin));
                                ("name", JStr (name admin));
                                ("email", JStr (email admin)) ]) ]
       end)
    "Failed to create admin account".

(** *** POST /admin/resend-verification *)

Definition resendVerification (req : Request) (o : Oracle)
    : World -> Response * World :=
  handler
    (let em := normalizeEmail (getField (req_body req) "email") in
     if isEmpty em then json 400 (msg "Email is required")
     else
       admin <- Admin_findOne (byEmail em) ;;
       match admin with
       | None => json 404 (msg "Admin account not found")
       | Some admin =>
           if isVerified admin
           then json 400 (msg "Admin is already verified")
           else
             let code := generateVerificationCode o in
             admin <- saveVerificationCode o admin code ;;
             sent <- sendVerificationCode o em code ;;
             let continue :=
               json 200 (formatVerificationResponse
                           "Verification code sent to your email." sent code) in
             if negb sent then
               r <- handleMissingSmtpVerification admin ;;
               if fst r
               then json 200 (msg "Admin verified (SMTP not configured).")
               else continue
             else continue
       end)
    "Failed to resend verification code".

(** *** POST /admin/login *)

Definition login (req : Request) (o : Oracle) : World -> Response * World :=
  handler
    (ensureSeedAdmins ;;;
     let em := getField (req_body req ||| JObj []) "email" in
     let pw := getField (req_body req ||| JObj []) "password" in
     if negb (truthy em) || negb (truthy pw)
     then json 400 (msg "Email and password are required")
     else
       admin <- Admin_findOne (byEmail (toLowerCase (trim (toStr em)))) ;;
       match admin with
       | None => json 401 (msg "Invalid credentials")
       | Some admin =>
           let validPassword := bcrypt_compare (toStr pw) (passwordHash admin) in
           if negb validPassword then json 401 (msg "Invalid credentials")
           else if negb (isVerified admin) then
             let code := generateVerificationCode o in
             admin <- saveVerificationCode o admin code ;;
             sent <- sendVerificationCode o (email admin) code ;;
             let continue :=
               let payload :=
                 formatVerificationResponse
                   "Verification required. Code sent to your email." sent code in
               json 403 (payload ++ [ ("verificationRequired", JBool true);
                                      ("email", JStr (email admin)) ]) in
             if negb sent then
               r <- handleMissingSmtpVerification admin ;;
               if fst r
               then json 200
                      [ ("token", JStr (signToken o (snd r)));
                        ("admin", adminSummary (snd r));
                        ("message", JStr "Logged in (SMTP not configured).") ]
               else continue
             else continue
           else
             json 200 [ ("token", JStr (signToken o admin));
                        ("admin", adminSummary admin) ]
       end)
    "Failed to login".

(** *** POST /admin/verify-login *)

Definition verifyLogin (req : Request) (o : Oracle)
    : World -> Response * World :=
  handler
    (let em := normalizeEmail (getField (req_body req) "email") in
     let code := trim (toStr (getField (req_body req) "code" ||| JStr "")) in
     if isEmpty em || isEmpty code
     then json 400 (msg "Email and verification code are required")
     else
       admin <- Admin_findOne
                  (fun a => byEmail em a
                            && dateGt (loginVerificationExpiresAt a) (now o)) ;;
       match admin with
       | None => json 400 (msg "Invalid or expired verification code")
       | Some admin =>
           let hash := sha256_hex code in
           if negb (hash =? loginVerificationCodeHash admin)
           then json 400 (msg "Invalid or expired verification code")
           else
             let admin := clearLoginCode (set_isVerified true admin) in
             Admin_save admin ;;;
             json 200 [ ("token", JStr (signToken o admin));
                        ("admin", adminSummary admin);
                        ("message", JStr "Verification successful. Logged in.") ]
       end)
    "Failed to verify code".

(** *** POST /admin/forgot-password *)

Definition resetText (resetCode : string) : string :=
  "Your password reset code is: " ++ resetCode ++ ". It expires in 15 minutes.".

Definition forgotPassword (req : Request) (o : Oracle)
    : World -> Response * World :=
  handler
    (ensureSeedAdmins ;;;
     let em := normalizeEmail (getField (req_body req) "email") in
     if isEmpty em then json 400 (msg "Email is required")
     else
       admin <- Admin_findOne (byEmail em) ;;
       match admin with
       | None => json 200 (msg "If this email exists, a reset code has been sent.")
       | Some admin =>
           let resetCode := generateVerificationCode o in
           let tokenHash := sha256_hex resetCode in
           let expiresAt := (now o + 15 * 60 * 1000)%Z in
           let admin := set_resetPasswordTokenHash tokenHash admin in
           let admin := set_resetPasswordExpiresAt (Some expiresAt) admin in
           Admin_save admin ;;;
           let settings := getEmailSettings o in
           sentViaResend <- sendWithResend o (email admin) "Admin password reset"
                              (resetText resetCode) settings ;;
           if negb sentViaResend then
             match createTransporter settings with
             | None =>
                 if negb production
                 then json 200
                        [ ("message",
                           JStr "Email is not configured. Use this reset code locally.");
                          ("resetCode", JStr resetCode) ]
                 else json 500
                        (msg "Email is not configured. Set SMTP credentials in server .env.")
             | Some transporter =>
                 sendMail o transporter (fromAddress settings) (email admin)
                          "Admin password reset" (resetText resetCode) ;;;
                 json 200 (msg "If this email exists, a reset code has been sent.")
             end
           else json 200 (msg "If this email exists, a reset code has been sent.")
       end)
    "Failed to process forgot password request".

(** *** POST /admin/reset-password *)

Definition resetPassword (req : Request) (o : Oracle)
    : World -> Response * World :=
  handler
    (let em := normalizeEmail (getField (req_body req) "email") in
     let token := trim (toStr (getField (req_body req) "token" ||| JStr "")) in
     let code := trim (toStr (getField (req_body req) "code" ||| JStr "")) in
     let newPassword :=
       toStr (getField (req_body req) "newPassword" ||| JStr "") in
     if isEmpty em || isEmpty newPassword || (isEmpty token && isEmpty code)
     then json 400
            (msg "Email, reset code (or token), and new password are required")
     else if (strLength newPassword <? 6)%Z
     then json 400 (msg "Password must be at least 6 characters")
     else
       let resetValue := toStr (JStr code ||| JStr token) in
       let tokenHash := sha256_hex resetValue in
       admin <- Admin_findOne
                  (fun a => byEmail em a
                            && (resetPasswordTokenHash a =? tokenHash)
                            && dateGt (resetPasswordExpiresAt a) (now o)) ;;
       match admin with
       | None => json 400 (msg "Invalid or expired reset code")
       | Some admin =>
           h <- bcryptHash newPassword ;;
           let admin := set_passwordHash h admin in
           let admin := set_resetPasswordTokenHash "" admin in
           let admin := set_resetPasswordExpiresAt None admin in
           Admin_save admin ;;;
           json 200 (msg "Password reset successful. Please login.")
       end)
    "Failed to reset password".

End Routes.

(** ** The mail helpers of the contact routes (contactRoutes.js) *)

Section ContactRoutes.

Variable env : Env.

(** [process.env.CONTACT_RECEIVER_EMAIL], which only this file reads. *)
Variable env_CONTACT_RECEIVER_EMAIL : option string.

Definition CONTACT_RECEIVER_EMAIL : JsVal :=
  ev env_CONTACT_RECEIVER_EMAIL ||| JStr "sakshidesai314@gmail.com".

(** The characters of the class [[;,]]. *)
Definition isSeparator (c : ascii) : bool :=
  Ascii.eqb c ";" || Ascii.eqb c ",".

(** [s.split(/[;,]/)]: the piece before the first separator and the
    pieces after it. *)
Fixpoint splitPieces (s : string) : string * list string :=
  match s with
  | EmptyString => (EmptyString, [])
  | String c r =>
      let (x, l) := splitPieces r in
      if isSeparator c then (EmptyString, x :: l) else (String c x, l)
  end.

Definition splitSeparators (s : string) : list string :=
  let (x, l) := splitPieces s in x :: l.

Definition parseList (value : JsVal) : list string :=
  filter (fun item => negb (isEmpty item))
    (map trim (splitSeparators (toStr (value ||| JStr "")))).

Definition parsePort (value fallback : JsVal) : JsVal :=
  let parsed := toNumber value in
  if isFinite parsed then parsed else fallback.

Definition getTransporter (settings : JsVal) : option Transport :=
  let host := getField settings "smtpHost" ||| ev (env_SMTP_HOST env) in
  let user := getField settings "smtpUser" ||| ev (env_SMTP_USER env) in
  let pass := getField settings "smtpPass" ||| ev (env_SMTP_PASS env) in
  if truthy host && truthy user && truthy pass then
    Some (SmtpServer host
            (parsePort (getField settings "smtpPort" ||| ev (env_SMTP_PORT env))
                       (JNum 587))
            (toLowerCase
               (toStr (getField settings "smtpSecure"
                       ||| ev (env_SMTP_SECURE env) ||| JStr "false"))
             =? "true")
            user pass)
  else
    let gmailUser := ev (env_EMAIL_USER env) in
    let gmailPass := ev (env_EMAIL_PASS env) in
    if truthy gmailUser && truthy gmailPass
    then Some (GmailService gmailUser gmailPass)
    else None.

(** The receivers both [POST /send] and [POST /test] compute from the
    settings document. *)
Definition receiverList (emailSettings : JsVal) : list string :=
  let receivers :=
    parseList (getField emailSettings "contactRecipients"
               ||| CONTACT_RECEIVER_EMAIL) in
  match receivers with
  | [] => parseList CONTACT_RECEIVER_EMAIL
  | _ :: _ => receivers
  end.

End ContactRoutes.

(** ** Vocabulary of the properties *)

Section Vocabulary.

Context {P : Primitives}.
Variable env : Env.

(** *** The collection *)

(** No two documents share an [_id]. *)
Definition uniqueIds (l : list Admin) : Prop := NoDup (map _id l).

(** Modelled from the spec: the schema that would declare the index is
    not among the sources; the data model of the specification makes
    the e-mail address unique across accounts. *)
Definition uniqueEmails (l : list Admin) : Prop := NoDup (map email l).

(** Identifiers and e-mail addresses are unique. *)
Definition consistent (l : list Admin) : Prop :=
  uniqueIds l /\ uniqueEmails l.

(** ... and [a] is one of the documents. *)
Definition stored (l : list Admin) (a : Admin) : Prop :=
  consistent l /\ In a l.

(** *** Login-code verification *)

(** An account that [em] and [code] unlock at time [t]. *)
Definition pendingLogin (em code : string) (t : Z) (a : Admin) : Prop :=
  email a = em
  /\ (exists e, loginVerificationExpiresAt a = Some e /\ (t < e)%Z)
  /\ loginVerificationCodeHash a = sha256_hex code.

(** The account after a successful verification. *)
Definition verifiedDoc (a : Admin) : Admin :=
  clearLoginCode (set_isVerified true a).

Definition loginAccepted (o : Oracle) (a : Admin) : Response :=
  {| status := 200;
     body := [ ("token", JStr (signToken env o (verifiedDoc a)));
               ("admin", adminSummary (verifiedDoc a));
               ("message", JStr "Verification successful. Logged in.") ] |}.

Definition loginRejected : Response :=
  {| status := 400; body := msg "Invalid or expired verification code" |}.

Definition submittedEmail (req : Request) : string :=
  normalizeEmail (getField (req_body req) "email").

Definition submittedCode (req : Request) : string :=
  trim (toStr (getField (req_body req) "code" ||| JStr "")).

(** *** Frames *)

(** Documents that agree on everything except the password hash and the
    reset-token fields. *)
Definition onlyResetFieldsDiffer (d d' : Admin) : Prop :=
  _id d' = _id d /\ name d' = name d /\ email d' = email d
  /\ isVerified d' = isVerified d
  /\ loginVerificationCodeHash d' = loginVerificationCodeHash d
  /\ loginVerificationExpiresAt d' = loginVerificationExpiresAt d.

(** Documents that agree on everything except the verified flag and the
    login-code fields. *)
Definition onlyLoginFieldsDiffer (d d' : Admin) : Prop :=
  _id d' = _id d /\ name d' = name d /\ email d' = email d
  /\ passwordHash d' = passwordHash d
  /\ resetPasswordTokenHash d' = resetPasswordTokenHash d
  /\ resetPasswordExpiresAt d' = resetPasswordExpiresAt d.

(** *** Password reset *)

Definition resetEmail (req : Request) : string :=
  normalizeEmail (getField (req_body req) "email").

Definition resetToken (req : Request) : string :=
  trim (toStr (getField (req_body req) "token" ||| JStr "")).

Definition resetCode (req : Request) : string :=
  trim (toStr (getField (req_body req) "code" ||| JStr "")).

Definition newPassword (req : Request) : string :=
  toStr (getField (req_body req) "newPassword" ||| JStr "").

(** [code || token]. *)
Definition resetValue (req : Request) : string :=
  toStr (JStr (resetCode req) ||| JStr (resetToken req)).

(** The request gets past the two input checks of the handler. *)
Definition wellFormedReset (req : Request) : Prop :=
  resetEmail req <> "" /\ (6 <= strLength (newPassword req))%Z
  /\ (resetToken req <> "" \/ resetCode req <> "").

(** The stored reset token of [a] answers the request at time [t]. *)
Definition pendingReset (req : Request) (t : Z) (a : Admin) : Prop :=
  email a = resetEmail req
  /\ resetPasswordTokenHash a = sha256_hex (resetValue req)
  /\ exists e, resetPasswordExpiresAt a = Some e /\ (t < e)%Z.

Definition resetRejected : Response :=
  {| status := 400; body := msg "Invalid or expired reset code" |}.

(** *** Deleting an admin *)

Definition targetId (req : Request) : string :=
  toStr (req_params_id req ||| JStr "").

Definition requesterId (req : Request) : string :=
  toStr (getField (req_admin req) "id" ||| JStr "").

Definition requesterEmail (req : Request) : string :=
  toLowerCase (trim (toStr (getField (req_admin req) "email" ||| JStr ""))).


(** The handler's test that the target is the requester: the requester's
    identifier, when the session carries one, is the target's; or the
    requester's e-mail, when the session carries one, is the target's
    up to case. *)
Definition ownAccount (req : Request) (t : Admin) : Prop :=
  (requesterId req <> "" /\ requesterId req = _id t)
  \/ (requesterEmail req <> "" /\ requesterEmail req = toLowerCase (email t)).


Definition answer (st : Z) (m : string) : Response :=
  {| status := st; body := msg m |}.

(** *** E-mail delivery *)

(** The credentials [createTransporter] resolves. *)
Definition smtpHost (settings : JsVal) : JsVal :=
  getField settings "smtpHost" ||| ev (env_SMTP_HOST env).

Definition smtpUser (settings : JsVal) : JsVal :=
  getField settings "smtpUser" ||| ev (env_SMTP_USER env)
  ||| ev (env_EMAIL_USER env).

Definition smtpPass (settings : JsVal) : JsVal :=
  getField settings "smtpPass" ||| ev (env_SMTP_PASS env)
  ||| ev (env_EMAIL_PASS env).

Definition smtpPort (settings : JsVal) : JsVal :=
  toNumber (getField settings "smtpPort" ||| ev (env_SMTP_PORT env)
            ||| JNum 587).

(** The Resend route is tried: it has a key and a sender. *)
Definition resendConfigured (settings : JsVal) : bool :=
  negb (isEmpty (getResendApiKey env settings))
  && truthy (fromAddress env settings).

(** The world once [sendWithResend] is through: the request to Resend,
    when one is made, is its only effect. *)
Definition afterResend (o : Oracle) (to subject text : string) (w : World)
    : World :=
  if resendConfigured (getEmailSettings o)
  then emit (ResendPost (getResendApiKey env (getEmailSettings o))
                        (fromAddress env (getEmailSettings o))
                        to subject text) w
  else w.

(** What [sendWithResend] gives back. *)
Definition resendOutcome (o : Oracle) : Outcome bool :=
  if resendConfigured (getEmailSettings o) then
    match resendFetch o with
    | FetchThrows => Thrown
    | FetchResponse ok => Returned ok
    end
  else Returned false.

(** What [sendVerificationCode] gives back. *)
Definition deliveryOutcome (o : Oracle) : Outcome bool :=
  match resendOutcome o with
  | Thrown => Thrown
  | Returned true => Returned true
  | Returned false =>
      match createTransporter env (getEmailSettings o) with
      | None => Returned false
      | Some _ =>
          match smtpSendMail o with
          | SendMailThrows => Thrown
          | SendMailDone => Returned true
          end
      end
  end.

(** *** Session tokens and codes in responses *)

(** [jwt.sign({ email, role: "admin", id }, key, { expiresIn: "1d" })]
    for account [a]. *)
Definition tokenFor (o : Oracle) (key : string) (a : Admin) : string :=
  jwt_sign {| jwt_email := email a; jwt_role := "admin"; jwt_id := _id a |}
           key "1d" (now o).

(** The same outside world with another random draw. *)
Definition withDraw (d : Z) (o : Oracle) : Oracle :=
  {| now := now o; randomDraw := d;
     emailSettingsDoc := emailSettingsDoc o;
     resendFetch := resendFetch o; smtpSendMail := smtpSendMail o |}.

(** The answer carries a one-time code. *)
Definition carriesCode (r : Response) : Prop :=
  assoc "verificationCode" (body r) <> JUndefined
  \/ assoc "resetCode" (body r) <> JUndefined.

(** *** Seeding *)

(** The entry has an e-mail address and a password. *)
Definition usableSeed (seed : JsVal) : bool :=
  truthy (getField seed "email") && truthy (getField seed "password").

Definition forcedSeed (seed : JsVal) : bool :=
  truthy (getField seed "forceSync").

Definition seedEmail (seed : JsVal) : string :=
  toLowerCase (trim (toStr (getField seed "email"))).

Definition seedPassword (seed : JsVal) : string :=
  toStr (getField seed "password").

Definition seedName (seed : JsVal) : string :=
  toStr (getField seed "name" ||| JStr "").

(** The account shows no drift from the entry. *)
Definition inSync (seed : JsVal) (a : Admin) : Prop :=
  bcrypt_compare (seedPassword seed) (passwordHash a) = true
  /\ name a = seedName seed
  /\ isVerified a = true.

(** Nothing is left to do for the entry: a usable entry has an account,
    and a force-synced one an account in sync. *)
Definition settled (l : list Admin) (seed : JsVal) : Prop :=
  usableSeed seed = true ->
  exists a, find (byEmail (seedEmail seed)) l = Some a
            /\ (forcedSeed seed = true -> inSync seed a).

(** The addresses of the usable force-synced entries. *)
Definition forcedEmails (l : list JsVal) : list string :=
  map seedEmail (filter (fun s => usableSeed s && forcedSeed s) l).

(** What one iteration does to the collection. *)
Definition seedStepPost (seed : JsVal) (w w' : World) : Prop :=
  uniqueIds (admins w')
  /\ settled (admins w') seed
  /\ (forall e a, find (byEmail e) (admins w) = Some a ->
        exists a', find (byEmail e) (admins w') = Some a')
  /\ (forall e a, find (byEmail e) (admins w) = Some a ->
        (usableSeed seed && forcedSeed seed = true -> e <> seedEmail seed) ->
        find (byEmail e) (admins w') = Some a).

End Vocabulary.

(** The store writes among the effects of a second call of
    [ensureSeedAdmins] in succession. *)
Definition secondCallWrites {P : Primitives} (env : Env) (w : World)
    : list Event :=
  let w1 := snd (ensureSeedAdmins env w) in
  let w2 := snd (ensureSeedAdmins env w1) in
  filter isStoreWrite (skipn (length (trace w1)) (trace w2)).

(** ** A small executable instance of the primitives

    Used to run the routes on concrete inputs.  The digest, the password
    hash and the token are readable stand-ins; [json_parse] knows the
    documents that occur in the examples. *)

Module Sample.

Definition q : string := String (ascii_of_nat 34) EmptyString.

Fixpoint salt (n : nat) : string :=
  match n with O => EmptyString | S k => String "x" (salt k) end.

Fixpoint dropSalt (h : string) : string :=
  match h with
  | String "x" r => dropSalt r
  | _ => h
  end.

Fixpoint joinAll (l : list string) : string :=
  match l with
  | [] => EmptyString
  | x :: r => x ++ joinAll r
  end.

(** [{"email":"a@x.com","password":"p1","name":N,"forceSync":true}] *)
Definition seedText (n : string) : string :=
  "{" ++ q ++ "email" ++ q ++ ":" ++ q ++ "a@x.com" ++ q ++ ","
      ++ q ++ "password" ++ q ++ ":" ++ q ++ "p1" ++ q ++ ","
      ++ q ++ "name" ++ q ++ ":" ++ q ++ n ++ q ++ ","
      ++ q ++ "forceSync" ++ q ++ ":true}".

Definition seedValue (n : string) : JsVal :=
  JObj [ ("email", JStr "a@x.com"); ("password", JStr "p1");
         ("name", JStr n); ("forceSync", JBool true) ].

(** Two force-synced entries for one e-mail address. *)
Definition twoSeedsText : string :=
  "[" ++ seedText "A" ++ "," ++ seedText "B" ++ "]".

(** [[{"email":"Bob@x.com","password":"other","name":"Robert"}]]: one
    entry without [forceSync]. *)
Definition unforcedSeedText : string :=
  "[{" ++ q ++ "email" ++ q ++ ":" ++ q ++ "Bob@x.com" ++ q ++ ","
       ++ q ++ "password" ++ q ++ ":" ++ q ++ "other" ++ q ++ ","
       ++ q ++ "name" ++ q ++ ":" ++ q ++ "Robert" ++ q ++ "}]".

Definition unforcedSeedValue : JsVal :=
  JObj [ ("email", JStr "Bob@x.com"); ("password", JStr "other");
         ("name", JStr "Robert") ].

Definition primitives : Primitives := {|
  json_parse := fun s =>
    if s =? twoSeedsText then Some (JArr [seedValue "A"; seedValue "B"])
    else if s =? unforcedSeedText then Some (JArr [unforcedSeedValue])
    else None;
  sha256_hex := fun c => "sha256:" ++ c;
  bcrypt_hash := fun n p => salt n ++ "$" ++ p;
  bcrypt_compare := fun p h => dropSalt h =? ("$" ++ p);
  jwt_sign := fun p key exp _ =>
    key ++ "." ++ jwt_email p ++ "." ++ jwt_role p ++ "." ++ jwt_id p
        ++ "." ++ exp;
  newObjectId := fun ids => "id" ++ joinAll ids
|}.

(** An environment with nothing set. *)
Definition emptyEnv : Env := {|
  env_JWT_SECRET := None; env_NODE_ENV := None;
  env_REQUIRE_ADMIN_EMAIL_VERIFICATION := None;
  env_DISABLE_PUBLIC_ADMIN_SIGNUP := None;
  env_ADMIN_ACCOUNTS := None; env_ADMIN_EMAIL := None;
  env_ADMIN_PASSWORD := None; env_ADMIN_NAME := None;
  env_SMTP_HOST := None; env_SMTP_USER := None; env_SMTP_PASS := None;
  env_SMTP_PORT := None; env_SMTP_SECURE := None;
  env_EMAIL_USER := None; env_EMAIL_PASS := None;
  env_RESEND_API_KEY := None; env_CONTACT_FROM_EMAIL := None
|}.

Definition emptyWorld : World :=
  {| admins := []; trace := []; saltsDrawn := 0 |}.

(** A quiet outside world at time [t]: no settings document, and
    network calls, if made, succeed; the random draw gives the code
    ["123456"]. *)
Definition oracleAt (t : Z) : Oracle := {|
  now := t; randomDraw := 23456;
  emailSettingsDoc := ContentFound JNull;
  resendFetch := FetchResponse true;
  smtpSendMail := SendMailDone
|}.

(** An unverified account holding a pending login code ["123456"] that
    expires at time 5000 and a pending reset code ["654321"] that
    expires at time 9000. *)
Definition alice : Admin := {|
  _id := "id1"; name := "Alice"; email := "alice@x.com";
  passwordHash := "$secret"; isVerified := false;
  loginVerificationCodeHash := "sha256:123456";
  loginVerificationExpiresAt := Some 5000;
  resetPasswordTokenHash := "sha256:654321";
  resetPasswordExpiresAt := Some 9000
|}.

Definition bob : Admin := {|
  _id := "id2"; name := "Bob"; email := "bob@x.com";
  passwordHash := "$hunter2"; isVerified := true;
  loginVerificationCodeHash := "";
  loginVerificationExpiresAt := None;
  resetPasswordTokenHash := "";
  resetPasswordExpiresAt := None
|}.

Definition twoAdmins : World :=
  {| admins := [alice; bob]; trace := []; saltsDrawn := 0 |}.

Definition bodyOf (l : list (string * JsVal)) : Request :=
  {| req_params_id := JUndefined; req_body := JObj l;
     req_admin := JUndefined |}.

End Sample.

(** Requests and configurations the examples run on. *)

Definition aliceLogin : Request :=
  Sample.bodyOf [("email", JStr " Alice@X.com"); ("code", JNum 123456)].

Definition strictEnv : Env := {|
  env_JWT_SECRET := None; env_NODE_ENV := Some "production";
  env_REQUIRE_ADMIN_EMAIL_VERIFICATION := Some "TRUE";
  env_DISABLE_PUBLIC_ADMIN_SIGNUP := Some "false";
  env_ADMIN_ACCOUNTS := None; env_ADMIN_EMAIL := None;
  env_ADMIN_PASSWORD := None; env_ADMIN_NAME := None;
  env_SMTP_HOST := None; env_SMTP_USER := None; env_SMTP_PASS := None;
  env_SMTP_PORT := None; env_SMTP_SECURE := None;
  env_EMAIL_USER := None; env_EMAIL_PASS := None;
  env_RESEND_API_KEY := None; env_CONTACT_FROM_EMAIL := None
|}.

Definition aliceReset : Request :=
  Sample.bodyOf [("email", JStr "alice@x.com"); ("code", JStr "654321");
                 ("newPassword", JStr "correct horse")].

(** A wrong code together with a new password that is too short. *)
Definition shortReset : Request :=
  Sample.bodyOf [("email", JStr "alice@x.com"); ("code", JStr "000000");
                 ("newPassword", JStr "abc")].

(** A well-formed request carrying the right code after its expiry. *)
Definition lateReset : Request := aliceReset.

(** Alice, signed in, asks to delete Bob. *)
Definition aliceDeletesBob : Request :=
  {| req_params_id := JStr "id2"; req_body := JUndefined;
     req_admin := JObj [ ("email", JStr "alice@x.com");
                         ("role", JStr "admin"); ("id", JStr "id1") ] |}.

Definition bobLogin : Request :=
  Sample.bodyOf [("email", JStr "bob@x.com"); ("password", JStr "hunter2")].

(** Alice, not yet verified, logs in where no delivery path exists. *)
Definition aliceLogsIn : Request :=
  Sample.bodyOf [("email", JStr "alice@x.com"); ("password", JStr "secret")].

Definition devStrictEnv : Env := {|
  env_JWT_SECRET := None; env_NODE_ENV := Some "development";
  env_REQUIRE_ADMIN_EMAIL_VERIFICATION := Some "true";
  env_DISABLE_PUBLIC_ADMIN_SIGNUP := Some "false";
  env_ADMIN_ACCOUNTS := None; env_ADMIN_EMAIL := None;
  env_ADMIN_PASSWORD := None; env_ADMIN_NAME := None;
  env_SMTP_HOST := None; env_SMTP_USER := None; env_SMTP_PASS := None;
  env_SMTP_PORT := None; env_SMTP_SECURE := None;
  env_EMAIL_USER := None; env_EMAIL_PASS := None;
  env_RESEND_API_KEY := None; env_CONTACT_FROM_EMAIL := None
|}.

(** [ADMIN_ACCOUNTS] lists two force-synced entries for ["a@x.com"],
    named ["A"] and ["B"]. *)
Definition twoSeedsEnv : Env := {|
  env_JWT_SECRET := None; env_NODE_ENV := None;
  env_REQUIRE_ADMIN_EMAIL_VERIFICATION := None;
  env_DISABLE_PUBLIC_ADMIN_SIGNUP := None;
  env_ADMIN_ACCOUNTS := Some Sample.twoSeedsText; env_ADMIN_EMAIL := None;
  env_ADMIN_PASSWORD := None; env_ADMIN_NAME := None;
  env_SMTP_HOST := None; env_SMTP_USER := None; env_SMTP_PASS := None;
  env_SMTP_PORT := None; env_SMTP_SECURE := None;
  env_EMAIL_USER := None; env_EMAIL_PASS := None;
  env_RESEND_API_KEY := None; env_CONTACT_FROM_EMAIL := None
|}.

(** [ADMIN_ACCOUNTS] lists one entry, for Bob, without [forceSync]. *)
Definition unforcedSeedEnv : Env := {|
  env_JWT_SECRET := None; env_NODE_ENV := None;
  env_REQUIRE_ADMIN_EMAIL_VERIFICATION := None;
  env_DISABLE_PUBLIC_ADMIN_SIGNUP := None;
  env_ADMIN_ACCOUNTS := Some Sample.unforcedSeedText; env_ADMIN_EMAIL := None;
  env_ADMIN_PASSWORD := None; env_ADMIN_NAME := None;
  env_SMTP_HOST := None; env_SMTP_USER := None; env_SMTP_PASS := None;
  env_SMTP_PORT := None; env_SMTP_SECURE := None;
  env_EMAIL_USER := None; env_EMAIL_PASS := None;
  env_RESEND_API_KEY := None; env_CONTACT_FROM_EMAIL := None
|}.

(** Only the Gmail credentials [EMAIL_USER] and [EMAIL_PASS] are set. *)
Definition gmailEnv : Env := {|
  env_JWT_SECRET := None; env_NODE_ENV := None;
  env_REQUIRE_ADMIN_EMAIL_VERIFICATION := None;
  env_DISABLE_PUBLIC_ADMIN_SIGNUP := None;
  env_ADMIN_ACCOUNTS := None; env_ADMIN_EMAIL := None;
  env_ADMIN_PASSWORD := None; env_ADMIN_NAME := None;
  env_SMTP_HOST := None; env_SMTP_USER := None; env_SMTP_PASS := None;
  env_SMTP_PORT := None; env_SMTP_SECURE := None;
  env_EMAIL_USER := Some "owner@gmail.com";
  env_EMAIL_PASS := Some "app-password";
  env_RESEND_API_KEY := None; env_CONTACT_FROM_EMAIL := None
|}.

(** An SMTP server named in the environment, port and security left to
    their defaults. *)
Definition smtpEnv : Env := {|
  env_JWT_SECRET := None; env_NODE_ENV := None;
  env_REQUIRE_ADMIN_EMAIL_VERIFICATION := None;
  env_DISABLE_PUBLIC_ADMIN_SIGNUP := None;
  env_ADMIN_ACCOUNTS := None; env_ADMIN_EMAIL := None;
  env_ADMIN_PASSWORD := None; env_ADMIN_NAME := None;
  env_SMTP_HOST := Some "mail.x.com"; env_SMTP_USER := Some "mailer";
  env_SMTP_PASS := Some "pw";
  env_SMTP_PORT := None; env_SMTP_SECURE := None;
  env_EMAIL_USER := None; env_EMAIL_PASS := None;
  env_RESEND_API_KEY := None; env_CONTACT_FROM_EMAIL := None
|}.

(** ** Vocabulary of the further properties *)

(** Every character of [s] passes [p]. *)
Fixpoint allChars (p : ascii -> bool) (s : string) : bool :=
  match s with
  | EmptyString => true
  | String c r => p c && allChars p r
  end.

(** The characters ["0"] to ["9"]. *)
Definition isDigit (c : ascii) : bool :=
  let n := nat_of_ascii c in Nat.leb 48 n && Nat.leb n 57.

Definition allDigits (s : string) : bool := allChars isDigit s.

(** An item as [parseList] returns them: not empty, no white space at
    either end, no separator inside. *)
Definition listItem (s : string) : Prop :=
  s <> "" /\ trim s = s
  /\ allChars (fun c => negb (isSeparator c)) s = true.

Section FurtherVocabulary.

Context {P : Primitives}.
Variable env : Env.

(** The world once [ensureSeedAdmins] has run. *)
Definition seeded (w : World) : World := snd (ensureSeedAdmins env w).

(** [const { email, password } = req.body || {}] of the login handler. *)
Definition loginEmail (req : Request) : JsVal :=
  getField (req_body req ||| JObj []) "email".

Definition loginPassword (req : Request) : JsVal :=
  getField (req_body req ||| JObj []) "password".

(** The address the login handler looks up. *)
Definition loginAddress (req : Request) : string :=
  toLowerCase (trim (toStr (loginEmail req))).

(** The answer of a login that needs no verification. *)
Definition loggedIn (o : Oracle) (a : Admin) : Response :=
  {| status := 200;
     body := [ ("token", JStr (signToken env o a));
               ("admin", adminSummary a) ] |}.

(** The answer of a login through the missing-transport bypass. *)
Definition loggedInByBypass (o : Oracle) (a : Admin) : Response :=
  {| status := 200;
     body := [ ("token", JStr (signToken env o a));
               ("admin", adminSummary a);
               ("message", JStr "Logged in (SMTP not configured).") ] |}.

(** A request whose body carries an e-mail address and a password. *)
Definition credentials (em pw : JsVal) : Request :=
  {| req_params_id := JUndefined;
     req_body := JObj [ ("email", em); ("password", pw) ];
     req_admin := JUndefined |}.

(** The fields of a creation request as signup and [POST /admins] read
    them. *)
Definition createName (req : Request) : string :=
  trim (toStr (getField (req_body req) "name" ||| JStr "")).

Definition createEmail (req : Request) : string :=
  normalizeEmail (getField (req_body req) "email").

Definition createPassword (req : Request) : string :=
  toStr (getField (req_body req) "password" ||| JStr "").

(** The request gets past the input checks of the two handlers. *)
Definition validCreation (req : Request) : Prop :=
  createEmail req <> "" /\ (6 <= strLength (createPassword req))%Z.

(** The document [POST /admins] creates on a collection [w]. *)
Definition createdAdmin (req : Request) (w : World) : Admin :=
  {| _id := newObjectId (map _id (admins w));
     name := createName req; email := createEmail req;
     passwordHash := bcrypt_hash (saltsDrawn w) (createPassword req);
     isVerified := true;
     loginVerificationCodeHash := "";
     loginVerificationExpiresAt := None;
     resetPasswordTokenHash := "";
     resetPasswordExpiresAt := None |}.

(** The request is one that signup refuses outright. *)
Definition signupDisabled : bool :=
  toLowerCase
    (toStr (ev (env_DISABLE_PUBLIC_ADMIN_SIGNUP env) ||| JStr "true"))
  =? "true".

(** The document signup creates on a collection [w], before a code is
    stored on it. *)
Definition signedUpAdmin (req : Request) (w : World) : Admin :=
  {| _id := newObjectId (map _id (admins w));
     name := createName req; email := createEmail req;
     passwordHash := bcrypt_hash (saltsDrawn w) (createPassword req);
     isVerified := false;
     loginVerificationCodeHash := "";
     loginVerificationExpiresAt := None;
     resetPasswordTokenHash := "";
     resetPasswordExpiresAt := None |}.

(** The document as [saveVerificationCode] stores it at [o]. *)
Definition withLoginCode (o : Oracle) (a : Admin) : Admin :=
  set_loginVerificationExpiresAt (Some (now o + LOGIN_CODE_TTL_MS)%Z)
    (set_loginVerificationCodeHash
       (sha256_hex (generateVerificationCode o)) a).

(** The document as forgot-password stores it at [o]. *)
Definition withResetCode (o : Oracle) (a : Admin) : Admin :=
  set_resetPasswordExpiresAt (Some (now o + 15 * 60 * 1000)%Z)
    (set_resetPasswordTokenHash
       (sha256_hex (generateVerificationCode o)) a).

(** The account after a successful password reset that drew salt [n]. *)
Definition resetDoc (n : nat) (pw : string) (a : Admin) : Admin :=
  set_resetPasswordExpiresAt None
    (set_resetPasswordTokenHash ""
       (set_passwordHash (bcrypt_hash n pw) a)).

(** No delivery path being available does not verify the account by
    itself: either one is, or the require-verification flag is on. *)
Definition codeRequired (o : Oracle) : Prop :=
  deliveryOutcome env o = Returned false ->
  REQUIRE_ADMIN_EMAIL_VERIFICATION env = true.

(** The answer forgot-password gives whether or not the address is
    known. *)
Definition resetRequested : Response :=
  answer 200 "If this email exists, a reset code has been sent.".

(** The answer of forgot-password for a known address, by what
    delivery gave. *)
Definition forgotAnswer (o : Oracle) : Response :=
  match deliveryOutcome env o with
  | Thrown => answer 500 "Failed to process forgot password request"
  | Returned true => resetRequested
  | Returned false =>
      if production env
      then answer 500
             "Email is not configured. Set SMTP credentials in server .env."
      else {| status := 200;
              body := [ ("message",
                         JStr "Email is not configured. Use this reset code locally.");
                        ("resetCode", JStr (generateVerificationCode o)) ] |}
  end.

Definition resetAccepted : Response :=
  answer 200 "Password reset successful. Please login.".

End FurtherVocabulary.


(** Requests and configurations the further examples run on. *)

(** The entry seeding falls back on when [ADMIN_ACCOUNTS] lists
    nothing and no [ADMIN_*] variable is set. *)
Definition defaultSeed : JsVal :=
  JObj [ ("email", JStr "aethonplast@gmail.com");
         ("password", JStr "aethonplast@2026");
         ("name", JStr "Primary Admin");
         ("forceSync", JBool true) ].

Definition carolCreate : Request :=
  Sample.bodyOf [ ("name", JStr " Carol "); ("email", JStr "Carol@x.com");
                  ("password", JStr "carolpw1") ].

(** Carol sends back the code ["123456"]. *)
Definition carolVerifies : Request :=
  Sample.bodyOf [("email", JStr "carol@x.com"); ("code", JStr "123456")].

Definition aliceForgot : Request :=
  Sample.bodyOf [("email", JStr "alice@x.com")].

(** Alice answers with the code ["123456"] and a new password. *)
Definition aliceResets : Request :=
  Sample.bodyOf [("email", JStr "alice@x.com"); ("code", JStr "123456");
                 ("newPassword", JStr "correct horse")].

(** Signup is open, nothing else is set: no delivery path, and the
    require-verification flag at its default. *)
Definition openSignupEnv : Env := {|
  env_JWT_SECRET := None; env_NODE_ENV := None;
  env_REQUIRE_ADMIN_EMAIL_VERIFICATION := None;
  env_DISABLE_PUBLIC_ADMIN_SIGNUP := Some "false";
  env_ADMIN_ACCOUNTS := None; env_ADMIN_EMAIL := None;
  env_ADMIN_PASSWORD := None; env_ADMIN_NAME := None;
  env_SMTP_HOST := None; env_SMTP_USER := None; env_SMTP_PASS := None;
  env_SMTP_PORT := None; env_SMTP_SECURE := None;
  env_EMAIL_USER := None; env_EMAIL_PASS := None;
  env_RESEND_API_KEY := None; env_CONTACT_FROM_EMAIL := None
|}.

(** The SMTP credentials of Resend, and no [RESEND_API_KEY]. *)
Definition resendSmtpEnv : Env := {|
  env_JWT_SECRET := None; env_NODE_ENV := None;
  env_REQUIRE_ADMIN_EMAIL_VERIFICATION := None;
  env_DISABLE_PUBLIC_ADMIN_SIGNUP := None;
  env_ADMIN_ACCOUNTS := None; env_ADMIN_EMAIL := None;
  env_ADMIN_PASSWORD := None; env_ADMIN_NAME := None;
  env_SMTP_HOST := Some "smtp.resend.com"; env_SMTP_USER := Some "resend";
  env_SMTP_PASS := Some "re_key";
  env_SMTP_PORT := None; env_SMTP_SECURE := None;
  env_EMAIL_USER := None; env_EMAIL_PASS := None;
  env_RESEND_API_KEY := None; env_CONTACT_FROM_EMAIL := None
|}.

(** * Properties *)

(** ** The JavaScript layer and the sample primitives *)

Example toStr_num : toStr (JNum 123456) = "123456".
Proof. reflexivity. Qed.

Example toNumber_port : toNumber (JStr " 465 ") = JNum 465.
Proof. reflexivity. Qed.

Example toNumber_literals :
  map toNumber
    [ JStr "465.0"; JStr "1e3"; JStr "0x1F"; JStr "0b101"; JStr ".5";
      JStr "-2.5e-1"; JStr "Infinity"; JStr "-Infinity"; JStr "1e400";
      JStr "9007199254740993"; JStr "465.00000000000000001";
      JStr "12px"; JStr "0x"; JStr "1_000"; JStr ""; JNull; JUndefined ]
  = [ JNum 465; JNum 1000; JNum 31; JNum 5; JFrac 1 1;
      JFrac (-1) 2; JInf false; JInf true; JInf false;
      JNum 9007199254740992; JNum 465;
      JNaN; JNaN; JNaN; JNum 0; JNum 0; JNaN ].
Proof. vm_compute. reflexivity. Qed.

Example toStr_numbers :
  map toStr
    [ JNum 0; JNum (-42); JFrac 1 1; JFrac 3602879701896397 55;
      JNum 1152921504606846976; JNum (10 ^ 21); JFrac (-3) 2;
      JInf false; JNaN ]
  = [ "0"; "-42"; "0.5"; "0.1"; "1152921504606847000"; "1e+21"; "-0.75";
      "Infinity"; "NaN" ].
Proof. vm_compute. reflexivity. Qed.

Example trim_lower : toLowerCase (trim "  Admin@X.Com  ") = "admin@x.com".
Proof. reflexivity. Qed.

Example toStr_array : toStr (JArr [JNum 1; JNull; JStr "a"]) = "1,,a".
Proof. reflexivity. Qed.

Example includes_resend : includes "resend.com" "smtp.resend.com" = true.
Proof. reflexivity. Qed.

Module SampleFacts.

Import Sample.

Lemma dropSalt_salt (n : nat) (s : string) :
  dropSalt (salt n ++ "$" ++ s) = "$" ++ s.
Proof. induction n as [|n IH]; simpl; [reflexivity | exact IH]. Qed.

Lemma length_app (a b : string) :
  String.length (a ++ b) = (String.length a + String.length b)%nat.
Proof. induction a as [|c a IH]; simpl; [reflexivity | now rewrite IH]. Qed.

Lemma length_joinAll (x : string) (l : list string) :
  In x l -> (String.length x <= String.length (joinAll l))%nat.
Proof.
  induction l as [|y l IH]; simpl; [tauto|].
  rewrite length_app. intros [->|H]; [lia | specialize (IH H); lia].
Qed.

Lemma laws : PrimitiveLaws primitives.
Proof.
  split.
  - intros n p.
    change ((dropSalt (salt n ++ "$" ++ p) =? ("$" ++ p)) = true).
    rewrite dropSalt_salt. apply String.eqb_refl.
  - intros ids H.
    change (In ("id" ++ joinAll ids) ids) in H.
    apply length_joinAll in H. simpl in H. lia.
Qed.

End SampleFacts.

Example sample_verifyLogin_ok :
  fst (verifyLogin (P := Sample.primitives) Sample.emptyEnv
         (Sample.bodyOf [("email", JStr " Alice@X.com"); ("code", JNum 123456)])
         (Sample.oracleAt 1000) Sample.twoAdmins)
  = {| status := 200;
       body := [ ("token", JStr "secretkey.alice@x.com.admin.id1.1d");
                 ("admin", JObj [ ("email", JStr "alice@x.com");
                                  ("role", JStr "admin");
                                  ("name", JStr "Alice") ]);
                 ("message", JStr "Verification successful. Logged in.") ] |}.
Proof. vm_compute. reflexivity. Qed.

Example sample_verifyLogin_expired :
  verifyLogin (P := Sample.primitives) Sample.emptyEnv
    (Sample.bodyOf [("email", JStr "alice@x.com"); ("code", JStr "123456")])
    (Sample.oracleAt 5000) Sample.twoAdmins
  = ({| status := 400; body := msg "Invalid or expired verification code" |},
     Sample.twoAdmins).
Proof. vm_compute. reflexivity. Qed.

(** ** Facts about the collection *)

Lemma isEmpty_false (s : string) : s <> "" <-> isEmpty s = false.
Proof. destruct s; simpl; split; congruence. Qed.

Lemma isEmpty_true (s : string) : s = "" <-> isEmpty s = true.
Proof. destruct s; simpl; split; congruence. Qed.

Lemma NoDup_map_inj {A B} (f : A -> B) (l : list A) (a b : A) :
  NoDup (map f l) -> In a l -> In b l -> f a = f b -> a = b.
Proof.
  induction l as [|x l IH]; simpl; [tauto|].
  intros N Ha Hb E. apply NoDup_cons_iff in N. destruct N as [Nx N].
  destruct Ha as [->|Ha], Hb as [->|Hb]; auto.
  - exfalso. apply Nx. rewrite E. now apply in_map.
  - exfalso. apply Nx. rewrite <- E. now apply in_map.
Qed.

Lemma writeBack_absent (a : Admin) (l : list Admin) :
  (forall d, In d l -> _id d <> _id a) -> writeBack a l = l.
Proof.
  induction l as [|x l IH]; simpl; intros H; [reflexivity|].
  destruct (String.eqb_spec (_id x) (_id a)) as [E|_].
  - exfalso. apply (H x); auto.
  - f_equal. apply IH. intros d Hd. apply H. now right.
Qed.

Lemma writeBack_app (a : Admin) (l1 l2 : list Admin) :
  writeBack a (l1 ++ l2) = (writeBack a l1 ++ writeBack a l2)%list.
Proof. apply map_app. Qed.

(** With unique identifiers, saving a document changes exactly the
    stored copy of that document. *)
Lemma writeBack_split (a a0 : Admin) (l : list Admin) :
  uniqueIds l -> In a0 l -> _id a = _id a0 ->
  exists l1 l2, l = (l1 ++ a0 :: l2)%list /\ writeBack a l = (l1 ++ a :: l2)%list.
Proof.
  intros N Hin E. destruct (in_split _ _ Hin) as (l1 & l2 & ->).
  exists l1, l2. split; [reflexivity|].
  assert (D : forall d, In d (l1 ++ l2)%list -> _id d <> _id a).
  { intros d Hd Ed. unfold uniqueIds in N. rewrite map_app in N. simpl in N.
    apply NoDup_remove_2 in N. apply N. rewrite <- map_app.
    rewrite <- E, <- Ed. now apply in_map. }
  rewrite writeBack_app. simpl. rewrite E, String.eqb_refl.
  rewrite !writeBack_absent; [reflexivity| |];
    intros d Hd; apply D, in_or_app; auto.
Qed.

Lemma In_writeBack (a d : Admin) (l : list Admin) :
  In d (writeBack a l) -> d = a \/ (In d l /\ _id d <> _id a).
Proof.
  unfold writeBack. rewrite in_map_iff. intros (x & Hx & Hin).
  destruct (String.eqb_spec (_id x) (_id a)); subst; auto.
Qed.

Lemma length_writeBack (a : Admin) (l : list Admin) :
  length (writeBack a l) = length l.
Proof. apply length_map. Qed.

(** ** Login-code verification *)

Section VerifyLogin.

Context {P : Primitives}.
Variable env : Env.

Lemma dateGt_spec (d : option Z) (t : Z) :
  dateGt d t = true <-> exists e, d = Some e /\ (t < e)%Z.
Proof.
  destruct d as [e|]; simpl.
  - rewrite Z.ltb_lt. split; [intros H; now exists e | now intros (e' & [= <-] & H)].
  - split; [discriminate | now intros (e & H & _)].
Qed.

Lemma verifyLogin_cases (req : Request) (o : Oracle) (w : World) :
  submittedEmail req <> "" -> submittedCode req <> "" ->
  uniqueEmails (admins w) ->
  (exists a, In a (admins w)
             /\ pendingLogin (submittedEmail req) (submittedCode req) (now o) a
             /\ verifyLogin env req o w
                = (loginAccepted env o a,
                   withAdmins (writeBack (verifiedDoc a) (admins w))
                              (StoreSave (verifiedDoc a)) w))
  \/ ((forall a, In a (admins w) ->
         ~ pendingLogin (submittedEmail req) (submittedCode req) (now o) a)
      /\ verifyLogin env req o w = (loginRejected, w)).
Proof.
  intros He Hc U. unfold verifyLogin, handler.
  fold (submittedEmail req) (submittedCode req).
  apply isEmpty_false in He, Hc. rewrite He, Hc. simpl.
  unfold bind, Admin_findOne.
  destruct (find _ (admins w)) as [b|] eqn:F.
  - apply find_some in F. destruct F as [Hb Pb].
    apply andb_prop in Pb. destruct Pb as [Eb Db].
    unfold byEmail in Eb. apply String.eqb_eq in Eb.
    apply dateGt_spec in Db.
    destruct (String.eqb_spec (sha256_hex (submittedCode req))
                              (loginVerificationCodeHash b)) as [Hh|Hh]; simpl.
    + left. exists b. repeat split; auto.
    + right. split; [|reflexivity].
      intros a Ha (Ea & _ & Hha).
      assert (a = b)
        by (apply (NoDup_map_inj email (admins w));
            [exact U | exact Ha | exact Hb | congruence]).
      subst a. congruence.
  - right. split; [|reflexivity].
    intros a Ha (Ea & Da & _).
    apply (find_none _ _ F) in Ha. apply dateGt_spec in Da.
    unfold byEmail in Ha. rewrite Da, Ea, String.eqb_refl in Ha. discriminate.
Qed.

End VerifyLogin.

(** [NoDup] of a list of distinct string literals. *)
Ltac distinct_strings :=
  repeat (constructor; [simpl; intuition discriminate|]); constructor.

Section VerifyLoginClaims.

Context {P : Primitives}.
Variable env : Env.

Lemma verifiedDoc_fields (a : Admin) :
  isVerified (verifiedDoc a) = true
  /\ loginVerificationCodeHash (verifiedDoc a) = ""
  /\ loginVerificationExpiresAt (verifiedDoc a) = None
  /\ _id (verifiedDoc a) = _id a /\ email (verifiedDoc a) = email a.
Proof. repeat split. Qed.

(** C1. For a request whose normalized e-mail and trimmed code are
    non-empty, on a collection with unique e-mail addresses and
    identifiers: verify-login answers 200 exactly when some stored
    account has that e-mail, a login-code expiry strictly after the
    current time and a login-code hash equal to the SHA-256 hex digest
    of the code.  In that case the answer carries a session token for
    the account and the stored account is replaced, in place, by its
    verified copy with the code hash emptied and the expiry null, and
    that save is the only effect.  The answer is spelled out: status
    200, the token [jwt.sign] makes of the account's e-mail, the role
    ["admin"] and its [_id] under the configured key with a one-day
    expiry, the account summary and the message.  So is the stored
    copy: verified flag [true], code hash [""], expiry [null], every
    other field as before.  In every other case (no account, no or
    expired code, other hash) the answer is the same 400 response and
    the world is unchanged. *)
Theorem verifyLogin_succeeds_iff (req : Request) (o : Oracle) (w : World) :
  submittedEmail req <> "" -> submittedCode req <> "" ->
  uniqueEmails (admins w) -> uniqueIds (admins w) ->
  (status (fst (verifyLogin env req o w)) = 200%Z
   <-> exists a, In a (admins w)
                 /\ pendingLogin (submittedEmail req) (submittedCode req) (now o) a)
  /\ (forall a, In a (admins w) ->
        pendingLogin (submittedEmail req) (submittedCode req) (now o) a ->
        fst (verifyLogin env req o w) = loginAccepted env o a
        /\ fst (verifyLogin env req o w)
           = {| status := 200;
                body :=
                  [ ("token",
                     JStr (jwt_sign
                             {| jwt_email := email a; jwt_role := "admin";
                                jwt_id := _id a |}
                             (toStr (ev (env_JWT_SECRET env)
                                     ||| JStr "secretkey"))
                             "1d" (now o)));
                    ("admin",
                     JObj [ ("email", JStr (email a)); ("role", JStr "admin");
                            ("name", JStr (name a) ||| JStr "") ]);
                    ("message", JStr "Verification successful. Logged in.") ] |}
        /\ isVerified (verifiedDoc a) = true
        /\ loginVerificationCodeHash (verifiedDoc a) = ""
        /\ loginVerificationExpiresAt (verifiedDoc a) = None
        /\ _id (verifiedDoc a) = _id a
        /\ name (verifiedDoc a) = name a
        /\ email (verifiedDoc a) = email a
        /\ passwordHash (verifiedDoc a) = passwordHash a
        /\ resetPasswordTokenHash (verifiedDoc a) = resetPasswordTokenHash a
        /\ resetPasswordExpiresAt (verifiedDoc a) = resetPasswordExpiresAt a
        /\ trace (snd (verifyLogin env req o w))
           = (trace w ++ [StoreSave (verifiedDoc a)])%list
        /\ saltsDrawn (snd (verifyLogin env req o w)) = saltsDrawn w
        /\ exists l1 l2,
             admins w = (l1 ++ a :: l2)%list
             /\ admins (snd (verifyLogin env req o w))
                = (l1 ++ verifiedDoc a :: l2)%list)
  /\ (status (fst (verifyLogin env req o w)) <> 200%Z ->
      verifyLogin env req o w = (loginRejected, w)
      /\ fst (verifyLogin env req o w)
         = {| status := 400;
              body := [ ("message",
                         JStr "Invalid or expired verification code") ] |}).
Proof.
  intros He Hc U N.
  destruct (verifyLogin_cases env req o w He Hc U)
    as [(a & Ha & Pa & ->) | (No & ->)]; simpl.
  - split; [|split].
    + split; [intros _; now exists a | reflexivity].
    + intros b Hb Pb.
      assert (b = a).
      { apply (NoDup_map_inj email (admins w)); auto.
        destruct Pa as [-> _], Pb as [-> _]. reflexivity. }
      subst b. repeat split.
      destruct (writeBack_split (verifiedDoc a) a (admins w) N Ha eq_refl)
        as (l1 & l2 & E1 & E2).
      exists l1, l2. now split.
    + intros H. now contradiction H.
  - split; [|split].
    + split; [discriminate | intros (a & Ha & Pa); now destruct (No a Ha)].
    + intros a Ha Pa. now destruct (No a Ha).
    + now split.
Qed.

(** C2. After a verify-login call that answered 200, a second call for
    the same e-mail and code, at any time, is rejected and changes
    nothing: no stored account with that e-mail has a login-code expiry
    any more, and its code hash is empty. *)
Theorem verifyLogin_single_use (req : Request) (o o' : Oracle) (w : World) :
  submittedEmail req <> "" -> submittedCode req <> "" ->
  uniqueEmails (admins w) ->
  status (fst (verifyLogin env req o w)) = 200%Z ->
  verifyLogin env req o' (snd (verifyLogin env req o w))
  = (loginRejected, snd (verifyLogin env req o w))
  /\ forall a, In a (admins (snd (verifyLogin env req o w))) ->
       email a = submittedEmail req ->
       loginVerificationCodeHash a = ""
       /\ loginVerificationExpiresAt a = None.
Proof.
  intros He Hc U S.
  destruct (verifyLogin_cases env req o w He Hc U)
    as [(a & Ha & Pa & E) | (_ & E)]; rewrite E in *; simpl in *;
    [|discriminate].
  assert (C : forall d, In d (writeBack (verifiedDoc a) (admins w)) ->
              email d = submittedEmail req -> d = verifiedDoc a).
  { intros d Hd Ed. apply In_writeBack in Hd.
    destruct Hd as [->|[Hd Hid]]; [reflexivity|].
    exfalso. apply Hid.
    assert (d = a).
    { apply (NoDup_map_inj email (admins w)); auto.
      destruct Pa as [-> _]. exact Ed. }
    now subst d. }
  split.
  - unfold verifyLogin, handler.
    fold (submittedEmail req) (submittedCode req).
    apply isEmpty_false in He, Hc. rewrite He, Hc. simpl.
    unfold bind, Admin_findOne. simpl.
    destruct (find _ (writeBack (verifiedDoc a) (admins w))) as [b|] eqn:F;
      [|reflexivity].
    apply find_some in F. destruct F as [Hb Pb].
    apply andb_prop in Pb. destruct Pb as [Eb Db].
    apply String.eqb_eq in Eb. rewrite (C b Hb Eb) in Db. discriminate.
  - intros d Hd Ed. rewrite (C d Hd Ed). now split.
Qed.

End VerifyLoginClaims.

Lemma verifyLogin_succeeds_iff_witness :
  status (fst (verifyLogin (P := Sample.primitives) Sample.emptyEnv aliceLogin
                 (Sample.oracleAt 1000) Sample.twoAdmins)) = 200%Z
  <-> exists a, In a (admins Sample.twoAdmins)
                /\ pendingLogin (P := Sample.primitives)
                     (submittedEmail aliceLogin) (submittedCode aliceLogin)
                     (now (Sample.oracleAt 1000)) a.
Proof.
  apply (verifyLogin_succeeds_iff (P := Sample.primitives) Sample.emptyEnv
           aliceLogin (Sample.oracleAt 1000) Sample.twoAdmins).
  - vm_compute. discriminate.
  - vm_compute. discriminate.
  - unfold uniqueEmails. simpl. distinct_strings.
  - unfold uniqueIds. simpl. distinct_strings.
Defined.

Lemma verifyLogin_single_use_witness :
  verifyLogin (P := Sample.primitives) Sample.emptyEnv aliceLogin
    (Sample.oracleAt 1001)
    (snd (verifyLogin (P := Sample.primitives) Sample.emptyEnv aliceLogin
            (Sample.oracleAt 1000) Sample.twoAdmins))
  = (loginRejected,
     snd (verifyLogin (P := Sample.primitives) Sample.emptyEnv aliceLogin
            (Sample.oracleAt 1000) Sample.twoAdmins)).
Proof.
  apply (verifyLogin_single_use (P := Sample.primitives) Sample.emptyEnv
           aliceLogin (Sample.oracleAt 1000) (Sample.oracleAt 1001)
           Sample.twoAdmins).
  - vm_compute. discriminate.
  - vm_compute. discriminate.
  - unfold uniqueEmails. simpl. distinct_strings.
  - vm_compute. reflexivity.
Defined.

(** ** The missing-transport bypass *)

Lemma find_writeBack (a : Admin) (l : list Admin) :
  (exists d, In d l /\ _id d = _id a) ->
  find (fun x => _id x =? _id a) (writeBack a l) = Some a.
Proof.
  induction l as [|x l IH]; simpl; intros (d & Hd & E); [tauto|].
  destruct (String.eqb_spec (_id x) (_id a)) as [Ex|Nx].
  - now rewrite String.eqb_refl.
  - apply String.eqb_neq in Nx. rewrite Nx. apply IH.
    destruct Hd as [->|Hd]; [|now exists d].
    apply String.eqb_neq in Nx. contradiction.
Qed.

Section Bypass.

Variable env : Env.

(** C5. With the require-admin-email-verification flag off, the bypass
    marks the account verified, empties its login-code hash, nulls the
    expiry, saves it (the stored copy, when there is one, becomes that
    document) and reports [true]; with the flag on it reports [false]
    and neither the document nor the world changes. *)
Theorem handleMissingSmtpVerification_policy (admin : Admin) (w : World) :
  (REQUIRE_ADMIN_EMAIL_VERIFICATION env = false ->
     handleMissingSmtpVerification env admin w
     = (Returned (true, verifiedDoc admin),
        withAdmins (writeBack (verifiedDoc admin) (admins w))
                   (StoreSave (verifiedDoc admin)) w)
     /\ isVerified (verifiedDoc admin) = true
     /\ loginVerificationCodeHash (verifiedDoc admin) = ""
     /\ loginVerificationExpiresAt (verifiedDoc admin) = None
     /\ ((exists d, In d (admins w) /\ _id d = _id admin) ->
         find (fun x => _id x =? _id admin)
              (admins (snd (handleMissingSmtpVerification env admin w)))
         = Some (verifiedDoc admin)))
  /\ (REQUIRE_ADMIN_EMAIL_VERIFICATION env = true ->
        handleMissingSmtpVerification env admin w
        = (Returned (false, admin), w)).
Proof.
  unfold handleMissingSmtpVerification. split; intros ->.
  - repeat split. intros H. simpl.
    apply (find_writeBack (verifiedDoc admin)). exact H.
  - reflexivity.
Qed.

End Bypass.

Lemma handleMissingSmtpVerification_policy_witness :
  (handleMissingSmtpVerification Sample.emptyEnv
     Sample.alice Sample.twoAdmins
   = (Returned (true, verifiedDoc Sample.alice),
      withAdmins [verifiedDoc Sample.alice; Sample.bob]
                 (StoreSave (verifiedDoc Sample.alice)) Sample.twoAdmins))
  /\ handleMissingSmtpVerification strictEnv
       Sample.alice Sample.twoAdmins
     = (Returned (false, Sample.alice), Sample.twoAdmins).
Proof.
  split.
  - apply (handleMissingSmtpVerification_policy
             Sample.emptyEnv Sample.alice Sample.twoAdmins).
    reflexivity.
  - apply (handleMissingSmtpVerification_policy
             strictEnv Sample.alice Sample.twoAdmins).
    reflexivity.
Defined.

(** ** Frames of the two one-time-code flows *)

Lemma Forall2_same {A} (R : A -> A -> Prop) (l : list A) :
  (forall x, R x x) -> Forall2 R l l.
Proof. intros H. induction l; constructor; auto. Qed.

Lemma Forall2_writeBack (R : Admin -> Admin -> Prop) (a a' : Admin)
    (l : list Admin) :
  (forall x, R x x) -> uniqueIds l -> In a l -> _id a' = _id a -> R a a' ->
  Forall2 R l (writeBack a' l).
Proof.
  intros Rr N Hin E Ra.
  destruct (writeBack_split a' a l N Hin E) as (l1 & l2 & -> & ->).
  apply Forall2_app; [now apply Forall2_same|].
  constructor; [exact Ra | now apply Forall2_same].
Qed.

Section Frames.

Context {P : Primitives}.
Variable env : Env.

(** C6. On a collection with unique identifiers, whatever the request,
    the collection after reset-password is the collection before,
    document by document, up to the password hash, the reset-token hash
    and the reset-token expiry (so every login-code hash and expiry is
    as it was); and the collection after verify-login is the collection
    before up to the verified flag, the login-code hash and the
    login-code expiry (so every reset-token hash and expiry is as it
    was). *)
Theorem reset_and_login_frames (req : Request) (o : Oracle) (w : World) :
  uniqueIds (admins w) ->
  Forall2 onlyResetFieldsDiffer
          (admins w) (admins (snd (resetPassword req o w)))
  /\ Forall2 onlyLoginFieldsDiffer
             (admins w) (admins (snd (verifyLogin env req o w))).
Proof.
  intros N.
  assert (R1 : forall x, onlyResetFieldsDiffer x x) by (repeat split).
  assert (R2 : forall x, onlyLoginFieldsDiffer x x) by (repeat split).
  split.
  - unfold resetPassword, handler.
    destruct (_ || _ || _); [now apply Forall2_same|].
    destruct (_ <? _)%Z; [now apply Forall2_same|].
    unfold bind, Admin_findOne, bcryptHash. simpl.
    destruct (find _ (admins w)) as [a|] eqn:F; simpl;
      [|now apply Forall2_same].
    apply find_some in F. destruct F as [Ha _].
    apply Forall2_writeBack with (a := a); auto. repeat split.
  - unfold verifyLogin, handler.
    destruct (_ || _); [now apply Forall2_same|].
    unfold bind, Admin_findOne. simpl.
    destruct (find _ (admins w)) as [a|] eqn:F; simpl;
      [|now apply Forall2_same].
    apply find_some in F. destruct F as [Ha _].
    destruct (negb _); simpl; [now apply Forall2_same|].
    apply Forall2_writeBack with (a := a); auto. repeat split.
Qed.

End Frames.

Example sample_resetPassword_ok :
  resetPassword (P := Sample.primitives) aliceReset
    (Sample.oracleAt 1000) Sample.twoAdmins
  = ({| status := 200; body := msg "Password reset successful. Please login." |},
     {| admins :=
          [ {| _id := "id1"; name := "Alice"; email := "alice@x.com";
               passwordHash := "$correct horse"; isVerified := false;
               loginVerificationCodeHash := "sha256:123456";
               loginVerificationExpiresAt := Some 5000%Z;
               resetPasswordTokenHash := "";
               resetPasswordExpiresAt := None |};
            Sample.bob ];
        trace :=
          [ StoreSave
              {| _id := "id1"; name := "Alice"; email := "alice@x.com";
                 passwordHash := "$correct horse"; isVerified := false;
                 loginVerificationCodeHash := "sha256:123456";
                 loginVerificationExpiresAt := Some 5000%Z;
                 resetPasswordTokenHash := "";
                 resetPasswordExpiresAt := None |} ];
        saltsDrawn := 1 |}).
Proof. vm_compute. reflexivity. Qed.

Lemma reset_and_login_frames_witness :
  Forall2 onlyResetFieldsDiffer
    (admins Sample.twoAdmins)
    (admins (snd (resetPassword (P := Sample.primitives)
                    aliceReset (Sample.oracleAt 1000) Sample.twoAdmins)))
  /\ Forall2 onlyLoginFieldsDiffer
       (admins Sample.twoAdmins)
       (admins (snd (verifyLogin (P := Sample.primitives) Sample.emptyEnv
                       aliceLogin (Sample.oracleAt 1000) Sample.twoAdmins))).
Proof.
  assert (N : uniqueIds (admins Sample.twoAdmins))
    by (unfold uniqueIds; simpl; distinct_strings).
  split.
  - exact (proj1 (reset_and_login_frames (P := Sample.primitives)
                    Sample.emptyEnv aliceReset (Sample.oracleAt 1000)
                    Sample.twoAdmins N)).
  - exact (proj2 (reset_and_login_frames (P := Sample.primitives)
                    Sample.emptyEnv aliceLogin (Sample.oracleAt 1000)
                    Sample.twoAdmins N)).
Defined.

(** ** Rejected password resets *)

Section ResetPassword.

Context {P : Primitives}.

(** C8, as amended.  When no stored account with the request's e-mail
    has both the reset-token hash of the supplied code (or token) and a
    reset-token expiry strictly after the current time, reset-password
    answers 400 and leaves the world exactly as it was, password hashes
    included; and when the request passes input validation (non-empty
    e-mail, a new password of at least 6 characters, a code or a
    token), the answer is the one invalid-or-expired response. *)
Theorem resetPassword_rejected_unchanged (req : Request) (o : Oracle)
    (w : World) :
  (forall a, In a (admins w) -> ~ pendingReset req (now o) a) ->
  snd (resetPassword req o w) = w
  /\ status (fst (resetPassword req o w)) = 400%Z
  /\ (wellFormedReset req -> fst (resetPassword req o w) = resetRejected).
Proof.
  intros No. unfold resetPassword, handler.
  fold (resetEmail req) (resetToken req) (resetCode req) (newPassword req).
  fold (resetValue req).
  destruct (isEmpty (resetEmail req)) eqn:E1; simpl.
  { repeat split. intros (H & _). apply isEmpty_false in H. congruence. }
  destruct (isEmpty (newPassword req)) eqn:E2; simpl.
  { repeat split. intros (_ & H & _).
    apply isEmpty_true in E2. rewrite E2 in H.
    unfold strLength in H. simpl in H. lia. }
  destruct (isEmpty (resetToken req) && isEmpty (resetCode req)) eqn:E3; simpl.
  { repeat split. intros (_ & _ & H). apply andb_prop in E3.
    destruct E3 as [T C]. apply isEmpty_true in T, C. tauto. }
  destruct (Z.ltb_spec (strLength (newPassword req)) 6); simpl.
  { repeat split. intros (_ & H' & _). lia. }
  unfold bind, Admin_findOne.
  destruct (find _ (admins w)) as [a|] eqn:F; simpl; [|now repeat split].
  exfalso. apply find_some in F. destruct F as [Ha Pa].
  apply andb_prop in Pa. destruct Pa as [Pa D].
  apply andb_prop in Pa. destruct Pa as [Ea Ta].
  apply (No a Ha). repeat split.
  - now apply String.eqb_eq.
  - now apply String.eqb_eq.
  - now apply dateGt_spec.
Qed.

End ResetPassword.

(** C8, as stated, fails: the supplied code does not hash to the stored
    reset-token hash, yet the answer is the password-length error, not
    the invalid-or-expired one. *)
Lemma resetPassword_short_password_first :
  sha256_hex (Primitives := Sample.primitives) (resetValue shortReset)
    <> resetPasswordTokenHash Sample.alice
  /\ fst (resetPassword (P := Sample.primitives) shortReset
            (Sample.oracleAt 1000) Sample.twoAdmins)
     = {| status := 400;
          body := msg "Password must be at least 6 characters" |}
  /\ fst (resetPassword (P := Sample.primitives) shortReset
            (Sample.oracleAt 1000) Sample.twoAdmins)
     <> resetRejected.
Proof. vm_compute. repeat split; discriminate. Qed.

Lemma resetPassword_rejected_unchanged_witness :
  snd (resetPassword (P := Sample.primitives) lateReset
         (Sample.oracleAt 9000) Sample.twoAdmins) = Sample.twoAdmins
  /\ status (fst (resetPassword (P := Sample.primitives) lateReset
                    (Sample.oracleAt 9000) Sample.twoAdmins)) = 400%Z
  /\ (wellFormedReset lateReset ->
      fst (resetPassword (P := Sample.primitives) lateReset
             (Sample.oracleAt 9000) Sample.twoAdmins) = resetRejected).
Proof.
  apply (resetPassword_rejected_unchanged (P := Sample.primitives) lateReset
           (Sample.oracleAt 9000) Sample.twoAdmins).
  intros a [<-|[<-|[]]] (E & H & e & X & L).
  - vm_compute in X. injection X as <-. vm_compute in L. discriminate.
  - vm_compute in E. discriminate.
Defined.

Example lateReset_wellFormed : wellFormedReset lateReset.
Proof.
  split; [|split].
  - vm_compute. discriminate.
  - vm_compute. discriminate.
  - right. vm_compute. discriminate.
Qed.

(** ** Deleting an admin *)

Lemma toStr_orEmpty (s : string) : toStr (JStr s ||| JStr "") = s.
Proof. now destruct s. Qed.


Section DeleteAdmin.



End DeleteAdmin.

Lemma lowerChar_idem (c : ascii) : lowerChar (lowerChar c) = lowerChar c.
Proof. destruct c as [[] [] [] [] [] [] [] []]; reflexivity. Qed.

Lemma toLowerCase_idem (s : string) : toLowerCase (toLowerCase s) = toLowerCase s.
Proof.
  induction s as [|c s IH]; simpl; [reflexivity|].
  now rewrite lowerChar_idem, IH.
Qed.

(** When stored e-mail addresses are normalized, as every route that
    creates an account leaves them, a session that carries the target's
    own e-mail address is a session of the target. *)
Lemma ownAccount_same_email (req : Request) (t : Admin) :
  getField (req_admin req) "email" = JStr (email t) ->
  email t <> "" -> toLowerCase (trim (email t)) = email t ->
  ownAccount req t.
Proof.
  intros E NE Norm. right. unfold requesterEmail.
  rewrite E, toStr_orEmpty, Norm. split; [exact NE|].
  rewrite <- Norm at 2. now rewrite toLowerCase_idem.
Qed.


Example sample_delete_self :
  deleteAdmin
    {| req_params_id := JStr "id1"; req_body := JUndefined;
       req_admin := JObj [ ("email", JStr "alice@x.com"); ("id", JStr "id1") ] |}
    Sample.twoAdmins
  = (answer 400 "You cannot delete your own admin account", Sample.twoAdmins).
Proof. reflexivity. Qed.

Example sample_delete_last :
  deleteAdmin aliceDeletesBob
    {| admins := [Sample.bob]; trace := []; saltsDrawn := 0 |}
  = (answer 400 "Cannot delete the last admin account",
     {| admins := [Sample.bob]; trace := []; saltsDrawn := 0 |}).
Proof. reflexivity. Qed.

(** ** E-mail delivery *)

Section Delivery.

Variable env : Env.

Lemma sendWithResend_outcome (o : Oracle) (to subject text : string)
    (w : World) :
  sendWithResend env o to subject text (getEmailSettings o) w
  = (resendOutcome env o,
     if resendConfigured env (getEmailSettings o)
     then emit (ResendPost (getResendApiKey env (getEmailSettings o))
                           (fromAddress env (getEmailSettings o))
                           to subject text) w
     else w).
Proof.
  unfold sendWithResend, resendOutcome, resendConfigured.
  destruct (isEmpty (getResendApiKey env (getEmailSettings o))); simpl;
    [reflexivity|].
  destruct (truthy (fromAddress env (getEmailSettings o))); simpl;
    [|reflexivity].
  now destruct (resendFetch o).
Qed.

Lemma createTransporter_cases (settings : JsVal) :
  createTransporter env settings
  = if negb (truthy (smtpUser env settings)) || negb (truthy (smtpPass env settings))
    then None
    else if negb (truthy (smtpHost env settings))
    then Some (GmailService (smtpUser env settings) (smtpPass env settings))
    else Some (SmtpServer (smtpHost env settings) (smtpPort env settings)
                 (if notNullish (getField settings "smtpSecure")
                  then toLowerCase (toStr (getField settings "smtpSecure"))
                       =? "true"
                  else if notNullish (ev (env_SMTP_SECURE env))
                  then toLowerCase (toStr (ev (env_SMTP_SECURE env))) =? "true"
                  else strictEqNum (smtpPort env settings) 465)
                 (smtpUser env settings) (smtpPass env settings)).
Proof. reflexivity. Qed.

Lemma sendVerificationCode_outcome (o : Oracle) (em code : string)
    (w : World) :
  fst (sendVerificationCode env o em code w) = deliveryOutcome env o
  /\ admins (snd (sendVerificationCode env o em code w)) = admins w
  /\ saltsDrawn (snd (sendVerificationCode env o em code w)) = saltsDrawn w.
Proof.
  unfold sendVerificationCode, bind, deliveryOutcome.
  rewrite sendWithResend_outcome.
  destruct (resendOutcome env o) as [[|]|]; simpl.
  - destruct (resendConfigured env _); now repeat split.
  - destruct (createTransporter env (getEmailSettings o)); simpl.
    + unfold sendMail. destruct (smtpSendMail o), (resendConfigured env _);
        now repeat split.
    + destruct (resendConfigured env _); now repeat split.
  - destruct (resendConfigured env _); now repeat split.
Qed.

(** C9, as amended.  [sendVerificationCode] tries the Resend route
    first; when that route reports success the code is sent and no mail
    transport is used.  When it returns without success (it is not
    configured, or the response is not OK) the call falls through to a
    mail transport exactly when a user and a password are resolvable
    from the settings or the environment: on the resolved host when
    there is one, with port [Number(smtpPort || SMTP_PORT || 587)] (587
    when neither is set) and, unless [smtpSecure] or [SMTP_SECURE]
    overrides it, secure exactly when that port is 465; through the
    Gmail service when no host is resolvable.  When user or password is
    missing the call returns [false]; it does not throw. *)
Theorem sendVerificationCode_fallback (o : Oracle) (em code : string)
    (w : World) :
  (resendOutcome env o = Returned true ->
     sendVerificationCode env o em code w
     = (Returned true,
        afterResend env o em "Admin verification code"
                    (verificationText code) w))
  /\ (resendOutcome env o = Returned false ->
      (createTransporter env (getEmailSettings o) = None ->
         sendVerificationCode env o em code w
         = (Returned false,
            afterResend env o em "Admin verification code"
                        (verificationText code) w))
      /\ (forall t, createTransporter env (getEmailSettings o) = Some t ->
            sendVerificationCode env o em code w
            = (match smtpSendMail o with
               | SendMailDone => Returned true
               | SendMailThrows => Thrown
               end,
               emit (SmtpSendMail t (fromAddress env (getEmailSettings o)) em
                       "Admin verification code" (verificationText code))
                    (afterResend env o em "Admin verification code"
                                 (verificationText code) w))))
  /\ (createTransporter env (getEmailSettings o) <> None
      <-> truthy (smtpUser env (getEmailSettings o)) = true
          /\ truthy (smtpPass env (getEmailSettings o)) = true)
  /\ (forall t, createTransporter env (getEmailSettings o) = Some t ->
        if truthy (smtpHost env (getEmailSettings o))
        then exists secure,
               t = SmtpServer (smtpHost env (getEmailSettings o))
                     (smtpPort env (getEmailSettings o)) secure
                     (smtpUser env (getEmailSettings o))
                     (smtpPass env (getEmailSettings o))
               /\ (notNullish (getField (getEmailSettings o) "smtpSecure")
                   = false ->
                   env_SMTP_SECURE env = None ->
                   secure = true
                   <-> smtpPort env (getEmailSettings o) = JNum 465)
        else t = GmailService (smtpUser env (getEmailSettings o))
                              (smtpPass env (getEmailSettings o)))
  /\ (truthy (getField (getEmailSettings o) "smtpPort") = false ->
      truthy (ev (env_SMTP_PORT env)) = false ->
      smtpPort env (getEmailSettings o) = JNum 587).
Proof.
  set (settings := getEmailSettings o).
  set (w1 := afterResend env o em "Admin verification code"
                         (verificationText code) w).
  assert (S : sendVerificationCode env o em code w
              = match resendOutcome env o with
                | Returned true => (Returned true, w1)
                | Returned false =>
                    match createTransporter env settings with
                    | None => (Returned false, w1)
                    | Some t =>
                        (match smtpSendMail o with
                         | SendMailDone => Returned true
                         | SendMailThrows => Thrown
                         end,
                         emit (SmtpSendMail t (fromAddress env settings) em
                                 "Admin verification code"
                                 (verificationText code)) w1)
                    end
                | Thrown => (Thrown, w1)
                end).
  { unfold sendVerificationCode, bind. rewrite sendWithResend_outcome.
    fold settings.
    change (if resendConfigured env settings
            then emit (ResendPost (getResendApiKey env settings)
                                  (fromAddress env settings) em
                                  "Admin verification code"
                                  (verificationText code)) w
            else w) with w1.
    destruct (resendOutcome env o) as [[|]|]; try reflexivity.
    destruct (createTransporter env settings); [|reflexivity].
    unfold sendMail. now destruct (smtpSendMail o). }
  split; [|split; [|split; [|split]]].
  - intros R. now rewrite S, R.
  - intros R. rewrite S, R. split.
    + now intros ->.
    + now intros t ->.
  - rewrite createTransporter_cases.
    destruct (truthy (smtpUser env settings)),
             (truthy (smtpPass env settings));
      simpl;
      try (split; [intros H; now contradiction H | intros [? ?]; discriminate]).
    destruct (negb (truthy (smtpHost env settings))); split; auto; discriminate.
  - intros t. rewrite createTransporter_cases.
    destruct (negb (truthy (smtpUser env settings))
              || negb (truthy (smtpPass env settings))); [discriminate|].
    destruct (truthy (smtpHost env settings)); simpl; intros [= <-];
      [|reflexivity].
    eexists. split; [reflexivity|]. intros -> E. rewrite E. simpl.
    unfold strictEqNum. destruct (smtpPort env settings);
      try (split; discriminate).
    rewrite Z.eqb_eq. split; congruence.
  - intros A B. unfold smtpPort, jsOr. now rewrite A, B.
Qed.

End Delivery.

(** ** Session tokens *)

(** Case analysis on the innermost scrutinee left in the goal. *)
Ltac break_match :=
  match goal with
  | |- context [match ?x with _ => _ end] =>
      lazymatch x with
      | context [match _ with _ => _ end] => fail
      | _ => destruct x eqn:?
      end
  end.

Section SessionKey.

Context {P : Primitives}.
Variable env : Env.

Lemma login_token (req : Request) (o : Oracle) (w : World) :
  assoc "token" (body (fst (login env req o w))) = JUndefined
  \/ exists a, assoc "token" (body (fst (login env req o w)))
               = JStr (tokenFor o (JWT_SECRET env) a).
Proof.
  unfold login, handler, bind.
  repeat (break_match; simpl; auto);
    try (right; eexists; reflexivity);
    unfold formatVerificationResponse; repeat (break_match; simpl; auto).
Qed.

Lemma verifyLogin_token (req : Request) (o : Oracle) (w : World) :
  assoc "token" (body (fst (verifyLogin env req o w))) = JUndefined
  \/ exists a, assoc "token" (body (fst (verifyLogin env req o w)))
               = JStr (tokenFor o (JWT_SECRET env) a).
Proof.
  unfold verifyLogin, handler, bind.
  repeat (break_match; simpl; auto); right; eexists; reflexivity.
Qed.

(** C10. With [JWT_SECRET] unset the signing key is the literal
    ["secretkey"], and every session token in an answer of login
    (verified accounts and the missing-transport bypass alike) and of
    verify-login is [jwt.sign] of the account's claims under that key:
    one key for every account and every issuance. *)
Theorem session_tokens_default_key (req : Request) (o : Oracle) (w : World) :
  env_JWT_SECRET env = None ->
  JWT_SECRET env = "secretkey"
  /\ (forall tok,
        assoc "token" (body (fst (login env req o w))) = JStr tok ->
        exists a, tok = tokenFor o "secretkey" a)
  /\ (forall tok,
        assoc "token" (body (fst (verifyLogin env req o w))) = JStr tok ->
        exists a, tok = tokenFor o "secretkey" a).
Proof.
  intros U.
  assert (K : JWT_SECRET env = "secretkey")
    by (unfold JWT_SECRET; now rewrite U).
  split; [exact K|]. rewrite <- K. split; intros tok E.
  - destruct (login_token req o w) as [H|(a & H)]; rewrite H in E;
      [discriminate|]. injection E as <-. now exists a.
  - destruct (verifyLogin_token req o w) as [H|(a & H)]; rewrite H in E;
      [discriminate|]. injection E as <-. now exists a.
Qed.

End SessionKey.

Example sample_login_verified :
  fst (login (P := Sample.primitives) Sample.emptyEnv bobLogin
         (Sample.oracleAt 1000) Sample.twoAdmins)
  = {| status := 200;
       body := [ ("token", JStr "secretkey.bob@x.com.admin.id2.1d");
                 ("admin", JObj [ ("email", JStr "bob@x.com");
                                  ("role", JStr "admin");
                                  ("name", JStr "Bob") ]) ] |}.
Proof. vm_compute. reflexivity. Qed.

Lemma session_tokens_default_key_witness :
  exists a,
    "secretkey.bob@x.com.admin.id2.1d"
    = tokenFor (P := Sample.primitives) (Sample.oracleAt 1000) "secretkey" a.
Proof.
  refine (proj1 (proj2 (session_tokens_default_key (P := Sample.primitives)
                          Sample.emptyEnv bobLogin (Sample.oracleAt 1000)
                          Sample.twoAdmins eq_refl)) _ _).
  vm_compute. reflexivity.
Defined.

(** ** One-time codes in responses *)

Section CodesInResponses.

Context {P : Primitives}.
Variable env : Env.

Lemma sendVerificationCode_run (o : Oracle) (em code : string) (w : World) :
  sendVerificationCode env o em code w
  = (deliveryOutcome env o, snd (sendVerificationCode env o em code w)).
Proof.
  rewrite <- (proj1 (sendVerificationCode_outcome env o em code w)).
  apply surjective_pairing.
Qed.

Lemma deliveryOutcome_withDraw (d : Z) (o : Oracle) :
  deliveryOutcome env (withDraw d o) = deliveryOutcome env o.
Proof. reflexivity. Qed.

Lemma deliveryOutcome_false (o : Oracle) :
  deliveryOutcome env o = Returned false <->
  resendOutcome env o = Returned false
  /\ createTransporter env (getEmailSettings o) = None.
Proof.
  unfold deliveryOutcome.
  destruct (resendOutcome env o) as [[|]|];
    try (split; [discriminate | intros [? _]; discriminate]).
  destruct (createTransporter env (getEmailSettings o)).
  - destruct (smtpSendMail o);
      (split; [discriminate | intros [_ ?]; discriminate]).
  - split; auto.
Qed.

Lemma sendWithResend_run (o : Oracle) (to subject text : string)
    (settings : JsVal) (w : World) :
  sendWithResend env o to subject text settings w
  = (if resendConfigured env settings
     then match resendFetch o with
          | FetchThrows => Thrown
          | FetchResponse ok => Returned ok
          end
     else Returned false,
     if resendConfigured env settings
     then emit (ResendPost (getResendApiKey env settings)
                           (fromAddress env settings) to subject text) w
     else w).
Proof.
  unfold sendWithResend, resendConfigured.
  destruct (isEmpty (getResendApiKey env settings)); simpl; [reflexivity|].
  destruct (truthy (fromAddress env settings)); simpl; [|reflexivity].
  now destruct (resendFetch o).
Qed.

(** Replace a delivery call by what it gives back. *)
Ltac expose_delivery :=
  match goal with
  | |- context [sendVerificationCode ?e ?o ?em ?c ?w] =>
      rewrite (sendVerificationCode_run o em c w);
      rewrite ?deliveryOutcome_withDraw;
      generalize (snd (sendVerificationCode e o em c w)); intro
  | |- context [sendWithResend ?e ?o ?to ?su ?te ?s ?w] =>
      rewrite (sendWithResend_run o to su te s w)
  end.

(** Run a handler by cases, innermost test first. *)
Ltac crunch :=
  unfold handler, bind, json, ret, formatVerificationResponse,
    handleMissingSmtpVerification, saveVerificationCode, Admin_save,
    Admin_findOne, Admin_create, bcryptHash, sendMail;
  repeat first [ progress simpl | expose_delivery | break_match ].

(** Rewrite with the outcome of every test passed on the way. *)
Ltac use_equations :=
  repeat match goal with
  | H : negb _ = true |- _ => apply negb_true_iff in H
  | H : negb _ = false |- _ => apply negb_false_iff in H
  end;
  subst;
  repeat match goal with
  | H : ?x = _ |- context [?x] => rewrite H
  end.

Ltac code_only_undelivered :=
  unfold carriesCode; crunch;
  try (intros [H|H]; now contradiction H);
  intros _;
  (split;
   [ now apply negb_true_iff
   | unfold deliveryOutcome, resendOutcome; use_equations; reflexivity ]).

Ltac same_without_code Hp d o :=
  change (getEmailSettings (withDraw d o)) with (getEmailSettings o);
  unfold formatVerificationResponse; rewrite Hp; crunch;
  try reflexivity; try congruence.

(** The same where some delivery path worked or threw: the branch that
    would show the code is not taken. *)
Ltac same_when_delivered Hd d o :=
  change (getEmailSettings (withDraw d o)) with (getEmailSettings o);
  crunch; try reflexivity; try congruence;
  exfalso; apply Hd; unfold deliveryOutcome, resendOutcome;
  use_equations; reflexivity.

Lemma signup_code (req : Request) (o : Oracle) (w : World) :
  (carriesCode (fst (signup env req o w)) ->
   production env = false /\ deliveryOutcome env o = Returned false)
  /\ (production env = true \/ deliveryOutcome env o <> Returned false ->
      forall d,
        fst (signup env req (withDraw d o) w)
        = fst (signup env req o w)).
Proof.
  split.
  - unfold signup. code_only_undelivered.
  - intros [Hp|Hd] d; unfold signup;
      [same_without_code Hp d o | same_when_delivered Hd d o].
Qed.

Lemma resendVerification_code (req : Request) (o : Oracle) (w : World) :
  (carriesCode (fst (resendVerification env req o w)) ->
   production env = false /\ deliveryOutcome env o = Returned false)
  /\ (production env = true \/ deliveryOutcome env o <> Returned false ->
      forall d,
        fst (resendVerification env req (withDraw d o) w)
        = fst (resendVerification env req o w)).
Proof.
  split.
  - unfold resendVerification. code_only_undelivered.
  - intros [Hp|Hd] d; unfold resendVerification;
      [same_without_code Hp d o | same_when_delivered Hd d o].
Qed.

Lemma login_code (req : Request) (o : Oracle) (w : World) :
  (carriesCode (fst (login env req o w)) ->
   production env = false /\ deliveryOutcome env o = Returned false)
  /\ (production env = true \/ deliveryOutcome env o <> Returned false ->
      forall d,
        fst (login env req (withDraw d o) w)
        = fst (login env req o w)).
Proof.
  split.
  - unfold login. code_only_undelivered.
  - intros [Hp|Hd] d; unfold login;
      [same_without_code Hp d o | same_when_delivered Hd d o].
Qed.

Lemma forgotPassword_code (req : Request) (o : Oracle) (w : World) :
  (carriesCode (fst (forgotPassword env req o w)) ->
   production env = false /\ deliveryOutcome env o = Returned false)
  /\ (production env = true \/ deliveryOutcome env o <> Returned false ->
      forall d,
        fst (forgotPassword env req (withDraw d o) w)
        = fst (forgotPassword env req o w)).
Proof.
  split.
  - unfold forgotPassword. code_only_undelivered.
  - intros [Hp|Hd] d; unfold forgotPassword;
      [same_without_code Hp d o | same_when_delivered Hd d o].
Qed.

(** C3. Among the answers of signup, login, resend-verification and
    forgot-password, one that carries a one-time code (a
    [verificationCode] or [resetCode] field) occurs only outside
    production mode and only when no delivery path succeeded: the
    Resend route returned without success and no mail transport could
    be built.  Everywhere else, that is in production mode and, in any
    mode, whenever the Resend route succeeded or threw or a mail
    transport could be built, the answer of each of the four does not
    depend on the random draw behind the code at all: two runs that
    differ only in the generated code give the same answer, so no
    field of it, the message included, reveals the code. *)
Theorem codes_only_outside_production (req : Request) (o : Oracle)
    (w : World) :
  (forall r,
     In r [ fst (signup env req o w); fst (login env req o w);
            fst (resendVerification env req o w);
            fst (forgotPassword env req o w) ] ->
     carriesCode r ->
     production env = false
     /\ resendOutcome env o = Returned false
     /\ createTransporter env (getEmailSettings o) = None)
  /\ (production env = true
      \/ resendOutcome env o <> Returned false
      \/ createTransporter env (getEmailSettings o) <> None ->
      forall d,
        fst (signup env req (withDraw d o) w) = fst (signup env req o w)
        /\ fst (login env req (withDraw d o) w) = fst (login env req o w)
        /\ fst (resendVerification env req (withDraw d o) w)
           = fst (resendVerification env req o w)
        /\ fst (forgotPassword env req (withDraw d o) w)
           = fst (forgotPassword env req o w)).
Proof.
  split.
  - intros r [<-|[<-|[<-|[<-|[]]]]] C;
      [ apply signup_code in C | apply login_code in C
      | apply resendVerification_code in C | apply forgotPassword_code in C ];
      destruct C as [Hp D]; apply deliveryOutcome_false in D; tauto.
  - intros H d.
    assert (H' : production env = true
                 \/ deliveryOutcome env o <> Returned false).
    { destruct H as [H|H]; [now left | right].
      rewrite deliveryOutcome_false. tauto. }
    repeat split.
    + now apply signup_code.
    + now apply login_code.
    + now apply resendVerification_code.
    + now apply forgotPassword_code.
Qed.

End CodesInResponses.

Example sample_login_development :
  fst (login (P := Sample.primitives) devStrictEnv aliceLogsIn
         (Sample.oracleAt 1000) Sample.twoAdmins)
  = {| status := 403;
       body := [ ("message",
                  JStr "SMTP is not configured. Use this verification code locally.");
                 ("verificationCode", JStr "123456");
                 ("verificationRequired", JBool true);
                 ("email", JStr "alice@x.com") ] |}.
Proof. vm_compute. reflexivity. Qed.

Example sample_login_production :
  fst (login (P := Sample.primitives) strictEnv aliceLogsIn
         (Sample.oracleAt 1000) Sample.twoAdmins)
  = {| status := 403;
       body := [ ("message",
                  JStr "Email is not configured. Set SMTP credentials in server .env.");
                 ("verificationRequired", JBool true);
                 ("email", JStr "alice@x.com") ] |}.
Proof. vm_compute. reflexivity. Qed.

(** The code shown outside production completes the login. *)
Example sample_login_then_verify :
  fst (verifyLogin (P := Sample.primitives) devStrictEnv
         (Sample.bodyOf [("email", JStr "alice@x.com");
                         ("code", JStr "123456")])
         (Sample.oracleAt 2000)
         (snd (login (P := Sample.primitives) devStrictEnv aliceLogsIn
                 (Sample.oracleAt 1000) Sample.twoAdmins)))
  = {| status := 200;
       body := [ ("token", JStr "secretkey.alice@x.com.admin.id1.1d");
                 ("admin", JObj [ ("email", JStr "alice@x.com");
                                  ("role", JStr "admin");
                                  ("name", JStr "Alice") ]);
                 ("message", JStr "Verification successful. Logged in.") ] |}.
Proof. vm_compute. reflexivity. Qed.

Lemma codes_only_outside_production_witness :
  fst (login (P := Sample.primitives) strictEnv aliceLogsIn
         (withDraw 0 (Sample.oracleAt 1000)) Sample.twoAdmins)
  = fst (login (P := Sample.primitives) strictEnv aliceLogsIn
           (Sample.oracleAt 1000) Sample.twoAdmins)
  /\ fst (login (P := Sample.primitives) smtpEnv aliceLogsIn
            (withDraw 0 (Sample.oracleAt 1000)) Sample.twoAdmins)
     = fst (login (P := Sample.primitives) smtpEnv aliceLogsIn
              (Sample.oracleAt 1000) Sample.twoAdmins).
Proof.
  split.
  - refine (proj1 (proj2 (proj2 (codes_only_outside_production
                                   (P := Sample.primitives) strictEnv
                                   aliceLogsIn (Sample.oracleAt 1000)
                                   Sample.twoAdmins)
                            _ 0%Z))).
    left. reflexivity.
  - refine (proj1 (proj2 (proj2 (codes_only_outside_production
                                   (P := Sample.primitives) smtpEnv
                                   aliceLogsIn (Sample.oracleAt 1000)
                                   Sample.twoAdmins)
                            _ 0%Z))).
    right. right. vm_compute. discriminate.
Defined.

(** ** Seeding twice *)

Lemma find_app_some {A} (p : A -> bool) (l r : list A) (a : A) :
  find p l = Some a -> find p (l ++ r) = Some a.
Proof.
  induction l as [|x l IH]; simpl; [discriminate|].
  destruct (p x); auto.
Qed.

Lemma find_app_none {A} (p : A -> bool) (l : list A) (d : A) :
  find p l = None -> p d = true -> find p (l ++ [d]) = Some d.
Proof.
  induction l as [|x l IH]; simpl; intros F Pd.
  - now rewrite Pd.
  - destruct (p x); [discriminate | auto].
Qed.

Lemma NoDup_snoc {A} (l : list A) (x : A) :
  NoDup l -> ~ In x l -> NoDup (l ++ [x]).
Proof.
  induction l as [|y l IH]; simpl; intros N H.
  - constructor; [tauto | constructor].
  - apply NoDup_cons_iff in N. destruct N as [Ny N].
    constructor; [|apply IH; tauto].
    rewrite in_app_iff. simpl. intros [Hy|[->|[]]]; tauto.
Qed.

Lemma map_id_writeBack (a : Admin) (l : list Admin) :
  map _id (writeBack a l) = map _id l.
Proof.
  induction l as [|x l IH]; simpl; [reflexivity|]. rewrite IH. f_equal.
  destruct (String.eqb_spec (_id x) (_id a)); congruence.
Qed.

Lemma uniqueIds_same_id (l : list Admin) (a d : Admin) :
  uniqueIds l -> In a l -> In d l -> _id d = _id a -> d = a.
Proof. intros N Ha Hd E. now apply (NoDup_map_inj _id l). Qed.

(** Saving a changed copy of the document found under an e-mail address
    leaves it the document found under that address. *)
Lemma find_byEmail_writeBack (e : string) (a a' : Admin) (l : list Admin) :
  (forall d, In d l -> _id d = _id a -> d = a) ->
  find (byEmail e) l = Some a -> _id a' = _id a -> email a' = email a ->
  find (byEmail e) (writeBack a' l) = Some a'.
Proof.
  intros U F Ei Ee.
  assert (Ea : email a = e).
  { apply find_some in F. destruct F as [_ F]. now apply String.eqb_eq in F. }
  induction l as [|x l IH]; simpl in *; [discriminate|].
  destruct (byEmail e x) eqn:Px.
  - injection F as ->. rewrite Ei, String.eqb_refl.
    unfold byEmail. now rewrite Ee, Ea, String.eqb_refl.
  - destruct (String.eqb_spec (_id x) (_id a')) as [Ex|Nx].
    + exfalso. rewrite Ei in Ex. rewrite (U x (or_introl eq_refl) Ex) in Px.
      unfold byEmail in Px. rewrite Ea, String.eqb_refl in Px. discriminate.
    + rewrite Px. apply IH; auto.
Qed.

(** ... and does not change what is found under any other address. *)
Lemma find_byEmail_writeBack_other (e : string) (a' : Admin) (l : list Admin) :
  (forall d, In d l -> _id d = _id a' -> email d = email a') ->
  e <> email a' ->
  find (byEmail e) (writeBack a' l) = find (byEmail e) l.
Proof.
  intros U NE. induction l as [|x l IH]; simpl in *; [reflexivity|].
  destruct (String.eqb_spec (_id x) (_id a')) as [Ex|Nx].
  - assert (Fa : byEmail e a' = false)
      by (unfold byEmail; apply String.eqb_neq; congruence).
    assert (Fx : byEmail e x = false).
    { unfold byEmail. apply String.eqb_neq.
      rewrite (U x (or_introl eq_refl) Ex). congruence. }
    rewrite Fa, Fx. apply IH. auto.
  - destruct (byEmail e x); [reflexivity | apply IH; auto].
Qed.

Section SeedingTwice.

Context {P : Primitives} {L : PrimitiveLaws P}.
Variable env : Env.

Lemma seedStep_settled (seed : JsVal) (w : World) :
  settled (admins w) seed -> seedStep seed w = (Returned tt, w).
Proof.
  intros S. unfold seedStep. unfold settled, usableSeed in S.
  destruct (truthy (getField seed "email")); simpl; [|reflexivity].
  destruct (truthy (getField seed "password")); simpl; [|reflexivity].
  destruct (S eq_refl) as (a & F & Sy).
  unfold bind, Admin_findOne. fold (seedEmail seed). rewrite F.
  fold (forcedSeed seed). destruct (forcedSeed seed); [|reflexivity].
  destruct (Sy eq_refl) as (Hp & Hn & Hv).
  unfold syncPassword. fold (seedPassword seed). rewrite Hp. simpl.
  unfold syncName, syncVerified. simpl. fold (seedName seed).
  rewrite Hn, String.eqb_refl. simpl. rewrite Hv. reflexivity.
Qed.

Lemma forOf_settled (l : list JsVal) (w : World) :
  Forall (settled (admins w)) l -> forOf seedStep l w = (Returned tt, w).
Proof.
  induction 1 as [|s l Hs _ IH]; simpl; [reflexivity|].
  unfold bind. now rewrite (seedStep_settled s w Hs).
Qed.

Lemma seedStep_first (seed : JsVal) (w : World) :
  uniqueIds (admins w) ->
  exists w', seedStep seed w = (Returned tt, w') /\ seedStepPost seed w w'.
Proof.
  intros N. unfold seedStep, seedStepPost, settled, usableSeed.
  destruct (truthy (getField seed "email")) eqn:Te; simpl;
    [|exists w; repeat split; eauto; discriminate].
  destruct (truthy (getField seed "password")) eqn:Tp; simpl;
    [|exists w; repeat split; eauto; discriminate].
  unfold bind, Admin_findOne. fold (seedEmail seed).
  destruct (find (byEmail (seedEmail seed)) (admins w)) as [a|] eqn:F.
  - fold (forcedSeed seed). destruct (forcedSeed seed) eqn:Fo.
    2:{ exists w. repeat split; eauto. intros _. exists a. split; auto.
        discriminate. }
    (* the three drift checks *)
    unfold syncPassword. fold (seedPassword seed).
    destruct (bcrypt_compare (seedPassword seed) (passwordHash a)) eqn:Cp;
      unfold bcryptHash, syncName, syncVerified; simpl; fold (seedName seed);
      destruct (String.eqb_spec (name a) (seedName seed)) as [En|Nn]; simpl;
      destruct (isVerified a) eqn:Va; simpl.
    1:{ exists w. repeat split; eauto. intros _. exists a. now repeat split. }
    all: unfold Admin_save; eexists; split; [reflexivity|]; simpl.
    all: assert (Ha : In a (admins w)) by (now apply find_some in F).
    all: assert (Ea : email a = seedEmail seed)
           by (apply find_some in F; destruct F as [_ F];
               now apply String.eqb_eq in F).
    all: match goal with
         | |- context [writeBack ?x _] =>
             assert (Ei : _id x = _id a) by reflexivity;
             assert (Ee : email x = email a) by reflexivity;
             assert (Sy : inSync seed x)
               by (repeat split; simpl; auto using bcrypt_compare_hash);
             generalize dependent x; intros d Ei Ee Sy
         end.
    all: split; [unfold uniqueIds; now rewrite map_id_writeBack|].
    all: split;
           [intros _; exists d; split; auto;
            apply find_byEmail_writeBack with (a := a); auto;
            intros x Hx Ex; now apply (uniqueIds_same_id (admins w))|].
    all: assert (O : forall e, e <> seedEmail seed ->
                   find (byEmail e) (writeBack d (admins w))
                   = find (byEmail e) (admins w))
           by (intros e NE; apply find_byEmail_writeBack_other;
               [intros x Hx Ex; rewrite Ei in Ex;
                now rewrite (uniqueIds_same_id (admins w) a x N Ha Hx Ex)
               |congruence]).
    all: split;
           [intros e x Fx;
            destruct (String.eqb_spec e (seedEmail seed)) as [->|NE];
            [exists d; apply find_byEmail_writeBack with (a := a); auto;
             intros y Hy Ey; now apply (uniqueIds_same_id (admins w))
            |exists x; now rewrite O]
           |intros e x Fx NE; rewrite O; auto].
  - unfold bcryptHash, Admin_create. simpl. eexists. split; [reflexivity|].
    simpl. fold (seedPassword seed) (seedName seed). split; [|split; [|split]].
    + unfold uniqueIds. rewrite map_app. simpl.
      apply NoDup_snoc; [exact N | apply newObjectId_fresh].
    + intros _. eexists. split.
      * apply find_app_none; [exact F|]. unfold byEmail. simpl.
        apply String.eqb_refl.
      * intros _. repeat split. simpl. apply bcrypt_compare_hash.
    + intros e x Fx. exists x. now apply find_app_some.
    + intros e x Fx _. now apply find_app_some.
Qed.

Lemma forOf_first_pass (l : list JsVal) (w : World) :
  uniqueIds (admins w) -> NoDup (forcedEmails l) ->
  exists w',
    forOf seedStep l w = (Returned tt, w')
    /\ uniqueIds (admins w')
    /\ Forall (settled (admins w')) l
    /\ (forall e a, find (byEmail e) (admins w) = Some a ->
          exists a', find (byEmail e) (admins w') = Some a')
    /\ (forall e a, find (byEmail e) (admins w) = Some a ->
          ~ In e (forcedEmails l) ->
          find (byEmail e) (admins w') = Some a).
Proof.
  revert w. induction l as [|s l IH]; intros w N D.
  - exists w. simpl. repeat split; eauto.
  - destruct (seedStep_first s w N) as (w1 & E1 & N1 & S1 & K1 & O1).
    assert (D' : NoDup (forcedEmails l)).
    { unfold forcedEmails in *. simpl in D.
      destruct (usableSeed s && forcedSeed s); simpl in D; auto.
      now apply NoDup_cons_iff in D. }
    destruct (IH w1 N1 D') as (w' & E & N' & S' & K' & O').
    exists w'. simpl. unfold bind. rewrite E1.
    split; [exact E|]. split; [exact N'|]. split; [|split].
    + constructor; [|exact S'].
      intros U. destruct (S1 U) as (a & Fa & Sy).
      destruct (forcedSeed s) eqn:Fo.
      * exists a. split; [|exact Sy]. apply O'; [exact Fa|].
        unfold forcedEmails in D. simpl in D. rewrite U, Fo in D. simpl in D.
        now apply NoDup_cons_iff in D.
      * destruct (K' _ _ Fa) as (a' & Fa'). exists a'. split; [exact Fa'|].
        discriminate.
    + intros e a Fa. destruct (K1 _ _ Fa) as (a1 & F1). eauto.
    + intros e a Fa NI. apply O'.
      * apply O1; [exact Fa|]. intros UF ->. apply NI.
        unfold forcedEmails. simpl. rewrite UF. now left.
      * intros I. apply NI. unfold forcedEmails in *. simpl.
        destruct (usableSeed s && forcedSeed s); simpl; auto.
Qed.

(** C4, as amended.  On a collection with unique identifiers, for a
    seed configuration whose usable force-synced entries have pairwise
    distinct normalized e-mail addresses: the first call of
    [ensureSeedAdmins] returns, after it every usable entry has an
    account and every usable force-synced entry an account whose
    password hash verifies against the seed password, whose name is the
    seed name and which is verified; and a second call in succession
    returns leaving the world exactly as it was, so it writes
    nothing. *)
Theorem ensureSeedAdmins_idempotent (w : World) :
  uniqueIds (admins w) -> NoDup (forcedEmails (seeds env)) ->
  fst (ensureSeedAdmins env w) = Returned tt
  /\ Forall (settled (admins (snd (ensureSeedAdmins env w)))) (seeds env)
  /\ ensureSeedAdmins env (snd (ensureSeedAdmins env w))
     = (Returned tt, snd (ensureSeedAdmins env w)).
Proof.
  intros N D. unfold ensureSeedAdmins.
  destruct (forOf_first_pass (seeds env) w N D) as (w' & E & _ & S & _).
  rewrite E. simpl. repeat split; [exact S|]. now apply forOf_settled.
Qed.

(** Without an [ADMIN_ACCOUNTS] list there is one seed, so the
    condition on the configuration holds. *)
Lemma singleSeed_distinct :
  parseAdminAccounts env = None -> NoDup (forcedEmails (seeds env)).
Proof.
  intros E. unfold seeds. rewrite E. unfold forcedEmails, singleSeed.
  simpl. destruct (_ && _); simpl; repeat constructor; simpl; tauto.
Qed.

End SeedingTwice.

(** C4, as stated, fails: every entry of the configuration has an
    e-mail address and a password, yet the second call saves the
    account twice, the two entries renaming it in turn. *)
Lemma ensureSeedAdmins_duplicate_seed_writes :
  forallb usableSeed (seeds (P := Sample.primitives) twoSeedsEnv) = true
  /\ secondCallWrites (P := Sample.primitives) twoSeedsEnv Sample.emptyWorld
     = [ StoreSave {| _id := "id"; name := "A"; email := "a@x.com";
                      passwordHash := "$p1"; isVerified := true;
                      loginVerificationCodeHash := "";
                      loginVerificationExpiresAt := None;
                      resetPasswordTokenHash := "";
                      resetPasswordExpiresAt := None |};
         StoreSave {| _id := "id"; name := "B"; email := "a@x.com";
                      passwordHash := "$p1"; isVerified := true;
                      loginVerificationCodeHash := "";
                      loginVerificationExpiresAt := None;
                      resetPasswordTokenHash := "";
                      resetPasswordExpiresAt := None |} ].
Proof. vm_compute. split; reflexivity. Qed.

Lemma ensureSeedAdmins_idempotent_witness :
  fst (ensureSeedAdmins (P := Sample.primitives) Sample.emptyEnv
         Sample.twoAdmins) = Returned tt
  /\ Forall (settled (P := Sample.primitives)
               (admins (snd (ensureSeedAdmins (P := Sample.primitives)
                               Sample.emptyEnv Sample.twoAdmins))))
            (seeds (P := Sample.primitives) Sample.emptyEnv)
  /\ ensureSeedAdmins (P := Sample.primitives) Sample.emptyEnv
       (snd (ensureSeedAdmins (P := Sample.primitives) Sample.emptyEnv
               Sample.twoAdmins))
     = (Returned tt,
        snd (ensureSeedAdmins (P := Sample.primitives) Sample.emptyEnv
               Sample.twoAdmins)).
Proof.
  apply (ensureSeedAdmins_idempotent (L := SampleFacts.laws) Sample.emptyEnv
           Sample.twoAdmins).
  - unfold uniqueIds. simpl. distinct_strings.
  - vm_compute. distinct_strings.
Defined.

(** An entry without [forceSync] leaves an existing account as it is,
    whatever the entry says. *)
Example sample_unforced_seed :
  ensureSeedAdmins (P := Sample.primitives) unforcedSeedEnv Sample.twoAdmins
  = (Returned tt, Sample.twoAdmins)
  /\ bcrypt_compare (Primitives := Sample.primitives)
       "other" (passwordHash Sample.bob) = false
  /\ name Sample.bob <> "Robert".
Proof. vm_compute. repeat split. discriminate. Qed.

Example sample_seed_default :
  admins (snd (ensureSeedAdmins (P := Sample.primitives) Sample.emptyEnv
                 Sample.emptyWorld))
  = [ {| _id := "id"; name := "Primary Admin";
         email := "aethonplast@gmail.com";
         passwordHash := "$aethonplast@2026"; isVerified := true;
         loginVerificationCodeHash := "";
         loginVerificationExpiresAt := None;
         resetPasswordTokenHash := "";
         resetPasswordExpiresAt := None |} ].
Proof. vm_compute. reflexivity. Qed.

(** C9, as stated, fails: no host is resolvable from the settings or
    the environment, yet the call falls through to a mail transport
    (the Gmail service) and reports the code sent. *)
Lemma sendVerificationCode_gmail_without_host :
  smtpHost gmailEnv (getEmailSettings (Sample.oracleAt 1000)) = JUndefined
  /\ sendVerificationCode gmailEnv (Sample.oracleAt 1000)
       "alice@x.com" "123456" Sample.emptyWorld
     = (Returned true,
        {| admins := [];
           trace :=
             [ SmtpSendMail
                 (GmailService (JStr "owner@gmail.com") (JStr "app-password"))
                 (JStr "owner@gmail.com") "alice@x.com"
                 "Admin verification code"
                 "Your admin verification code is: 123456. It expires in 10 minutes." ];
           saltsDrawn := 0 |}).
Proof. vm_compute. split; reflexivity. Qed.

Example sample_transport_defaults :
  createTransporter smtpEnv (JObj [])
  = Some (SmtpServer (JStr "mail.x.com") (JNum 587) false
                     (JStr "mailer") (JStr "pw"))
  /\ createTransporter smtpEnv (JObj [("smtpPort", JStr "465")])
     = Some (SmtpServer (JStr "mail.x.com") (JNum 465) true
                        (JStr "mailer") (JStr "pw"))
  /\ createTransporter smtpEnv
       (JObj [("smtpPort", JNum 465); ("smtpSecure", JBool false)])
     = Some (SmtpServer (JStr "mail.x.com") (JNum 465) false
                        (JStr "mailer") (JStr "pw")).
Proof. vm_compute. repeat split. Qed.

Example sample_not_configured :
  sendVerificationCode Sample.emptyEnv (Sample.oracleAt 1000)
    "alice@x.com" "123456" Sample.emptyWorld
  = (Returned false, Sample.emptyWorld).
Proof. reflexivity. Qed.

(** ** The collection stays consistent

    Unique identifiers and unique e-mail addresses, which the
    properties above assume of the collection, are kept by every
    route. *)

Lemma map_email_writeBack (a' : Admin) (l : list Admin) :
  (forall d, In d l -> _id d = _id a' -> email d = email a') ->
  map email (writeBack a' l) = map email l.
Proof.
  induction l as [|x l IH]; simpl; intros H; [reflexivity|].
  rewrite IH by auto. f_equal.
  destruct (String.eqb_spec (_id x) (_id a')) as [E|_]; [|reflexivity].
  symmetry. apply H; auto.
Qed.

Lemma In_writeBack_self (a' : Admin) (l : list Admin) :
  (exists d, In d l /\ _id d = _id a') -> In a' (writeBack a' l).
Proof.
  intros (d & Hd & E). unfold writeBack. apply in_map_iff.
  exists d. split; [|exact Hd]. now rewrite E, String.eqb_refl.
Qed.

Lemma NoDup_map_removeFirst {B} (f : Admin -> B) (id : string)
    (l : list Admin) :
  NoDup (map f l) -> NoDup (map f (removeFirst id l)).
Proof.
  induction l as [|x l IH]; simpl; intros N; [constructor|].
  apply NoDup_cons_iff in N. destruct N as [Nx N].
  destruct (_id x =? id); [exact N|]. simpl. constructor; [|auto].
  intros H. apply Nx. clear -H. induction l as [|y l IH]; simpl in *; [tauto|].
  destruct (_id y =? id); simpl in *; tauto.
Qed.

Section Consistency.

Context {P : Primitives} {L : PrimitiveLaws P}.
Variable env : Env.

Lemma stored_writeBack (l : list Admin) (a a' : Admin) :
  stored l a -> _id a' = _id a -> email a' = email a ->
  stored (writeBack a' l) a'.
Proof.
  intros [[Ni Ne] Ha] Ei Ee. split; [split|].
  - unfold uniqueIds. now rewrite map_id_writeBack.
  - unfold uniqueEmails. rewrite map_email_writeBack; [exact Ne|].
    intros d Hd Ed. rewrite Ei in Ed.
    now rewrite (uniqueIds_same_id l a d Ni Ha Hd Ed).
  - apply In_writeBack_self. now exists a.
Qed.

Lemma stored_append (l : list Admin) (d : Admin) :
  consistent l -> find (byEmail (email d)) l = None ->
  _id d = newObjectId (map _id l) -> stored (l ++ [d]) d.
Proof.
  intros [Ni Ne] F Ei. split; [split|].
  - unfold uniqueIds. rewrite map_app. simpl. apply NoDup_snoc; [exact Ni|].
    rewrite Ei. apply newObjectId_fresh.
  - unfold uniqueEmails. rewrite map_app. simpl. apply NoDup_snoc; [exact Ne|].
    rewrite in_map_iff. intros (x & Ex & Hx).
    apply (find_none _ _ F) in Hx. unfold byEmail in Hx.
    rewrite Ex, String.eqb_refl in Hx. discriminate.
  - apply in_or_app. right. now left.
Qed.

Lemma consistent_removeFirst (id : string) (l : list Admin) :
  consistent l -> consistent (removeFirst id l).
Proof.
  intros [Ni Ne]. split; now apply NoDup_map_removeFirst.
Qed.

(** Case analysis that keeps track of the collection. *)
Ltac note_found :=
  repeat match goal with
  | H : find _ _ = Some _ |- _ =>
      apply find_some in H; destruct H as [? _]
  end.

Ltac keep_stored :=
  first
    [ split; eassumption
    | eapply stored_writeBack; [keep_stored | reflexivity | reflexivity]
    | eapply stored_append; [eassumption | eassumption | reflexivity] ].

Ltac keep_consistent :=
  simpl;
  first
    [ assumption
    | apply consistent_removeFirst; assumption
    | refine (proj1 _); keep_stored ].

Lemma seedStep_consistent (seed : JsVal) (w : World) :
  consistent (admins w) -> consistent (admins (snd (seedStep seed w))).
Proof.
  intros C. unfold seedStep, syncPassword, syncName, syncVerified,
    bind, ret, Admin_findOne, Admin_save, Admin_create, bcryptHash.
  repeat (break_match; simpl); try assumption; note_found; keep_consistent.
Qed.

Lemma forOf_seedStep_consistent (l : list JsVal) (w : World) :
  consistent (admins w) ->
  consistent (admins (snd (forOf seedStep l w))).
Proof.
  revert w. induction l as [|s l IH]; intros w C; simpl; [exact C|].
  unfold bind. pose proof (seedStep_consistent s w C) as C1.
  destruct (seedStep s w) as [[[]|] w1]; simpl in *; auto.
Qed.

Lemma ensureSeedAdmins_consistent (w : World) :
  consistent (admins w) ->
  consistent (admins (snd (ensureSeedAdmins env w))).
Proof. apply forOf_seedStep_consistent. Qed.

Ltac seeded C :=
  match goal with
  | |- context [ensureSeedAdmins ?e ?w] =>
      let C' := fresh "C" in
      pose proof (ensureSeedAdmins_consistent w C) as C';
      destruct (ensureSeedAdmins e w) as [[[]|] ?seeded]; simpl in C'
  end.

Ltac delivered :=
  match goal with
  | |- context [sendVerificationCode ?e ?o ?em ?c ?w] =>
      let H := fresh "D" in
      pose proof (proj1 (proj2 (sendVerificationCode_outcome e o em c w))) as H;
      destruct (sendVerificationCode e o em c w) as [? ?after]; simpl in H
  | |- context [sendWithResend ?e ?o ?to ?su ?te ?s ?w] =>
      rewrite (sendWithResend_run e o to su te s w)
  end.

Ltac walk C :=
  unfold handler, bind, json, ret, handleMissingSmtpVerification,
    saveVerificationCode, Admin_save, Admin_findOne, Admin_findById,
    Admin_countDocuments, Admin_deleteOne, Admin_create, bcryptHash,
    sendMail, emit;
  repeat first [ progress simpl | seeded C | delivered | break_match ].

Ltac settle :=
  note_found;
  repeat match goal with
  | H : admins ?w = _ |- context [admins ?w] => rewrite H
  end;
  keep_consistent.

(** X1.  Every route leaves a consistent collection consistent: if
    identifiers and e-mail addresses are unique before a request, they
    are unique after it, whatever the request, the clock, the random
    draw and the outcome of the mail calls. *)
Theorem routes_keep_consistent (req : Request) (o : Oracle) (w : World) :
  consistent (admins w) ->
  consistent (admins (snd (deleteAdmin req w)))
  /\ consistent (admins (snd (signup env req o w)))
  /\ consistent (admins (snd (createAdmin env req w)))
  /\ consistent (admins (snd (resendVerification env req o w)))
  /\ consistent (admins (snd (login env req o w)))
  /\ consistent (admins (snd (verifyLogin env req o w)))
  /\ consistent (admins (snd (forgotPassword env req o w)))
  /\ consistent (admins (snd (resetPassword req o w))).
Proof.
  intros C. repeat match goal with |- _ /\ _ => split end.
  - unfold deleteAdmin. walk C; settle.
  - unfold signup. walk C; settle.
  - unfold createAdmin. walk C; settle.
  - unfold resendVerification. walk C; settle.
  - unfold login. walk C; settle.
  - unfold verifyLogin. walk C; settle.
  - unfold forgotPassword. walk C; settle.
  - unfold resetPassword. walk C; settle.
Qed.

End Consistency.

(** * Further properties

    Properties of the routes beyond those the specification states,
    and of the mail helpers of the contact routes. *)

(** The sample collection is consistent. *)
Ltac sample_consistent :=
  split; [unfold uniqueIds | unfold uniqueEmails]; simpl; distinct_strings.

Lemma routes_keep_consistent_witness :
  consistent
    (admins (snd (login (P := Sample.primitives) Sample.emptyEnv aliceLogsIn
                    (Sample.oracleAt 1000) Sample.twoAdmins))).
Proof.
  refine (proj1 (proj2 (proj2 (proj2 (proj2
            (routes_keep_consistent (L := SampleFacts.laws) Sample.emptyEnv
               aliceLogsIn (Sample.oracleAt 1000) Sample.twoAdmins _)))))).
  sample_consistent.
Defined.

(** ** Seeding *)

Section SeedingFrame.

Context {P : Primitives} {L : PrimitiveLaws P}.
Variable env : Env.

Lemma seedStep_returns (seed : JsVal) (w : World) :
  fst (seedStep seed w) = Returned tt.
Proof.
  unfold seedStep, syncPassword, syncName, syncVerified,
    bind, ret, Admin_findOne, Admin_save, Admin_create, bcryptHash.
  repeat (break_match; simpl); reflexivity.
Qed.

Lemma seedStep_length (seed : JsVal) (w : World) :
  (length (admins w) <= length (admins (snd (seedStep seed w))))%nat.
Proof.
  unfold seedStep, syncPassword, syncName, syncVerified,
    bind, ret, Admin_findOne, Admin_save, Admin_create, bcryptHash.
  repeat (break_match; simpl); rewrite ?length_writeBack, ?length_app;
    simpl; lia.
Qed.

(** What a run of the seeding loop keeps, whatever the configuration. *)
Lemma forOf_seedStep_frame (l : list JsVal) (w : World) :
  uniqueIds (admins w) ->
  fst (forOf seedStep l w) = Returned tt
  /\ uniqueIds (admins (snd (forOf seedStep l w)))
  /\ (length (admins w) <= length (admins (snd (forOf seedStep l w))))%nat
  /\ (forall e a, find (byEmail e) (admins w) = Some a ->
        exists a',
          find (byEmail e) (admins (snd (forOf seedStep l w))) = Some a')
  /\ (forall e a, find (byEmail e) (admins w) = Some a ->
        ~ In e (forcedEmails l) ->
        find (byEmail e) (admins (snd (forOf seedStep l w))) = Some a).
Proof.
  revert w. induction l as [|s l IH]; intros w N; simpl.
  - repeat split; eauto.
  - destruct (seedStep_first s w N) as (w1 & E1 & N1 & _ & K1 & O1).
    pose proof (seedStep_length s w) as Len. rewrite E1 in Len. simpl in Len.
    unfold bind. rewrite E1.
    destruct (IH w1 N1) as (R & N' & Len' & K' & O').
    split; [exact R|]. split; [exact N'|]. split; [lia|]. split.
    + intros e a Fa. destruct (K1 _ _ Fa) as (a1 & F1). eauto.
    + intros e a Fa NI. apply O'.
      * apply O1; [exact Fa|]. intros UF ->. apply NI.
        unfold forcedEmails. simpl. rewrite UF. now left.
      * intros I. apply NI. unfold forcedEmails in *. simpl.
        destruct (usableSeed s && forcedSeed s); simpl; auto.
Qed.

Lemma find_byEmail_stored (l : list Admin) (a : Admin) :
  uniqueEmails l -> In a l -> find (byEmail (email a)) l = Some a.
Proof.
  intros U Ha. destruct (find (byEmail (email a)) l) as [b|] eqn:F.
  - apply find_some in F. destruct F as [Hb Eb].
    apply String.eqb_eq in Eb. f_equal.
    now apply (NoDup_map_inj email l).
  - apply (find_none _ _ F) in Ha. unfold byEmail in Ha.
    now rewrite String.eqb_refl in Ha.
Qed.

(** X2.  Seeding never removes an account, and an account whose address
    is not that of a usable force-synced seed entry comes out of it
    unchanged. *)
Theorem ensureSeedAdmins_frame (w : World) (a : Admin) :
  consistent (admins w) -> In a (admins w) ->
  fst (ensureSeedAdmins env w) = Returned tt
  /\ (length (admins w) <= length (admins (seeded env w)))%nat
  /\ (exists a', In a' (admins (seeded env w)) /\ email a' = email a)
  /\ (~ In (email a) (forcedEmails (seeds env)) ->
      In a (admins (seeded env w))).
Proof.
  intros [Ni Ne] Ha. unfold seeded, ensureSeedAdmins.
  destruct (forOf_seedStep_frame (seeds env) w Ni) as (R & _ & Len & K & O).
  pose proof (find_byEmail_stored _ _ Ne Ha) as F.
  split; [exact R|]. split; [exact Len|]. split.
  - destruct (K _ _ F) as (a' & F'). exists a'.
    apply find_some in F'. destruct F' as [H E].
    apply String.eqb_eq in E. now split.
  - intros NI. specialize (O _ _ F NI). now apply find_some in O.
Qed.

End SeedingFrame.

Lemma ensureSeedAdmins_frame_witness :
  In Sample.alice
     (admins (seeded (P := Sample.primitives) Sample.emptyEnv
                     Sample.twoAdmins)).
Proof.
  refine (proj2 (proj2 (proj2
            (ensureSeedAdmins_frame (L := SampleFacts.laws) Sample.emptyEnv
               Sample.twoAdmins Sample.alice _ _))) _).
  - sample_consistent.
  - simpl. auto.
  - vm_compute. intuition discriminate.
Defined.

(** ** Login *)

Section Login.

Context {P : Primitives} {L : PrimitiveLaws P}.
Variable env : Env.

Lemma forOf_seedStep_returns (l : list JsVal) (w : World) :
  fst (forOf seedStep l w) = Returned tt.
Proof.
  revert w. induction l as [|s l IH]; intros w; simpl; [reflexivity|].
  unfold bind. pose proof (seedStep_returns s w) as R.
  destruct (seedStep s w) as [[[]|] w1]; simpl in R; [apply IH | discriminate].
Qed.

Lemma ensureSeedAdmins_run (w : World) :
  ensureSeedAdmins env w = (Returned tt, seeded env w).
Proof.
  unfold seeded. rewrite (surjective_pairing (ensureSeedAdmins env w)) at 1.
  f_equal. apply forOf_seedStep_returns.
Qed.

Lemma truthy_orDefault (v : JsVal) (s : string) :
  truthy (v ||| JStr s) = truthy v || negb (isEmpty s).
Proof. unfold jsOr. now destruct (truthy v) eqn:E; rewrite ?E. Qed.

(** The paths of the login handler that end before any code is
    issued. *)
Lemma login_paths (req : Request) (o : Oracle) (w : World) :
  truthy (loginEmail req) = true -> truthy (loginPassword req) = true ->
  (find (byEmail (loginAddress req)) (admins (seeded env w)) = None ->
     login env req o w = (answer 401 "Invalid credentials", seeded env w))
  /\ (forall a,
        find (byEmail (loginAddress req)) (admins (seeded env w)) = Some a ->
        (bcrypt_compare (toStr (loginPassword req)) (passwordHash a) = false ->
           login env req o w
           = (answer 401 "Invalid credentials", seeded env w))
        /\ (bcrypt_compare (toStr (loginPassword req)) (passwordHash a) = true ->
            isVerified a = true ->
            login env req o w = (loggedIn env o a, seeded env w))).
Proof.
  intros Te Tp. unfold login, handler, bind. rewrite ensureSeedAdmins_run.
  fold (loginEmail req) (loginPassword req). rewrite Te, Tp. simpl.
  unfold Admin_findOne. fold (loginAddress req). split.
  - now intros ->.
  - intros a ->. split.
    + now intros ->.
    + intros -> V. simpl. now rewrite V.
Qed.

(** X3.  Login gives a token only for the right password: whenever its
    answer carries one, an account with the submitted address exists
    after seeding and the submitted password matches its hash.  An
    unknown address and a wrong password get the same 401 answer, a
    verified account with the right password gets its session, and
    none of these three does anything beyond the seeding every login
    starts with. *)
Theorem login_needs_password (req : Request) (o : Oracle) (w : World) :
  (forall tok,
     assoc "token" (body (fst (login env req o w))) = JStr tok ->
     exists a,
       find (byEmail (loginAddress req)) (admins (seeded env w)) = Some a
       /\ bcrypt_compare (toStr (loginPassword req)) (passwordHash a) = true)
  /\ (truthy (loginEmail req) = true -> truthy (loginPassword req) = true ->
      (find (byEmail (loginAddress req)) (admins (seeded env w)) = None
       \/ exists a,
            find (byEmail (loginAddress req)) (admins (seeded env w)) = Some a
            /\ bcrypt_compare (toStr (loginPassword req)) (passwordHash a)
               = false) ->
      login env req o w = (answer 401 "Invalid credentials", seeded env w))
  /\ (forall a,
        truthy (loginEmail req) = true -> truthy (loginPassword req) = true ->
        find (byEmail (loginAddress req)) (admins (seeded env w)) = Some a ->
        bcrypt_compare (toStr (loginPassword req)) (passwordHash a) = true ->
        isVerified a = true ->
        login env req o w = (loggedIn env o a, seeded env w)).
Proof.
  split; [|split].
  - intros tok. unfold login, handler, bind. rewrite ensureSeedAdmins_run.
    fold (loginEmail req) (loginPassword req).
    destruct (truthy (loginEmail req)); simpl; [|discriminate].
    destruct (truthy (loginPassword req)); simpl; [|discriminate].
    unfold Admin_findOne. fold (loginAddress req).
    destruct (find _ (admins (seeded env w))) as [a|]; simpl; [|discriminate].
    destruct (bcrypt_compare _ (passwordHash a)) eqn:C; simpl; [|discriminate].
    intros _. now exists a.
  - intros Te Tp H. destruct (login_paths req o w Te Tp) as [Un Kn].
    destruct H as [F|(a & F & C)]; [now apply Un | now apply (Kn a F)].
  - intros a Te Tp F C V. destruct (login_paths req o w Te Tp) as [_ Kn].
    now apply (Kn a F).
Qed.

(** X4.  The credentials of a usable force-synced seed entry always log
    in: whatever the stored account looked like before, a login with
    the entry's address and password gets a session for a verified
    account that bears the entry's name (when force-synced entries have
    distinct addresses). *)
Theorem seed_credentials_log_in (s : JsVal) (o : Oracle) (w : World) :
  uniqueIds (admins w) -> NoDup (forcedEmails (seeds env)) ->
  In s (seeds env) -> usableSeed s = true -> forcedSeed s = true ->
  exists a,
    login env (credentials (getField s "email") (getField s "password")) o w
    = (loggedIn env o a, seeded env w)
    /\ email a = seedEmail s /\ name a = seedName s /\ isVerified a = true.
Proof.
  intros N D Hs U F.
  destruct (forOf_first_pass (seeds env) w N D) as (w1 & E & _ & S & _).
  assert (W : seeded env w = w1)
    by (unfold seeded, ensureSeedAdmins; now rewrite E).
  rewrite Forall_forall in S. destruct (S s Hs U) as (a & Fa & Sy).
  destruct (Sy F) as (Hp & Hn & Hv).
  pose proof U as U'. unfold usableSeed in U'. apply andb_prop in U'.
  destruct U' as [Te Tp].
  destruct (login_paths
              (credentials (getField s "email") (getField s "password"))
              o w Te Tp) as [_ K].
  exists a. rewrite <- W in Fa.
  destruct (K a Fa) as [_ K2]. split; [now apply K2|].
  apply find_some in Fa. destruct Fa as [_ Ea]. apply String.eqb_eq in Ea.
  now repeat split.
Qed.

(** X5.  With [ADMIN_ACCOUNTS] unset, the primary admin can always log
    in: on any collection, the empty one included, a login with
    [ADMIN_EMAIL] and [ADMIN_PASSWORD], or with the built-in address
    and password where these are unset, gets a session for a verified
    account, whatever happened to that account before. *)
Theorem primary_admin_always_logs_in (o : Oracle) (w : World) :
  env_ADMIN_ACCOUNTS env = None -> uniqueIds (admins w) ->
  exists a,
    login env
      (credentials
         (ev (env_ADMIN_EMAIL env) ||| JStr DEFAULT_PRIMARY_ADMIN_EMAIL)
         (ev (env_ADMIN_PASSWORD env) ||| JStr DEFAULT_PRIMARY_ADMIN_PASSWORD))
      o w
    = (loggedIn env o a, seeded env w)
    /\ isVerified a = true
    /\ email a
       = toLowerCase
           (trim (toStr (ev (env_ADMIN_EMAIL env)
                         ||| JStr DEFAULT_PRIMARY_ADMIN_EMAIL))).
Proof.
  intros Ea N.
  assert (Pa : parseAdminAccounts env = None)
    by (unfold parseAdminAccounts; now rewrite Ea).
  pose proof (singleSeed_distinct env Pa) as D.
  destruct (forOf_first_pass (seeds env) w N D) as (w1 & E & _ & S & _).
  assert (W : seeded env w = w1)
    by (unfold seeded, ensureSeedAdmins; now rewrite E).
  unfold seeds in S. rewrite Pa in S. unfold singleSeed in S.
  apply Forall_inv in S.
  set (em := ev (env_ADMIN_EMAIL env) ||| JStr DEFAULT_PRIMARY_ADMIN_EMAIL) in *.
  set (pw := ev (env_ADMIN_PASSWORD env)
             ||| JStr DEFAULT_PRIMARY_ADMIN_PASSWORD) in *.
  assert (Te : truthy em = true)
    by (unfold em; rewrite truthy_orDefault; apply orb_true_r).
  assert (Tp : truthy pw = true)
    by (unfold pw; rewrite truthy_orDefault; apply orb_true_r).
  destruct S as (a & Fa & Sy);
    [unfold usableSeed; simpl; now rewrite Te, Tp|].
  destruct (Sy eq_refl) as (Hp & _ & Hv).
  destruct (login_paths (credentials em pw) o w Te Tp) as [_ K].
  exists a. rewrite <- W in Fa.
  destruct (K a Fa) as [_ K2]. split; [now apply K2|].
  apply find_some in Fa. destruct Fa as [_ Ee]. apply String.eqb_eq in Ee.
  now split.
Qed.

(** X6.  When no delivery path works and the require-verification flag is
    off (its default), the login of an unverified account with the
    right password verifies the account on the spot and returns a
    session, in production mode as in any other. *)
Theorem login_bypass_verifies (req : Request) (o : Oracle) (w : World)
    (a : Admin) :
  uniqueIds (admins w) ->
  truthy (loginEmail req) = true -> truthy (loginPassword req) = true ->
  find (byEmail (loginAddress req)) (admins (seeded env w)) = Some a ->
  bcrypt_compare (toStr (loginPassword req)) (passwordHash a) = true ->
  isVerified a = false ->
  deliveryOutcome env o = Returned false ->
  REQUIRE_ADMIN_EMAIL_VERIFICATION env = false ->
  fst (login env req o w) = loggedInByBypass env o (verifiedDoc a)
  /\ find (byEmail (loginAddress req)) (admins (snd (login env req o w)))
     = Some (verifiedDoc a).
Proof.
  intros N Te Tp Fa Hp Hv D R. unfold login, handler, bind.
  rewrite ensureSeedAdmins_run.
  fold (loginEmail req) (loginPassword req). rewrite Te, Tp. simpl.
  unfold Admin_findOne. fold (loginAddress req). rewrite Fa, Hp, Hv. simpl.
  unfold saveVerificationCode, bind, Admin_save, ret.
  match goal with
  | |- context [sendVerificationCode ?e ?o ?em ?c ?w] =>
      pose proof (sendVerificationCode_outcome e o em c w) as (So & Sa & _);
      destruct (sendVerificationCode e o em c w) as [out after]
  end.
  simpl in So, Sa. rewrite D in So. subst out. simpl.
  unfold handleMissingSmtpVerification. rewrite R.
  unfold bind, Admin_save, ret. simpl. split; [reflexivity|].
  rewrite Sa.
  assert (N1 : uniqueIds (admins (seeded env w))).
  { unfold seeded, ensureSeedAdmins.
    now destruct (forOf_seedStep_frame (seeds env) w N) as (_ & N1 & _). }
  pose proof Fa as Ha. apply find_some in Ha. destruct Ha as [Ha _].
  apply find_byEmail_writeBack
    with (a := set_loginVerificationExpiresAt
                 (Some (now o + LOGIN_CODE_TTL_MS)%Z)
                 (set_loginVerificationCodeHash
                    (sha256_hex (generateVerificationCode o)) a));
    try reflexivity.
  - intros d Hd Ed. apply In_writeBack in Hd.
    destruct Hd as [->|[_ Hd]]; [reflexivity | now contradiction Hd].
  - apply find_byEmail_writeBack with (a := a); try reflexivity; auto.
    intros d Hd Ed. now apply (uniqueIds_same_id (admins (seeded env w))).
Qed.

End Login.

Lemma seed_credentials_log_in_witness :
  exists a,
    login (P := Sample.primitives) Sample.emptyEnv
      (credentials (getField defaultSeed "email")
                   (getField defaultSeed "password"))
      (Sample.oracleAt 1000) Sample.twoAdmins
    = (loggedIn (P := Sample.primitives) Sample.emptyEnv
         (Sample.oracleAt 1000) a,
       seeded (P := Sample.primitives) Sample.emptyEnv Sample.twoAdmins)
    /\ email a = seedEmail defaultSeed /\ name a = seedName defaultSeed
    /\ isVerified a = true.
Proof.
  apply (seed_credentials_log_in (L := SampleFacts.laws) Sample.emptyEnv
           defaultSeed (Sample.oracleAt 1000) Sample.twoAdmins).
  - unfold uniqueIds. simpl. distinct_strings.
  - vm_compute. distinct_strings.
  - simpl. auto.
  - reflexivity.
  - reflexivity.
Defined.

Lemma primary_admin_always_logs_in_witness :
  exists a,
    login (P := Sample.primitives) Sample.emptyEnv
      (credentials
         (ev (env_ADMIN_EMAIL Sample.emptyEnv)
          ||| JStr DEFAULT_PRIMARY_ADMIN_EMAIL)
         (ev (env_ADMIN_PASSWORD Sample.emptyEnv)
          ||| JStr DEFAULT_PRIMARY_ADMIN_PASSWORD))
      (Sample.oracleAt 1000) Sample.emptyWorld
    = (loggedIn (P := Sample.primitives) Sample.emptyEnv
         (Sample.oracleAt 1000) a,
       seeded (P := Sample.primitives) Sample.emptyEnv Sample.emptyWorld)
    /\ isVerified a = true
    /\ email a
       = toLowerCase
           (trim (toStr (ev (env_ADMIN_EMAIL Sample.emptyEnv)
                         ||| JStr DEFAULT_PRIMARY_ADMIN_EMAIL))).
Proof.
  apply (primary_admin_always_logs_in (L := SampleFacts.laws) Sample.emptyEnv
           (Sample.oracleAt 1000) Sample.emptyWorld).
  - reflexivity.
  - unfold uniqueIds. simpl. constructor.
Defined.

Lemma login_bypass_verifies_witness :
  fst (login (P := Sample.primitives) Sample.emptyEnv aliceLogsIn
         (Sample.oracleAt 1000) Sample.twoAdmins)
  = loggedInByBypass (P := Sample.primitives) Sample.emptyEnv
      (Sample.oracleAt 1000) (verifiedDoc Sample.alice)
  /\ find (byEmail (loginAddress aliceLogsIn))
       (admins (snd (login (P := Sample.primitives) Sample.emptyEnv
                       aliceLogsIn (Sample.oracleAt 1000) Sample.twoAdmins)))
     = Some (verifiedDoc Sample.alice).
Proof.
  apply (login_bypass_verifies (L := SampleFacts.laws) Sample.emptyEnv
           aliceLogsIn (Sample.oracleAt 1000) Sample.twoAdmins Sample.alice).
  - unfold uniqueIds. simpl. distinct_strings.
  - reflexivity.
  - reflexivity.
  - vm_compute. reflexivity.
  - vm_compute. reflexivity.
  - reflexivity.
  - reflexivity.
  - reflexivity.
Defined.

(** ** Creating accounts *)

Section Creation.

Context {P : Primitives} {L : PrimitiveLaws P}.
Variable env : Env.

Lemma validCreation_checks (req : Request) :
  validCreation req <->
  (isEmpty (createEmail req) || isEmpty (createPassword req) = false
   /\ (strLength (createPassword req) <? 6)%Z = false).
Proof.
  unfold validCreation. rewrite orb_false_iff, Z.ltb_ge, <- isEmpty_false.
  split.
  - intros [E Len]. repeat split; auto.
    destruct (createPassword req); [|reflexivity].
    unfold strLength in Len. simpl in Len. lia.
  - tauto.
Qed.

(** The paths of [POST /admins]. *)
Lemma createAdmin_paths (req : Request) (w : World) :
  (~ validCreation req ->
     status (fst (createAdmin env req w)) = 400%Z
     /\ snd (createAdmin env req w) = seeded env w)
  /\ (validCreation req ->
      (find (byEmail (createEmail req)) (admins (seeded env w)) <> None ->
         createAdmin env req w
         = (answer 409 "Admin account already exists for this email",
            seeded env w))
      /\ (find (byEmail (createEmail req)) (admins (seeded env w)) = None ->
          status (fst (createAdmin env req w)) = 201%Z
          /\ admins (snd (createAdmin env req w))
             = (admins (seeded env w)
                ++ [createdAdmin req (seeded env w)])%list)).
Proof.
  unfold createAdmin, handler, bind. rewrite ensureSeedAdmins_run.
  fold (createName req) (createEmail req) (createPassword req).
  rewrite validCreation_checks.
  destruct (isEmpty (createEmail req) || isEmpty (createPassword req));
    simpl; [split; [now split | intros [? _]; discriminate]|].
  destruct (strLength (createPassword req) <? 6)%Z;
    simpl; [split; [now split | intros [_ ?]; discriminate]|].
  split; [intros H; now contradiction H|].
  intros _. unfold Admin_findOne.
  destruct (find _ (admins (seeded env w))) as [a|]; simpl.
  - split; [reflexivity | intros ?; discriminate].
  - split; [intros H; now contradiction H | now split].
Qed.

(** The paths of signup that end before an account is created. *)
Lemma signup_refusals (req : Request) (o : Oracle) (w : World) :
  (signupDisabled env = true ->
     signup env req o w = (answer 403 "Admin signup is disabled.", w))
  /\ (signupDisabled env = false ->
      (~ validCreation req ->
         status (fst (signup env req o w)) = 400%Z
         /\ snd (signup env req o w) = seeded env w)
      /\ (validCreation req ->
          find (byEmail (createEmail req)) (admins (seeded env w)) <> None ->
          signup env req o w
          = (answer 409 "Admin account already exists for this email",
             seeded env w))).
Proof.
  unfold signup, handler, signupDisabled.
  destruct (_ =? "true"); [split; [reflexivity | discriminate]|].
  split; [discriminate|]. intros _. unfold bind.
  rewrite ensureSeedAdmins_run.
  fold (createName req) (createEmail req) (createPassword req).
  rewrite validCreation_checks.
  destruct (isEmpty (createEmail req) || isEmpty (createPassword req));
    simpl; [split; [now split | intros [? _]; discriminate]|].
  destruct (strLength (createPassword req) <? 6)%Z;
    simpl; [split; [now split | intros [_ ?]; discriminate]|].
  split; [intros H; now contradiction H|].
  intros _. unfold Admin_findOne.
  destruct (find _ (admins (seeded env w))) as [a|]; simpl.
  - reflexivity.
  - intros H. now contradiction H.
Qed.

(** X7.  Neither [POST /admins] nor signup creates anything for a request
    that fails validation (empty address, password shorter than 6
    characters) or names an address already taken: the answer is 400 or
    409 and the world is as seeding left it.  Signup, when disabled,
    answers 403 before it even seeds. *)
Theorem refused_creation_adds_nothing (req : Request) (o : Oracle) (w : World) :
  (~ validCreation req
   \/ find (byEmail (createEmail req)) (admins (seeded env w)) <> None) ->
  ((status (fst (createAdmin env req w)) = 400%Z
    \/ status (fst (createAdmin env req w)) = 409%Z)
   /\ snd (createAdmin env req w) = seeded env w)
  /\ (signupDisabled env = true ->
      signup env req o w = (answer 403 "Admin signup is disabled.", w))
  /\ (signupDisabled env = false ->
      (status (fst (signup env req o w)) = 400%Z
       \/ status (fst (signup env req o w)) = 409%Z)
      /\ snd (signup env req o w) = seeded env w).
Proof.
  intros H.
  destruct (createAdmin_paths req w) as [C1 C2].
  destruct (signup_refusals req o w) as [S1 S2].
  assert (V : validCreation req \/ ~ validCreation req).
  { rewrite validCreation_checks.
    destruct (_ || _), (_ <? _)%Z; intuition discriminate. }
  split; [|split; [exact S1|]].
  - destruct V as [V|V].
    + destruct H as [H|H]; [contradiction|].
      destruct (C2 V) as [K _]. rewrite (K H). split; [now right|reflexivity].
    + destruct (C1 V) as [K1 K2]. split; [now left|exact K2].
  - intros D. destruct (S2 D) as [K1 K2]. destruct V as [V|V].
    + destruct H as [H|H]; [contradiction|].
      rewrite (K2 V H). split; [now right|reflexivity].
    + destruct (K1 V) as [A B]. split; [now left|exact B].
Qed.

Lemma settled_app (l : list Admin) (d : Admin) (s : JsVal) :
  settled l s -> settled (l ++ [d]) s.
Proof.
  intros S U. destruct (S U) as (a & F & Sy). exists a.
  split; [now apply find_app_some | exact Sy].
Qed.

Lemma truthy_of_normalized (v : JsVal) :
  normalizeEmail v <> "" ->
  truthy v = true /\ toLowerCase (trim (toStr v)) = normalizeEmail v.
Proof.
  unfold normalizeEmail, jsOr. destruct (truthy v); [now split|].
  intros H. now contradiction H.
Qed.

Lemma truthy_of_long (v : JsVal) :
  (6 <= strLength (toStr (v ||| JStr "")))%Z ->
  truthy v = true /\ toStr v = toStr (v ||| JStr "").
Proof.
  unfold jsOr. destruct (truthy v); [now split|].
  unfold strLength. simpl. lia.
Qed.

(** X8.  An account created through [POST /admins] can log in at once
    with the address and password it was created with, with no
    verification code (when force-synced seed entries have distinct
    addresses). *)
Theorem created_admin_logs_in (req : Request) (o : Oracle) (w : World) :
  uniqueIds (admins w) -> NoDup (forcedEmails (seeds env)) ->
  validCreation req ->
  find (byEmail (createEmail req)) (admins (seeded env w)) = None ->
  status (fst (createAdmin env req w)) = 201%Z
  /\ login env
       (credentials (getField (req_body req) "email")
                    (getField (req_body req) "password"))
       o (snd (createAdmin env req w))
     = (loggedIn env o (createdAdmin req (seeded env w)),
        snd (createAdmin env req w)).
Proof.
  intros N D V F.
  destruct (createAdmin_paths req w) as [_ C].
  destruct (C V) as [_ K]. destruct (K F) as [St Ad]. split; [exact St|].
  destruct V as [Ve Vp].
  destruct (truthy_of_normalized _ Ve) as [Te Ee].
  destruct (truthy_of_long _ Vp) as [Tp Ep].
  set (w2 := snd (createAdmin env req w)) in *.
  (* seeding again finds nothing to do *)
  destruct (forOf_first_pass (seeds env) w N D) as (w1 & E & _ & S & _).
  assert (W : seeded env w = w1)
    by (unfold seeded, ensureSeedAdmins; now rewrite E).
  assert (S2 : seeded env w2 = w2).
  { unfold seeded, ensureSeedAdmins. rewrite forOf_settled; [reflexivity|].
    rewrite Ad, W. rewrite Forall_forall in *. intros s Hs.
    apply settled_app. now apply S. }
  destruct (login_paths env
              (credentials (getField (req_body req) "email")
                           (getField (req_body req) "password"))
              o w2 Te Tp) as [_ Lg].
  rewrite S2 in Lg.
  destruct (Lg (createdAdmin req (seeded env w))) as [_ Ok].
  - rewrite Ad. apply find_app_none.
    + unfold loginAddress, loginEmail. simpl. rewrite Ee. exact F.
    + unfold byEmail, loginAddress, loginEmail. simpl. rewrite Ee.
      apply String.eqb_refl.
  - apply Ok; [|reflexivity].
    unfold loginPassword. simpl. rewrite Ep. apply bcrypt_compare_hash.
Qed.

End Creation.

Lemma refused_creation_adds_nothing_witness :
  snd (createAdmin (P := Sample.primitives) Sample.emptyEnv
         (Sample.bodyOf [("email", JStr "x@x.com"); ("password", JStr "abc")])
         Sample.twoAdmins)
  = seeded (P := Sample.primitives) Sample.emptyEnv Sample.twoAdmins.
Proof.
  refine (proj2 (proj1
            (refused_creation_adds_nothing (P := Sample.primitives)
               Sample.emptyEnv
               (Sample.bodyOf [("email", JStr "x@x.com");
                               ("password", JStr "abc")])
               (Sample.oracleAt 1000) Sample.twoAdmins _))).
  left. intros [_ H]. vm_compute in H. now apply H.
Defined.

Lemma created_admin_logs_in_witness :
  status (fst (createAdmin (P := Sample.primitives) Sample.emptyEnv
                 carolCreate Sample.twoAdmins)) = 201%Z
  /\ login (P := Sample.primitives) Sample.emptyEnv
       (credentials (getField (req_body carolCreate) "email")
                    (getField (req_body carolCreate) "password"))
       (Sample.oracleAt 1000)
       (snd (createAdmin (P := Sample.primitives) Sample.emptyEnv
               carolCreate Sample.twoAdmins))
     = (loggedIn (P := Sample.primitives) Sample.emptyEnv
          (Sample.oracleAt 1000)
          (createdAdmin (P := Sample.primitives) carolCreate
             (seeded (P := Sample.primitives) Sample.emptyEnv
                     Sample.twoAdmins)),
        snd (createAdmin (P := Sample.primitives) Sample.emptyEnv
               carolCreate Sample.twoAdmins)).
Proof.
  apply (created_admin_logs_in (L := SampleFacts.laws) Sample.emptyEnv
           carolCreate (Sample.oracleAt 1000) Sample.twoAdmins).
  - unfold uniqueIds. simpl. distinct_strings.
  - vm_compute. distinct_strings.
  - split; [vm_compute; discriminate | vm_compute; discriminate].
  - vm_compute. reflexivity.
Defined.

(** ** One-time codes *)

Lemma string_of_uint_digits (d : Decimal.uint) :
  String.length (NilEmpty.string_of_uint d) = Decimal.nb_digits d
  /\ allDigits (NilEmpty.string_of_uint d) = true.
Proof.
  unfold allDigits.
  induction d as [|d [IH1 IH2]|d [IH1 IH2]|d [IH1 IH2]|d [IH1 IH2]
                  |d [IH1 IH2]|d [IH1 IH2]|d [IH1 IH2]|d [IH1 IH2]
                  |d [IH1 IH2]|d [IH1 IH2]];
    simpl; rewrite ?IH1, ?IH2; split; reflexivity.
Qed.

(** The digits read after an accumulator shift it left and stay below
    the next power of ten. *)
Lemma of_uint_acc_bounds (l : Decimal.uint) (acc : positive) :
  (Z.pos acc * 10 ^ Z.of_nat (Decimal.nb_digits l)
   <= Z.pos (Pos.of_uint_acc l acc)
   < (Z.pos acc + 1) * 10 ^ Z.of_nat (Decimal.nb_digits l))%Z.
Proof.
  revert acc.
  induction l as [|l IH|l IH|l IH|l IH|l IH|l IH|l IH|l IH|l IH|l IH];
    intros acc; [simpl; lia|..];
    cbn [Decimal.nb_digits Pos.of_uint_acc];
    rewrite Nat2Z.inj_succ, Z.pow_succ_r by lia;
    match goal with
    | |- context [Pos.of_uint_acc l ?a] => specialize (IH a)
    end;
    assert (0 < 10 ^ Z.of_nat (Decimal.nb_digits l))%Z
      by (apply Z.pow_pos_nonneg; lia);
    nia.
Qed.

Lemma nzhead_head (l : Decimal.uint) :
  match Decimal.nzhead l with Decimal.D0 _ => False | _ => True end.
Proof. induction l; simpl; auto. Qed.

(** The decimal form of a positive number has no leading zero. *)
Lemma to_uint_head (p : positive) :
  match Pos.to_uint p with
  | Decimal.Nil | Decimal.D0 _ => False
  | _ => True
  end.
Proof.
  pose proof (Unsigned.to_of (Pos.to_uint p)) as U.
  rewrite Unsigned.of_to in U. simpl in U.
  pose proof (Unsigned.to_uint_nonnil p) as N1.
  pose proof (Unsigned.to_uint_nonzero p) as N2.
  destruct (Pos.to_uint p) as [|l| | | | | | | | | ]; auto.
  unfold Decimal.unorm in U. simpl in U.
  pose proof (nzhead_head l) as H.
  destruct (Decimal.nzhead l); try discriminate; try contradiction.
Qed.

Lemma pos_digits (p : positive) :
  (100000 <= Z.pos p < 1000000)%Z ->
  Decimal.nb_digits (Pos.to_uint p) = 6%nat.
Proof.
  intros R. pose proof (to_uint_head p) as H.
  pose proof (Unsigned.of_to p) as V.
  destruct (Pos.to_uint p) as [|l|l|l|l|l|l|l|l|l|l]; try contradiction;
    simpl in V; injection V as V;
    match type of V with
    | Pos.of_uint_acc l ?k = _ => pose proof (of_uint_acc_bounds l k) as B
    end;
    rewrite V in B; cbn [Decimal.nb_digits]; f_equal;
    destruct (Nat.lt_trichotomy (Decimal.nb_digits l) 5) as [Lt|[Eq|Gt]];
    try assumption; exfalso.
  all: try (assert (10 ^ Z.of_nat (Decimal.nb_digits l) <= 10 ^ 4)%Z
             by (apply Z.pow_le_mono_r; lia); lia).
  all: assert (10 ^ 6 <= 10 ^ Z.of_nat (Decimal.nb_digits l))%Z
         by (apply Z.pow_le_mono_r; lia); lia.
Qed.

(** [String(..)] of an integer, by its size. *)
Lemma toStr_integer (n : Z) :
  toStr (JNum n)
  = if (Z.abs n <? 9007199254740992)%Z then decimal n
    else if (n <? 0)%Z then "-" ++ positiveToString (- n) 1
    else positiveToString n 1.
Proof. reflexivity. Qed.

Lemma decimal_nonempty (n : Z) : decimal n <> "".
Proof.
  unfold decimal. destruct (Z.to_int n) as [d|d]; simpl; [|discriminate].
  destruct d; discriminate.
Qed.

Lemma append_nonempty_l (x y : string) : x <> "" -> x ++ y <> "".
Proof. destruct x; [intros H; now contradiction H | discriminate]. Qed.

Lemma append_nonempty_r (x y : string) : y <> "" -> x ++ y <> "".
Proof.
  destruct x; simpl; [auto | discriminate].
Qed.

Lemma formatNumber_nonempty (s n : Z) : formatNumber s n <> "".
Proof.
  unfold formatNumber.
  destruct (_ && _); [apply append_nonempty_l, decimal_nonempty|].
  destruct (_ && _);
    [apply append_nonempty_r, append_nonempty_l; discriminate|].
  destruct (_ && _); [discriminate|].
  destruct (decimal s) as [|d [|c r]]; try discriminate.
  destruct (0 <=? n - 1)%Z; discriminate.
Qed.

Lemma positiveToString_nonempty (a b : Z) : positiveToString a b <> "".
Proof.
  unfold positiveToString. destruct (shortest _ _ _ _ _) as [[s n]|].
  - apply formatNumber_nonempty.
  - apply decimal_nonempty.
Qed.

Lemma toStr_num_nonempty (n : Z) : toStr (JNum n) <> "".
Proof.
  rewrite toStr_integer. destruct (Z.abs n <? _)%Z.
  - apply decimal_nonempty.
  - destruct (n <? 0)%Z; [discriminate | apply positiveToString_nonempty].
Qed.

(** X9.  Whatever [Math.random] returns in its range, the code
    [generateVerificationCode] makes is a string of exactly six decimal
    digits. *)
Theorem generateVerificationCode_six_digits (o : Oracle) :
  (0 <= randomDraw o < 900000)%Z ->
  String.length (generateVerificationCode o) = 6%nat
  /\ allDigits (generateVerificationCode o) = true.
Proof.
  intros R. unfold generateVerificationCode. rewrite toStr_integer.
  destruct (Z.ltb_spec (Z.abs (100000 + randomDraw o)) 9007199254740992);
    [|lia].
  destruct (100000 + randomDraw o)%Z as [|p|p] eqn:E; try lia.
  assert (Rp : (100000 <= Z.pos p < 1000000)%Z) by lia.
  pose proof (pos_digits p Rp) as N.
  pose proof (string_of_uint_digits (Pos.to_uint p)) as [S1 S2].
  unfold decimal. simpl. unfold NilZero.string_of_uint.
  destruct (Pos.to_uint p); [discriminate|..]; rewrite <- N; split; assumption.
Qed.

Lemma generateVerificationCode_six_digits_witness :
  String.length (generateVerificationCode (Sample.oracleAt 1000)) = 6%nat
  /\ allDigits (generateVerificationCode (Sample.oracleAt 1000)) = true.
Proof.
  apply (generateVerificationCode_six_digits (Sample.oracleAt 1000)).
  simpl. lia.
Defined.

(** ** From an issued code to a session *)

Lemma find_unique {A} (p : A -> bool) (l : list A) (a : A) :
  In a l -> p a = true -> (forall d, In d l -> p d = true -> d = a) ->
  find p l = Some a.
Proof.
  intros Ha Pa U. destruct (find p l) as [b|] eqn:F.
  - apply find_some in F. destruct F as [Hb Pb]. f_equal. now apply U.
  - apply (find_none _ _ F) in Ha. congruence.
Qed.

Lemma verifiedDoc_withLoginCode {P : Primitives} (o : Oracle) (a : Admin) :
  verifiedDoc (withLoginCode o a) = verifiedDoc a.
Proof. reflexivity. Qed.

Section IssuedCodes.

Context {P : Primitives} {L : PrimitiveLaws P}.
Variable env : Env.

(** A stored account that holds the code of a request answers it until
    its expiry and not after. *)
Lemma pending_code_verifies (req : Request) (o : Oracle) (w : World)
    (a : Admin) (e : Z) :
  stored (admins w) a ->
  submittedEmail req = email a -> email a <> "" ->
  submittedCode req <> "" ->
  loginVerificationCodeHash a = sha256_hex (submittedCode req) ->
  loginVerificationExpiresAt a = Some e ->
  ((now o < e)%Z ->
     verifyLogin env req o w
     = (loginAccepted env o a,
        withAdmins (writeBack (verifiedDoc a) (admins w))
                   (StoreSave (verifiedDoc a)) w))
  /\ ((e <= now o)%Z -> verifyLogin env req o w = (loginRejected, w)).
Proof.
  intros [[Ni Ne] Ha] Em Hn Hc Hh He.
  assert (Hm : submittedEmail req <> "") by now rewrite Em.
  destruct (verifyLogin_cases env req o w Hm Hc Ne)
    as [(b & Hb & (Eb & (e' & Xb & Lb) & _) & R) | [No R]].
  - assert (b = a)
      by (apply (NoDup_map_inj email (admins w)); auto; congruence).
    subst b. rewrite He in Xb. injection Xb as <-.
    split; [now intros _ | lia].
  - split; [|now intros _]. intros Lt. exfalso. apply (No a Ha).
    repeat split; auto. now exists e.
Qed.

(** Names what [sendVerificationCode] returned and the world it left,
    whose collection is the one it was given. *)
Ltac code_sent :=
  match goal with
  | |- context [sendVerificationCode ?e ?o ?em ?c ?w] =>
      let So := fresh "So" in
      let Sa := fresh "Sa" in
      pose proof (sendVerificationCode_outcome e o em c w) as (So & Sa & _);
      destruct (sendVerificationCode e o em c w) as [?out ?after];
      simpl in So, Sa
  end.

(** Resend-verification stores the code on the account whatever
    becomes of the mail. *)
Lemma resendVerification_issues (req : Request) (o : Oracle) (w : World)
    (a : Admin) :
  submittedEmail req <> "" ->
  find (byEmail (submittedEmail req)) (admins w) = Some a ->
  isVerified a = false -> codeRequired env o ->
  admins (snd (resendVerification env req o w))
  = writeBack (withLoginCode o a) (admins w)
  /\ (deliveryOutcome env o = Returned true ->
      fst (resendVerification env req o w)
      = answer 200 "Verification code sent to your email.").
Proof.
  intros Hm F V R. unfold resendVerification, handler, bind.
  fold (submittedEmail req). apply isEmpty_false in Hm. rewrite Hm.
  unfold Admin_findOne. rewrite F, V. simpl.
  unfold saveVerificationCode, bind, Admin_save, ret. code_sent.
  unfold codeRequired in R.
  destruct (deliveryOutcome env o) as [[|]|]; subst out; simpl.
  - now split.
  - unfold handleMissingSmtpVerification. rewrite R by reflexivity. simpl.
    split; [exact Sa | discriminate].
  - split; [exact Sa | discriminate].
Qed.

(** X10.  The code resend-verification issues opens a session for exactly
    ten minutes: sent back with the account's address before
    [LOGIN_CODE_TTL_MS] has passed it verifies the account and logs in,
    from then on it is rejected and nothing changes.  This holds
    whether the mail went out, failed, or could not be sent with the
    require-verification flag on. *)
Theorem resent_code_verifies (req req' : Request) (o o' : Oracle)
    (w : World) (a : Admin) :
  stored (admins w) a -> isVerified a = false ->
  submittedEmail req = email a -> email a <> "" ->
  codeRequired env o ->
  submittedEmail req' = email a ->
  submittedCode req' = generateVerificationCode o ->
  ((now o' < now o + LOGIN_CODE_TTL_MS)%Z ->
     fst (verifyLogin env req' o' (snd (resendVerification env req o w)))
     = loginAccepted env o' a
     /\ stored (admins (snd (verifyLogin env req' o'
                               (snd (resendVerification env req o w)))))
               (verifiedDoc a))
  /\ ((now o + LOGIN_CODE_TTL_MS <= now o')%Z ->
      verifyLogin env req' o' (snd (resendVerification env req o w))
      = (loginRejected, snd (resendVerification env req o w))).
Proof.
  intros St V Em Hn R Em' Ec.
  assert (F : find (byEmail (submittedEmail req)) (admins w) = Some a)
    by (rewrite Em; apply find_byEmail_stored; apply St).
  assert (Hm : submittedEmail req <> "") by now rewrite Em.
  destruct (resendVerification_issues req o w a Hm F V R) as [Ad _].
  assert (St1 : stored (admins (snd (resendVerification env req o w)))
                       (withLoginCode o a))
    by (rewrite Ad; now apply stored_writeBack with (a := a)).
  assert (Hc : submittedCode req' <> "")
    by (rewrite Ec; apply toStr_num_nonempty).
  destruct (pending_code_verifies req' o'
              (snd (resendVerification env req o w)) (withLoginCode o a)
              (now o + LOGIN_CODE_TTL_MS)%Z St1 Em' Hn Hc)
    as [Ok No]; [simpl; now rewrite Ec | reflexivity |].
  split; [|exact No].
  intros Lt. rewrite (Ok Lt). simpl. split; [reflexivity|].
  now apply stored_writeBack with (a := withLoginCode o a).
Qed.

(** So does the login of an unverified account with the right
    password. *)
Lemma login_issues (req : Request) (o : Oracle) (w : World) (a : Admin) :
  truthy (loginEmail req) = true -> truthy (loginPassword req) = true ->
  find (byEmail (loginAddress req)) (admins (seeded env w)) = Some a ->
  bcrypt_compare (toStr (loginPassword req)) (passwordHash a) = true ->
  isVerified a = false -> codeRequired env o ->
  admins (snd (login env req o w))
  = writeBack (withLoginCode o a) (admins (seeded env w))
  /\ (deliveryOutcome env o <> Thrown ->
      status (fst (login env req o w)) = 403%Z
      /\ assoc "token" (body (fst (login env req o w))) = JUndefined).
Proof.
  intros Te Tp F Hp V R. unfold login, handler, bind.
  rewrite ensureSeedAdmins_run.
  fold (loginEmail req) (loginPassword req). rewrite Te, Tp. simpl.
  unfold Admin_findOne. fold (loginAddress req). rewrite F, Hp, V. simpl.
  unfold saveVerificationCode, bind, Admin_save, ret. code_sent.
  unfold codeRequired in R.
  destruct (deliveryOutcome env o) as [[|]|]; subst out; simpl.
  - now split.
  - unfold handleMissingSmtpVerification. rewrite R by reflexivity. simpl.
    split; [exact Sa|]. intros _. split; [reflexivity|].
    unfold formatVerificationResponse. simpl.
    now destruct (production env).
  - split; [exact Sa|]. intros H. now contradiction H.
Qed.

(** X11.  A login with the right password on an account that is not yet
    verified gives no session: it answers 403 without a token and
    stores a code, and that code, sent to verify-login with the
    account's address, opens the session for exactly ten minutes. *)
Theorem login_code_verifies (req req' : Request) (o o' : Oracle)
    (w : World) (a : Admin) :
  consistent (admins w) ->
  truthy (loginEmail req) = true -> truthy (loginPassword req) = true ->
  find (byEmail (loginAddress req)) (admins (seeded env w)) = Some a ->
  bcrypt_compare (toStr (loginPassword req)) (passwordHash a) = true ->
  isVerified a = false -> email a <> "" -> codeRequired env o ->
  submittedEmail req' = email a ->
  submittedCode req' = generateVerificationCode o ->
  (deliveryOutcome env o <> Thrown ->
     status (fst (login env req o w)) = 403%Z
     /\ assoc "token" (body (fst (login env req o w))) = JUndefined)
  /\ ((now o' < now o + LOGIN_CODE_TTL_MS)%Z ->
      fst (verifyLogin env req' o' (snd (login env req o w)))
      = loginAccepted env o' a
      /\ stored (admins (snd (verifyLogin env req' o'
                                (snd (login env req o w)))))
                (verifiedDoc a))
  /\ ((now o + LOGIN_CODE_TTL_MS <= now o')%Z ->
      verifyLogin env req' o' (snd (login env req o w))
      = (loginRejected, snd (login env req o w))).
Proof.
  intros C Te Tp F Hp V Hn R Em' Ec.
  destruct (login_issues req o w a Te Tp F Hp V R) as [Ad An].
  split; [exact An|].
  assert (St : stored (admins (seeded env w)) a).
  { split; [now apply ensureSeedAdmins_consistent|].
    now apply find_some in F. }
  assert (St1 : stored (admins (snd (login env req o w))) (withLoginCode o a))
    by (rewrite Ad; now apply stored_writeBack with (a := a)).
  assert (Hc : submittedCode req' <> "")
    by (rewrite Ec; apply toStr_num_nonempty).
  destruct (pending_code_verifies req' o'
              (snd (login env req o w)) (withLoginCode o a)
              (now o + LOGIN_CODE_TTL_MS)%Z St1 Em' Hn Hc)
    as [Ok No]; [simpl; now rewrite Ec | reflexivity |].
  split; [|exact No].
  intros Lt. rewrite (Ok Lt). simpl. split; [reflexivity|].
  now apply stored_writeBack with (a := withLoginCode o a).
Qed.

Lemma writeBack_last (a a' : Admin) (l : list Admin) :
  (forall d, In d l -> _id d <> _id a) -> _id a' = _id a ->
  writeBack a' (l ++ [a]) = (l ++ [a'])%list.
Proof.
  intros N E. rewrite writeBack_app.
  rewrite writeBack_absent by (intros d Hd; rewrite E; now apply N).
  simpl. now rewrite E, String.eqb_refl.
Qed.

Lemma fresh_id (l : list Admin) (d : Admin) :
  In d l -> _id d <> newObjectId (map _id l).
Proof.
  intros Hd E. apply (newObjectId_fresh (map _id l)).
  rewrite <- E. now apply in_map.
Qed.

(** Signup appends the new account with its code stored. *)
Lemma signup_issues (req : Request) (o : Oracle) (w : World) :
  signupDisabled env = false -> validCreation req ->
  find (byEmail (createEmail req)) (admins (seeded env w)) = None ->
  codeRequired env o ->
  admins (snd (signup env req o w))
  = (admins (seeded env w)
     ++ [withLoginCode o (signedUpAdmin req (seeded env w))])%list
  /\ (deliveryOutcome env o = Returned true ->
      status (fst (signup env req o w)) = 201%Z).
Proof.
  intros D V F R. unfold signup, handler.
  unfold signupDisabled in D. rewrite D. unfold bind.
  rewrite ensureSeedAdmins_run.
  fold (createName req) (createEmail req) (createPassword req).
  apply validCreation_checks in V. destruct V as [V1 V2]. rewrite V1, V2.
  simpl. unfold Admin_findOne. rewrite F. simpl.
  unfold saveVerificationCode, bind, Admin_save, ret. code_sent.
  simpl in Sa. fold (signedUpAdmin req (seeded env w)) in Sa.
  fold (withLoginCode o (signedUpAdmin req (seeded env w))) in Sa.
  rewrite writeBack_last in Sa;
    [| intros d Hd; now apply fresh_id | reflexivity].
  unfold codeRequired in R.
  destruct (deliveryOutcome env o) as [[|]|]; subst out; simpl.
  - now split.
  - unfold handleMissingSmtpVerification. rewrite R by reflexivity. simpl.
    split; [exact Sa | discriminate].
  - split; [exact Sa | discriminate].
Qed.

(** X12.  The whole registration: after a signup that asks for
    verification, the code it issued, sent to verify-login within ten
    minutes, verifies the new account, and from then on the address
    and password given at signup log in without any code (when
    force-synced seed entries have distinct addresses). *)
Theorem signup_verify_login (req req' : Request) (o o' o'' : Oracle)
    (w : World) :
  consistent (admins w) -> NoDup (forcedEmails (seeds env)) ->
  signupDisabled env = false -> validCreation req ->
  find (byEmail (createEmail req)) (admins (seeded env w)) = None ->
  codeRequired env o ->
  submittedEmail req' = createEmail req ->
  submittedCode req' = generateVerificationCode o ->
  (now o' < now o + LOGIN_CODE_TTL_MS)%Z ->
  fst (verifyLogin env req' o' (snd (signup env req o w)))
  = loginAccepted env o' (signedUpAdmin req (seeded env w))
  /\ login env
       (credentials (getField (req_body req) "email")
                    (getField (req_body req) "password"))
       o'' (snd (verifyLogin env req' o' (snd (signup env req o w))))
     = (loggedIn env o'' (verifiedDoc (signedUpAdmin req (seeded env w))),
        snd (verifyLogin env req' o' (snd (signup env req o w)))).
Proof.
  intros C D Sd V F R Em' Ec Lt.
  destruct (signup_issues req o w Sd V F R) as [Ad _].
  set (d := signedUpAdmin req (seeded env w)) in *.
  set (w1 := snd (signup env req o w)) in *.
  pose proof (ensureSeedAdmins_consistent env w C) as C1.
  fold (seeded env w) in C1.
  assert (Fr : forall x, In x (admins (seeded env w)) -> _id x <> _id d)
    by (intros x Hx; now apply fresh_id).
  assert (St : stored (admins w1) (withLoginCode o d)).
  { rewrite Ad.
    rewrite <- (writeBack_last d (withLoginCode o d)) by auto.
    apply stored_writeBack with (a := d); try reflexivity.
    now apply stored_append. }
  destruct V as [Ve Vp].
  assert (Hc : submittedCode req' <> "")
    by (rewrite Ec; apply toStr_num_nonempty).
  destruct (pending_code_verifies req' o' w1 (withLoginCode o d)
              (now o + LOGIN_CODE_TTL_MS)%Z St Em' Ve Hc)
    as [Ok _]; [simpl; now rewrite Ec | reflexivity |].
  rewrite (Ok Lt). split; [reflexivity|].
  set (w2 := withAdmins _ _ w1).
  assert (Ad2 : admins w2 = (admins (seeded env w) ++ [verifiedDoc d])%list).
  { unfold w2. simpl. rewrite Ad. now apply writeBack_last. }
  (* seeding again finds nothing to do *)
  destruct C as [N _].
  destruct (forOf_first_pass (seeds env) w N D) as (w0 & E & _ & S & _).
  assert (W : seeded env w = w0)
    by (unfold seeded, ensureSeedAdmins; now rewrite E).
  assert (S2 : seeded env w2 = w2).
  { unfold seeded, ensureSeedAdmins. rewrite forOf_settled; [reflexivity|].
    rewrite Ad2, W. rewrite Forall_forall in *. intros s Hs.
    apply settled_app. now apply S. }
  destruct (truthy_of_normalized _ Ve) as [Te Ee].
  destruct (truthy_of_long _ Vp) as [Tp Ep].
  destruct (login_paths env
              (credentials (getField (req_body req) "email")
                           (getField (req_body req) "password"))
              o'' w2 Te Tp) as [_ Lg].
  rewrite S2 in Lg.
  destruct (Lg (verifiedDoc d)) as [_ Okl].
  - rewrite Ad2. apply find_app_none.
    + unfold loginAddress, loginEmail. simpl. rewrite Ee. exact F.
    + unfold byEmail, loginAddress, loginEmail. simpl. rewrite Ee.
      apply String.eqb_refl.
  - apply Okl; [|reflexivity].
    unfold loginPassword. simpl. rewrite Ep. apply bcrypt_compare_hash.
Qed.

(** A verified account appended to a seeded collection logs in with
    the credentials it was made from. *)
Lemma appended_account_logs_in (req : Request) (o : Oracle) (w w2 : World)
    (d : Admin) (n : nat) :
  uniqueIds (admins w) -> NoDup (forcedEmails (seeds env)) ->
  validCreation req ->
  find (byEmail (createEmail req)) (admins (seeded env w)) = None ->
  admins w2 = (admins (seeded env w) ++ [d])%list ->
  email d = createEmail req ->
  passwordHash d = bcrypt_hash n (createPassword req) ->
  isVerified d = true ->
  login env
    (credentials (getField (req_body req) "email")
                 (getField (req_body req) "password")) o w2
  = (loggedIn env o d, w2).
Proof.
  intros N D [Ve Vp] F Ad Ed Hd Vd.
  destruct (forOf_first_pass (seeds env) w N D) as (w0 & E & _ & S & _).
  assert (W : seeded env w = w0)
    by (unfold seeded, ensureSeedAdmins; now rewrite E).
  assert (S2 : seeded env w2 = w2).
  { unfold seeded, ensureSeedAdmins. rewrite forOf_settled; [reflexivity|].
    rewrite Ad, W. rewrite Forall_forall in *. intros s Hs.
    apply settled_app. now apply S. }
  destruct (truthy_of_normalized _ Ve) as [Te Ee].
  destruct (truthy_of_long _ Vp) as [Tp Ep].
  destruct (login_paths env
              (credentials (getField (req_body req) "email")
                           (getField (req_body req) "password"))
              o w2 Te Tp) as [_ Lg].
  rewrite S2 in Lg. destruct (Lg d) as [_ Okl].
  - rewrite Ad. apply find_app_none.
    + unfold loginAddress, loginEmail. simpl. rewrite Ee. exact F.
    + unfold byEmail, loginAddress, loginEmail. simpl. rewrite Ee, Ed.
      apply String.eqb_refl.
  - apply Okl; [|exact Vd].
    unfold loginPassword. simpl. rewrite Ep, Hd. apply bcrypt_compare_hash.
Qed.

(** X13.  Where no delivery path exists and the require-verification flag
    is off (its default), an open signup needs no code at all: the
    account is created already verified, the answer says so, and the
    address and password just given log in at once (when force-synced
    seed entries have distinct addresses). *)
Theorem signup_bypass_verifies (req : Request) (o o' : Oracle) (w : World) :
  uniqueIds (admins w) -> NoDup (forcedEmails (seeds env)) ->
  signupDisabled env = false -> validCreation req ->
  find (byEmail (createEmail req)) (admins (seeded env w)) = None ->
  deliveryOutcome env o = Returned false ->
  REQUIRE_ADMIN_EMAIL_VERIFICATION env = false ->
  fst (signup env req o w)
  = {| status := 201;
       body := [ ("message",
                  JStr "Admin created and verified (SMTP not configured).");
                 ("verificationRequired", JBool false);
                 ("email", JStr (createEmail req)) ] |}
  /\ admins (snd (signup env req o w))
     = (admins (seeded env w)
        ++ [verifiedDoc (signedUpAdmin req (seeded env w))])%list
  /\ login env
       (credentials (getField (req_body req) "email")
                    (getField (req_body req) "password"))
       o' (snd (signup env req o w))
     = (loggedIn env o' (verifiedDoc (signedUpAdmin req (seeded env w))),
        snd (signup env req o w)).
Proof.
  intros N D Sd V F Dv R.
  assert (K : fst (signup env req o w)
              = {| status := 201;
                   body := [ ("message",
                              JStr "Admin created and verified (SMTP not configured).");
                             ("verificationRequired", JBool false);
                             ("email", JStr (createEmail req)) ] |}
              /\ admins (snd (signup env req o w))
                 = (admins (seeded env w)
                    ++ [verifiedDoc (signedUpAdmin req (seeded env w))])%list).
  { unfold signup, handler.
    unfold signupDisabled in Sd. rewrite Sd. unfold bind.
    rewrite ensureSeedAdmins_run.
    fold (createName req) (createEmail req) (createPassword req).
    pose proof V as V'. apply validCreation_checks in V'.
    destruct V' as [V1 V2]. rewrite V1, V2.
    simpl. unfold Admin_findOne. rewrite F. simpl.
    unfold saveVerificationCode, bind, Admin_save, ret. code_sent.
    simpl in Sa. fold (signedUpAdmin req (seeded env w)) in Sa.
    fold (withLoginCode o (signedUpAdmin req (seeded env w))) in Sa.
    rewrite writeBack_last in Sa;
      [| intros d Hd; now apply fresh_id | reflexivity].
    rewrite Dv in So. subst out. simpl.
    unfold handleMissingSmtpVerification. rewrite R. simpl.
    split; [reflexivity|]. rewrite Sa.
    fold (signedUpAdmin req (seeded env w)).
    apply (writeBack_last (withLoginCode o (signedUpAdmin req (seeded env w))));
      [|reflexivity].
    intros d Hd. now apply fresh_id. }
  destruct K as [K1 K2]. split; [exact K1|]. split; [exact K2|].
  now apply appended_account_logs_in with (w := w) (n := saltsDrawn (seeded env w)).
Qed.

End IssuedCodes.

Lemma resent_code_verifies_witness :
  fst (verifyLogin (P := Sample.primitives) devStrictEnv aliceLogin
         (Sample.oracleAt 2000)
         (snd (resendVerification (P := Sample.primitives) devStrictEnv
                 aliceForgot (Sample.oracleAt 1000) Sample.twoAdmins)))
  = loginAccepted (P := Sample.primitives) devStrictEnv
      (Sample.oracleAt 2000) Sample.alice.
Proof.
  refine (proj1 (proj1
            (resent_code_verifies (P := Sample.primitives) devStrictEnv
               aliceForgot aliceLogin (Sample.oracleAt 1000)
               (Sample.oracleAt 2000) Sample.twoAdmins Sample.alice
               _ _ _ _ _ _ _) _)).
  - split; [sample_consistent | simpl; auto].
  - reflexivity.
  - vm_compute. reflexivity.
  - simpl. discriminate.
  - intros _. reflexivity.
  - vm_compute. reflexivity.
  - vm_compute. reflexivity.
  - vm_compute. reflexivity.
Defined.

Lemma login_code_verifies_witness :
  fst (verifyLogin (P := Sample.primitives) devStrictEnv aliceLogin
         (Sample.oracleAt 2000)
         (snd (login (P := Sample.primitives) devStrictEnv aliceLogsIn
                 (Sample.oracleAt 1000) Sample.twoAdmins)))
  = loginAccepted (P := Sample.primitives) devStrictEnv
      (Sample.oracleAt 2000) Sample.alice.
Proof.
  refine (proj1 (proj1 (proj2
            (login_code_verifies (L := SampleFacts.laws) devStrictEnv
               aliceLogsIn aliceLogin (Sample.oracleAt 1000)
               (Sample.oracleAt 2000) Sample.twoAdmins Sample.alice
               _ _ _ _ _ _ _ _ _ _)) _)).
  - sample_consistent.
  - reflexivity.
  - reflexivity.
  - vm_compute. reflexivity.
  - vm_compute. reflexivity.
  - reflexivity.
  - simpl. discriminate.
  - intros _. reflexivity.
  - vm_compute. reflexivity.
  - vm_compute. reflexivity.
  - vm_compute. reflexivity.
Defined.

Lemma signup_verify_login_witness :
  fst (login (P := Sample.primitives) devStrictEnv
         (credentials (getField (req_body carolCreate) "email")
                      (getField (req_body carolCreate) "password"))
         (Sample.oracleAt 3000)
         (snd (verifyLogin (P := Sample.primitives) devStrictEnv carolVerifies
                 (Sample.oracleAt 2000)
                 (snd (signup (P := Sample.primitives) devStrictEnv
                         carolCreate (Sample.oracleAt 1000)
                         Sample.twoAdmins)))))
  = loggedIn (P := Sample.primitives) devStrictEnv (Sample.oracleAt 3000)
      (verifiedDoc
         (signedUpAdmin (P := Sample.primitives) carolCreate
            (seeded (P := Sample.primitives) devStrictEnv Sample.twoAdmins))).
Proof.
  refine (f_equal fst (proj2
            (signup_verify_login (L := SampleFacts.laws) devStrictEnv
               carolCreate carolVerifies (Sample.oracleAt 1000)
               (Sample.oracleAt 2000) (Sample.oracleAt 3000)
               Sample.twoAdmins _ _ _ _ _ _ _ _ _))).
  - sample_consistent.
  - vm_compute. distinct_strings.
  - reflexivity.
  - split; [vm_compute; discriminate | vm_compute; discriminate].
  - vm_compute. reflexivity.
  - intros _. reflexivity.
  - vm_compute. reflexivity.
  - vm_compute. reflexivity.
  - vm_compute. reflexivity.
Defined.

Lemma signup_bypass_verifies_witness :
  fst (signup (P := Sample.primitives) openSignupEnv carolCreate
         (Sample.oracleAt 1000) Sample.twoAdmins)
  = {| status := 201;
       body := [ ("message",
                  JStr "Admin created and verified (SMTP not configured).");
                 ("verificationRequired", JBool false);
                 ("email", JStr (createEmail carolCreate)) ] |}.
Proof.
  refine (proj1
            (signup_bypass_verifies (L := SampleFacts.laws) openSignupEnv
               carolCreate (Sample.oracleAt 1000) (Sample.oracleAt 2000)
               Sample.twoAdmins _ _ _ _ _ _ _)).
  - unfold uniqueIds. simpl. distinct_strings.
  - vm_compute. distinct_strings.
  - reflexivity.
  - split; [vm_compute; discriminate | vm_compute; discriminate].
  - vm_compute. reflexivity.
  - reflexivity.
  - reflexivity.
Defined.

(** ** Forgotten passwords *)

Section PasswordReset.

Context {P : Primitives} {L : PrimitiveLaws P}.
Variable env : Env.

(** The paths of forgot-password past its input check. *)
Lemma forgotPassword_paths (req : Request) (o : Oracle) (w : World) :
  resetEmail req <> "" ->
  (find (byEmail (resetEmail req)) (admins (seeded env w)) = None ->
     forgotPassword env req o w = (resetRequested, seeded env w))
  /\ (forall a,
        find (byEmail (resetEmail req)) (admins (seeded env w)) = Some a ->
        fst (forgotPassword env req o w) = forgotAnswer env o
        /\ admins (snd (forgotPassword env req o w))
           = writeBack (withResetCode o a) (admins (seeded env w))).
Proof.
  intros Hm. unfold forgotPassword, handler, bind.
  rewrite ensureSeedAdmins_run. fold (resetEmail req).
  apply isEmpty_false in Hm. rewrite Hm. unfold Admin_findOne. split.
  - now intros ->.
  - intros a ->. simpl. unfold Admin_save, bind.
    rewrite sendWithResend_run.
    unfold forgotAnswer, deliveryOutcome, resendOutcome, sendMail.
    destruct (resendConfigured env (getEmailSettings o));
      [destruct (resendFetch o) as [|[|]]|];
      simpl; try (split; reflexivity);
      destruct (createTransporter env (getEmailSettings o));
      simpl; try destruct (smtpSendMail o); try destruct (production env);
      simpl; split; reflexivity.
Qed.

(** X14.  Forgot-password does not tell a known address from an unknown
    one as long as the mail goes out: both get the same 200 answer, and
    for an unknown address nothing happens beyond the seeding the
    route starts with.  Where no delivery path exists the answers
    differ: a known address gets the code in the answer outside
    production and a 500 answer in production. *)
Theorem forgotPassword_answers (req : Request) (o : Oracle) (w : World) :
  resetEmail req <> "" ->
  (find (byEmail (resetEmail req)) (admins (seeded env w)) = None ->
     forgotPassword env req o w = (resetRequested, seeded env w))
  /\ (forall a,
        find (byEmail (resetEmail req)) (admins (seeded env w)) = Some a ->
        (deliveryOutcome env o = Returned true ->
           fst (forgotPassword env req o w) = resetRequested)
        /\ (deliveryOutcome env o = Returned false ->
            fst (forgotPassword env req o w) <> resetRequested
            /\ (production env = true ->
                status (fst (forgotPassword env req o w)) = 500%Z)
            /\ (production env = false ->
                assoc "resetCode" (body (fst (forgotPassword env req o w)))
                = JStr (generateVerificationCode o)))).
Proof.
  intros Hm. destruct (forgotPassword_paths req o w Hm) as [Un Kn].
  split; [exact Un|]. intros a F. destruct (Kn a F) as [An _].
  rewrite An. unfold forgotAnswer. split; intros ->; [reflexivity|].
  destruct (production env); repeat split; discriminate.
Qed.

Lemma wellFormedReset_checks {Q : Primitives} (req : Request) :
  wellFormedReset req ->
  isEmpty (resetEmail req) || isEmpty (newPassword req)
  || (isEmpty (resetToken req) && isEmpty (resetCode req)) = false
  /\ (strLength (newPassword req) <? 6)%Z = false.
Proof.
  intros (He & Hl & Hv). split; [|now apply Z.ltb_ge].
  apply isEmpty_false in He. rewrite He. simpl.
  destruct (newPassword req) eqn:En;
    [unfold strLength in Hl; simpl in Hl; lia|]. simpl.
  destruct Hv as [H|H]; apply isEmpty_false in H; rewrite H;
    [reflexivity | apply andb_false_r].
Qed.

(** The two paths of reset-password past its input checks. *)
Lemma resetPassword_cases (req : Request) (o : Oracle) (w : World) :
  wellFormedReset req ->
  (exists a, In a (admins w) /\ pendingReset req (now o) a
             /\ fst (resetPassword req o w) = resetAccepted
             /\ admins (snd (resetPassword req o w))
                = writeBack (resetDoc (saltsDrawn w) (newPassword req) a)
                            (admins w))
  \/ ((forall a, In a (admins w) -> ~ pendingReset req (now o) a)
      /\ resetPassword req o w = (resetRejected, w)).
Proof.
  intros Wf. destruct (wellFormedReset_checks req Wf) as [K1 K2].
  unfold resetPassword, handler.
  fold (resetEmail req) (resetToken req) (resetCode req) (newPassword req).
  fold (resetValue req). rewrite K1, K2. unfold bind, Admin_findOne.
  destruct (find _ (admins w)) as [a|] eqn:F; simpl.
  - left. exists a. apply find_some in F. destruct F as [Ha Pa].
    apply andb_prop in Pa. destruct Pa as [Pa D].
    apply andb_prop in Pa. destruct Pa as [Ea Ta].
    unfold byEmail in Ea. apply String.eqb_eq in Ea, Ta.
    apply dateGt_spec in D. now repeat split.
  - right. split; [|reflexivity]. intros a Ha (Ea & Ta & D).
    apply (find_none _ _ F) in Ha. apply dateGt_spec in D.
    unfold byEmail in Ha.
    rewrite D, Ea, Ta, !String.eqb_refl in Ha. discriminate.
Qed.

Lemma resetValue_given {Q : Primitives} (req : Request) :
  resetValue req <> "" -> resetToken req <> "" \/ resetCode req <> "".
Proof.
  unfold resetValue, jsOr. simpl.
  destruct (resetCode req); simpl; [now left | right; discriminate].
Qed.

(** X15.  The code forgot-password stores resets the password for exactly
    fifteen minutes and only once: sent with the account's address and
    a new password of six characters or more before the time is up, it
    is accepted, the new password then matches the stored hash, and
    the same request sent again is rejected; from fifteen minutes on it
    is rejected and nothing changes.  This holds however the mail
    fared. *)
Theorem forgotten_password_reset (req req' : Request) (o o' o'' : Oracle)
    (w : World) (a : Admin) :
  consistent (admins w) -> resetEmail req <> "" ->
  find (byEmail (resetEmail req)) (admins (seeded env w)) = Some a ->
  resetEmail req' = resetEmail req ->
  resetValue req' = generateVerificationCode o ->
  (6 <= strLength (newPassword req'))%Z ->
  ((now o' < now o + 15 * 60 * 1000)%Z ->
     fst (resetPassword req' o' (snd (forgotPassword env req o w)))
     = resetAccepted
     /\ (exists a',
           stored (admins (snd (resetPassword req' o'
                                  (snd (forgotPassword env req o w))))) a'
           /\ email a' = email a
           /\ bcrypt_compare (newPassword req') (passwordHash a') = true)
     /\ resetPassword req' o''
          (snd (resetPassword req' o' (snd (forgotPassword env req o w))))
        = (resetRejected,
           snd (resetPassword req' o' (snd (forgotPassword env req o w)))))
  /\ ((now o + 15 * 60 * 1000 <= now o')%Z ->
      resetPassword req' o' (snd (forgotPassword env req o w))
      = (resetRejected, snd (forgotPassword env req o w))).
Proof.
  intros C Hm F Em' Ev Hl.
  destruct (forgotPassword_paths req o w Hm) as [_ Kn].
  destruct (Kn a F) as [_ Ad].
  set (w1 := snd (forgotPassword env req o w)) in *.
  pose proof (ensureSeedAdmins_consistent env w C) as C1.
  fold (seeded env w) in C1.
  pose proof F as Fa. apply find_some in Fa. destruct Fa as [Ha Ea].
  unfold byEmail in Ea. apply String.eqb_eq in Ea.
  assert (St1 : stored (admins w1) (withResetCode o a))
    by (rewrite Ad; apply stored_writeBack with (a := a);
        [now split | reflexivity | reflexivity]).
  assert (Wf : wellFormedReset req').
  { repeat split; [now rewrite Em' | exact Hl |].
    apply resetValue_given. rewrite Ev. apply toStr_num_nonempty. }
  assert (Same : forall (l : list Admin) (x y : Admin),
             stored l x -> In y l -> email y = email x -> y = x).
  { intros l x y [[_ Ne] Hx] Hy E.
    now apply (NoDup_map_inj email l). }
  split.
  - intros Lt.
    destruct (resetPassword_cases req' o' w1 Wf)
      as [(b & Hb & (Eb & Tb & Xb) & An & Ad2) | [No _]].
    + assert (b = withResetCode o a)
        by (apply (Same (admins w1)); auto; simpl; congruence).
      subst b. set (w2 := snd (resetPassword req' o' w1)) in *.
      set (a2 := resetDoc (saltsDrawn w1) (newPassword req')
                          (withResetCode o a)) in *.
      assert (St2 : stored (admins w2) a2)
        by (rewrite Ad2;
            now apply stored_writeBack with (a := withResetCode o a)).
      split; [exact An|]. split.
      * exists a2. split; [exact St2|]. split; [reflexivity|].
        apply bcrypt_compare_hash.
      * destruct (resetPassword_cases req' o'' w2 Wf)
          as [(b & Hb2 & (Eb2 & _ & (e & Xb2 & _)) & _) | [_ R]];
          [|exact R].
        assert (b = a2)
          by (apply (Same (admins w2)); auto; simpl; congruence).
        subst b. discriminate.
    + exfalso. apply (No (withResetCode o a)); [apply St1|].
      repeat split; simpl; [congruence | now rewrite Ev |].
      now exists (now o + 15 * 60 * 1000)%Z.
  - intros Ge.
    destruct (resetPassword_cases req' o' w1 Wf)
      as [(b & Hb & (Eb & _ & (e & Xb & Lb)) & _) | [_ R]]; [|exact R].
    assert (b = withResetCode o a)
      by (apply (Same (admins w1)); auto; simpl; congruence).
    subst b. simpl in Xb. injection Xb as <-. lia.
Qed.

End PasswordReset.

Lemma forgotPassword_answers_witness :
  assoc "resetCode"
    (body (fst (forgotPassword (P := Sample.primitives) Sample.emptyEnv
                  aliceForgot (Sample.oracleAt 1000) Sample.twoAdmins)))
  = JStr (generateVerificationCode (Sample.oracleAt 1000)).
Proof.
  refine (proj2 (proj2 (proj2
            (proj2 (forgotPassword_answers (P := Sample.primitives)
                      Sample.emptyEnv aliceForgot (Sample.oracleAt 1000)
                      Sample.twoAdmins _)
               Sample.alice _) _)) _).
  - vm_compute. discriminate.
  - vm_compute. reflexivity.
  - reflexivity.
  - reflexivity.
Defined.

Lemma forgotten_password_reset_witness :
  fst (resetPassword (P := Sample.primitives) aliceResets
         (Sample.oracleAt 2000)
         (snd (forgotPassword (P := Sample.primitives) Sample.emptyEnv
                 aliceForgot (Sample.oracleAt 1000) Sample.twoAdmins)))
  = resetAccepted.
Proof.
  refine (proj1 (proj1
            (forgotten_password_reset (L := SampleFacts.laws) Sample.emptyEnv
               aliceForgot aliceResets (Sample.oracleAt 1000)
               (Sample.oracleAt 2000) (Sample.oracleAt 3000)
               Sample.twoAdmins Sample.alice _ _ _ _ _ _) _)).
  - sample_consistent.
  - vm_compute. discriminate.
  - vm_compute. reflexivity.
  - vm_compute. reflexivity.
  - vm_compute. reflexivity.
  - vm_compute. discriminate.
  - vm_compute. reflexivity.
Defined.

(** ** Resend through SMTP credentials *)

Section InferredKey.

Variable env : Env.

Lemma toStr_orEmpty_truthy (v : JsVal) :
  toStr (v ||| JStr "") <> "" -> truthy v = true.
Proof.
  unfold jsOr. destruct (truthy v); [reflexivity|].
  intros H. now contradiction H.
Qed.

Lemma truthy_jsOr (a b : JsVal) :
  truthy (a ||| b) = truthy a || truthy b.
Proof. unfold jsOr. now destruct (truthy a) eqn:E; rewrite ?E. Qed.

Lemma toLowerCase_nonempty (s : string) :
  toLowerCase s <> "" -> s <> "".
Proof. destruct s; [intros H; now contradiction H | discriminate]. Qed.

Lemma includes_nonempty (s : string) : includes "resend.com" s = true -> s <> "".
Proof. destruct s; [discriminate | discriminate]. Qed.

(** X16.  When [RESEND_API_KEY] is not set and [getResendApiKey] takes the
    key from SMTP credentials that point at Resend, those credentials
    also give [createTransporter] an SMTP server whose password is that
    key, and a sender address exists.  So in such a configuration a
    code is never reported as undeliverable: the Resend request is
    made, and SMTP stands behind it. *)
Theorem inferred_resend_key_has_smtp (o : Oracle) :
  truthy (ev (env_RESEND_API_KEY env)) = false ->
  getResendApiKey env (getEmailSettings o) <> "" ->
  resendConfigured env (getEmailSettings o) = true
  /\ (exists port secure,
        createTransporter env (getEmailSettings o)
        = Some (SmtpServer (smtpHost env (getEmailSettings o)) port secure
                           (smtpUser env (getEmailSettings o))
                           (smtpPass env (getEmailSettings o))))
  /\ toStr (smtpPass env (getEmailSettings o))
     = getResendApiKey env (getEmailSettings o)
  /\ (forall em code w,
        fst (sendVerificationCode env o em code w) <> Returned false).
Proof.
  intros NoKey Key. set (s := getEmailSettings o) in *.
  assert (Shape :
    truthy (getField s "smtpHost" ||| ev (env_SMTP_HOST env)) = true
    /\ truthy (getField s "smtpUser" ||| ev (env_SMTP_USER env)) = true
    /\ truthy (getField s "smtpPass" ||| ev (env_SMTP_PASS env)) = true
    /\ getResendApiKey env s
       = toStr (getField s "smtpPass" ||| ev (env_SMTP_PASS env))).
  { unfold getResendApiKey in *. rewrite NoKey in *.
    destruct (includes "resend.com" _) eqn:I; simpl in Key;
      [|now contradiction Key].
    destruct (_ =? "resend") eqn:U; simpl in Key; [|now contradiction Key].
    destruct (isEmpty _) eqn:Em; simpl in Key; [now contradiction Key|].
    apply includes_nonempty, toLowerCase_nonempty, toStr_orEmpty_truthy in I.
    apply String.eqb_eq in U.
    assert (U' : toLowerCase
                   (toStr (getField s "smtpUser" ||| ev (env_SMTP_USER env)
                           ||| JStr "")) <> "")
      by (rewrite U; discriminate).
    apply toLowerCase_nonempty, toStr_orEmpty_truthy in U'.
    apply isEmpty_false in Em. pose proof Em as Em'.
    apply toStr_orEmpty_truthy in Em'.
    repeat split; auto. unfold jsOr at 1. now rewrite Em'. }
  destruct Shape as (Th & Tu & Tp & Ek).
  assert (Eu : smtpUser env s = getField s "smtpUser" ||| ev (env_SMTP_USER env))
    by (unfold smtpUser; unfold jsOr at 1; now rewrite Tu).
  assert (Ep : smtpPass env s = getField s "smtpPass" ||| ev (env_SMTP_PASS env))
    by (unfold smtpPass; unfold jsOr at 1; now rewrite Tp).
  assert (Ct : exists port secure,
             createTransporter env s
             = Some (SmtpServer (smtpHost env s) port secure
                                (smtpUser env s) (smtpPass env s))).
  { rewrite createTransporter_cases. rewrite Eu, Ep, Tu, Tp.
    unfold smtpHost. rewrite Th. simpl. eauto. }
  split; [|split; [exact Ct|split]].
  - unfold resendConfigured. apply isEmpty_false in Key. rewrite Key. simpl.
    unfold fromAddress. rewrite !truthy_jsOr. rewrite truthy_jsOr in Tu.
    destruct (truthy (getField s "smtpUser")),
      (truthy (ev (env_SMTP_USER env))); try discriminate;
      simpl; rewrite ?orb_true_r; reflexivity.
  - now rewrite Ep.
  - intros em code w Df.
    rewrite (proj1 (sendVerificationCode_outcome env o em code w)) in Df.
    apply deliveryOutcome_false in Df. destruct Df as [_ Df].
    destruct Ct as (port & secure & Ct). fold s in Df. congruence.
Qed.

End InferredKey.

Lemma inferred_resend_key_has_smtp_witness :
  fst (sendVerificationCode resendSmtpEnv (Sample.oracleAt 1000)
         "alice@x.com" "123456" Sample.emptyWorld) <> Returned false.
Proof.
  refine (proj2 (proj2 (proj2
            (inferred_resend_key_has_smtp resendSmtpEnv
               (Sample.oracleAt 1000) _ _)))
            "alice@x.com" "123456" Sample.emptyWorld).
  - reflexivity.
  - vm_compute. discriminate.
Defined.

(** ** The mail helpers of the contact routes *)

Lemma trimEnd_idem (s : string) : trimEnd (trimEnd s) = trimEnd s.
Proof.
  induction s as [|c r IH]; simpl; [reflexivity|].
  destruct (isSpace c && isEmpty (trimEnd r)) eqn:E; [reflexivity|].
  simpl. now rewrite IH, E.
Qed.

Lemma trimStart_shape (s : string) :
  trimStart s = ""
  \/ exists c r, trimStart s = String c r /\ isSpace c = false.
Proof.
  induction s as [|c r IH]; simpl; [now left|].
  destruct (isSpace c) eqn:E; [exact IH|]. right. now exists c, r.
Qed.

Lemma trim_idem (s : string) : trim (trim s) = trim s.
Proof.
  unfold trim. destruct (trimStart_shape s) as [->|(c & r & -> & E)];
    [reflexivity|].
  simpl. rewrite E. simpl. rewrite E. simpl. rewrite E. simpl.
  now rewrite trimEnd_idem.
Qed.

Lemma allChars_trim (p : ascii -> bool) (s : string) :
  allChars p s = true -> allChars p (trim s) = true.
Proof.
  unfold trim. intros H.
  assert (S1 : allChars p (trimStart s) = true).
  { induction s as [|c r IH]; simpl in *; [reflexivity|].
    apply andb_prop in H. destruct H as [Hc Hr].
    destruct (isSpace c); [auto|]. simpl. now rewrite Hc, Hr. }
  clear H. induction (trimStart s) as [|c r IH]; simpl in *; [reflexivity|].
  apply andb_prop in S1. destruct S1 as [Hc Hr].
  destruct (isSpace c && isEmpty (trimEnd r)); [reflexivity|].
  simpl. now rewrite Hc, IH.
Qed.

Lemma splitPieces_clean (s : string) :
  allChars (fun c => negb (isSeparator c)) (fst (splitPieces s)) = true
  /\ Forall (fun x => allChars (fun c => negb (isSeparator c)) x = true)
            (snd (splitPieces s)).
Proof.
  induction s as [|c r [IH1 IH2]]; simpl; [now split|].
  destruct (splitPieces r) as [x l]. simpl in *.
  destruct (isSeparator c) eqn:E; simpl.
  - split; [reflexivity | now constructor].
  - rewrite E. simpl. now split.
Qed.

Lemma parseList_listItem (value : JsVal) (item : string) :
  In item (parseList value) -> listItem item.
Proof.
  unfold parseList. rewrite filter_In, in_map_iff.
  intros [(x & <- & Hx) Ne]. unfold splitSeparators in Hx.
  pose proof (splitPieces_clean (toStr (value ||| JStr ""))) as [C1 C2].
  destruct (splitPieces _) as [y l]. simpl in *.
  repeat split.
  - apply isEmpty_false. now destruct (isEmpty (trim x)).
  - apply trim_idem.
  - apply allChars_trim. destruct Hx as [<-|Hx]; [exact C1|].
    rewrite Forall_forall in C2. now apply C2.
Qed.

Lemma parseList_falsy (value : JsVal) :
  truthy value = false -> parseList value = [].
Proof. unfold parseList, jsOr. now intros ->. Qed.

(** X17.  [parseList] returns clean items only: each one is non-empty,
    has no white space at either end and contains neither [;] nor [,];
    and a value that is missing or otherwise falsy gives the empty
    list. *)
Theorem parseList_items (value : JsVal) :
  Forall listItem (parseList value)
  /\ (truthy value = false -> parseList value = []).
Proof.
  split; [|apply parseList_falsy].
  apply Forall_forall. intros item. apply parseList_listItem.
Qed.

(** X18.  The receivers of contact mail are the clean items of the
    settings document's [contactRecipients] when there are any, and
    those of [CONTACT_RECEIVER_EMAIL] otherwise; with that variable
    unset the list is never empty. *)
Theorem receiverList_choice (rcv : option string) (settings : JsVal) :
  Forall listItem (receiverList rcv settings)
  /\ (parseList (getField settings "contactRecipients") <> [] ->
      receiverList rcv settings
      = parseList (getField settings "contactRecipients"))
  /\ (parseList (getField settings "contactRecipients") = [] ->
      receiverList rcv settings = parseList (CONTACT_RECEIVER_EMAIL rcv))
  /\ (rcv = None -> receiverList rcv settings <> []).
Proof.
  set (r := getField settings "contactRecipients").
  assert (K : receiverList rcv settings
              = match parseList r with
                | [] => parseList (CONTACT_RECEIVER_EMAIL rcv)
                | _ :: _ => parseList r
                end).
  { unfold receiverList. fold r.
    change (r ||| CONTACT_RECEIVER_EMAIL rcv)
      with (if truthy r then r else CONTACT_RECEIVER_EMAIL rcv).
    destruct (truthy r) eqn:T; [reflexivity|].
    rewrite (parseList_falsy r T).
    now destruct (parseList (CONTACT_RECEIVER_EMAIL rcv)). }
  rewrite K. repeat match goal with |- _ /\ _ => split end.
  - apply Forall_forall. intros item.
    destruct (parseList r) eqn:E; [|rewrite <- E]; apply parseList_listItem.
  - now destruct (parseList r).
  - now intros ->.
  - intros ->. now destruct (parseList r).
Qed.

Example sample_parseList :
  parseList (JStr " a@x.com ;; b@x.com, ,c@x.com,")
  = ["a@x.com"; "b@x.com"; "c@x.com"].
Proof. reflexivity. Qed.

Example sample_receiverList_blank :
  receiverList None (JObj [("contactRecipients", JStr " , ; ")])
  = ["sakshidesai314@gmail.com"].
Proof. reflexivity. Qed.

Section Transporters.

Variable env : Env.

(** [parsePort] returns a finite number: the port read, or the
    fallback. *)
Lemma parsePort_finite (value : JsVal) :
  isFinite (parsePort value (JNum 587)) = true.
Proof.
  unfold parsePort. now destruct (isFinite (toNumber value)) eqn:E.
Qed.

(** X19.  Whenever the contact routes get a transporter, the admin routes
    get one from the same configuration.  If the contact one is an
    SMTP server, the admin one is that server with the same
    credentials.  The contact port is always a finite number: it is
    the admin port when that is finite and read from a set value, and
    587 when the admin port is [NaN] or infinite. *)
Theorem getTransporter_within_createTransporter (settings : JsVal)
    (t : Transport) :
  getTransporter env settings = Some t ->
  exists t',
    createTransporter env settings = Some t'
    /\ forall h p s u pw, t = SmtpServer h p s u pw ->
         isFinite p = true
         /\ exists p' s',
              t' = SmtpServer h p' s' u pw
              /\ (isFinite p' = false -> p = JNum 587)
              /\ (truthy (getField settings "smtpPort"
                          ||| ev (env_SMTP_PORT env)) = true ->
                  isFinite p' = true -> p = p').
Proof.
  intros H. rewrite createTransporter_cases. unfold getTransporter in H.
  unfold smtpUser, smtpPass, smtpHost, smtpPort.
  set (host := getField settings "smtpHost" ||| ev (env_SMTP_HOST env)) in *.
  set (user := getField settings "smtpUser" ||| ev (env_SMTP_USER env)) in *.
  set (pass := getField settings "smtpPass" ||| ev (env_SMTP_PASS env)) in *.
  set (x := getField settings "smtpPort" ||| ev (env_SMTP_PORT env)) in *.
  assert (Gmail :
    (if truthy (ev (env_EMAIL_USER env)) && truthy (ev (env_EMAIL_PASS env))
     then Some (GmailService (ev (env_EMAIL_USER env))
                             (ev (env_EMAIL_PASS env)))
     else None) = Some t ->
    exists t',
      (if negb (truthy (user ||| ev (env_EMAIL_USER env)))
          || negb (truthy (pass ||| ev (env_EMAIL_PASS env)))
       then None
       else if negb (truthy host)
       then Some (GmailService (user ||| ev (env_EMAIL_USER env))
                               (pass ||| ev (env_EMAIL_PASS env)))
       else Some (SmtpServer host (toNumber (x ||| JNum 587))
                    (if notNullish (getField settings "smtpSecure")
                     then toLowerCase (toStr (getField settings "smtpSecure"))
                          =? "true"
                     else if notNullish (ev (env_SMTP_SECURE env))
                     then toLowerCase (toStr (ev (env_SMTP_SECURE env)))
                          =? "true"
                     else strictEqNum (toNumber (x ||| JNum 587)) 465)
                    (user ||| ev (env_EMAIL_USER env))
                    (pass ||| ev (env_EMAIL_PASS env))))
      = Some t'
      /\ forall h p s u pw, t = SmtpServer h p s u pw ->
           isFinite p = true
           /\ exists p' s',
                t' = SmtpServer h p' s' u pw
                /\ (isFinite p' = false -> p = JNum 587)
                /\ (truthy x = true -> isFinite p' = true -> p = p')).
  { destruct (truthy (ev (env_EMAIL_USER env))) eqn:Gu; [|discriminate].
    destruct (truthy (ev (env_EMAIL_PASS env))) eqn:Gp; [|discriminate].
    simpl. intros [= <-]. rewrite !truthy_jsOr, Gu, Gp, !orb_true_r. simpl.
    destruct (truthy host); simpl; eexists;
      (split; [reflexivity | discriminate]). }
  destruct (truthy host) eqn:Th; simpl in H; [|now apply Gmail].
  destruct (truthy user) eqn:Tu; simpl in H; [|now apply Gmail].
  destruct (truthy pass) eqn:Tp; simpl in H; [|now apply Gmail].
  clear Gmail. injection H as <-.
  change (user ||| ev (env_EMAIL_USER env))
    with (if truthy user then user else ev (env_EMAIL_USER env)).
  change (pass ||| ev (env_EMAIL_PASS env))
    with (if truthy pass then pass else ev (env_EMAIL_PASS env)).
  rewrite !Tu, !Tp. simpl. rewrite ?Tu, ?Tp. simpl.
  eexists. split; [reflexivity|].
  intros h p s u pw [= <- <- <- <- <-].
  split; [apply parsePort_finite|].
  do 2 eexists. split; [reflexivity|].
  unfold parsePort.
  change (x ||| JNum 587) with (if truthy x then x else JNum 587).
  destruct (truthy x) eqn:Tx.
  - split; [now intros -> | now intros _ ->].
  - split; discriminate.
Qed.

(** The SMTP branch of [getTransporter], and what [createTransporter]
    makes of the same configuration. *)
Lemma getTransporter_smtp (settings : JsVal) (h p : JsVal) (s : bool)
    (u pw : JsVal) :
  getTransporter env settings = Some (SmtpServer h p s u pw) ->
  s = (toLowerCase
         (toStr (getField settings "smtpSecure"
                 ||| ev (env_SMTP_SECURE env) ||| JStr "false"))
       =? "true")
  /\ createTransporter env settings
     = Some (SmtpServer h (smtpPort env settings)
               (if notNullish (getField settings "smtpSecure")
                then toLowerCase (toStr (getField settings "smtpSecure"))
                     =? "true"
                else if notNullish (ev (env_SMTP_SECURE env))
                then toLowerCase (toStr (ev (env_SMTP_SECURE env))) =? "true"
                else strictEqNum (smtpPort env settings) 465)
               u pw).
Proof.
  intros H. rewrite createTransporter_cases. unfold getTransporter in H.
  unfold smtpUser, smtpPass, smtpHost.
  set (host := getField settings "smtpHost" ||| ev (env_SMTP_HOST env)) in *.
  set (user := getField settings "smtpUser" ||| ev (env_SMTP_USER env)) in *.
  set (pass := getField settings "smtpPass" ||| ev (env_SMTP_PASS env)) in *.
  destruct (truthy host) eqn:Th, (truthy user) eqn:Tu, (truthy pass) eqn:Tp;
    simpl in H;
    try (destruct (truthy (ev (env_EMAIL_USER env))
                   && truthy (ev (env_EMAIL_PASS env))); discriminate).
  injection H as <- <- <- <- <-. split; [reflexivity|].
  change (user ||| ev (env_EMAIL_USER env))
    with (if truthy user then user else ev (env_EMAIL_USER env)).
  change (pass ||| ev (env_EMAIL_PASS env))
    with (if truthy pass then pass else ev (env_EMAIL_PASS env)).
  rewrite !Tu, !Tp. simpl. now rewrite ?Tu, ?Tp.
Qed.

Lemma toStr_falsy_not_true (v : JsVal) :
  truthy v = false -> (toLowerCase (toStr v) =? "true") = false.
Proof.
  destruct v as [| |[|]|n|m k|b| |s|l|l]; simpl;
    try discriminate; try reflexivity.
  - destruct (Z.eqb_spec n 0) as [->|]; [reflexivity | discriminate].
  - destruct s; [reflexivity | discriminate].
Qed.

(** X20.  The two routes agree on the [secure] flag of the SMTP server
    whenever the settings document carries a truthy [smtpSecure], or
    carries none and [SMTP_SECURE] is set.  With neither set they
    differ on port 465, where the admin routes turn [secure] on and the
    contact routes leave it off; and an [smtpSecure] that is present
    in the settings document but falsy switches it off for the admin
    routes only, the contact routes then going by [SMTP_SECURE]. *)
Theorem transporters_secure_flag (settings : JsVal) (h p : JsVal) (s : bool)
    (u pw : JsVal) :
  getTransporter env settings = Some (SmtpServer h p s u pw) ->
  exists s',
    createTransporter env settings
    = Some (SmtpServer h (smtpPort env settings) s' u pw)
    /\ (truthy (getField settings "smtpSecure") = true -> s = s')
    /\ (notNullish (getField settings "smtpSecure") = false ->
        env_SMTP_SECURE env <> None -> s = s')
    /\ (notNullish (getField settings "smtpSecure") = false ->
        env_SMTP_SECURE env = None ->
        s = false /\ s' = strictEqNum (smtpPort env settings) 465)
    /\ (notNullish (getField settings "smtpSecure") = true ->
        truthy (getField settings "smtpSecure") = false ->
        s' = false
        /\ s = (toLowerCase (toStr (ev (env_SMTP_SECURE env) ||| JStr "false"))
                =? "true")).
Proof.
  intros H. destruct (getTransporter_smtp _ _ _ _ _ _ H) as [-> Ct].
  eexists. split; [exact Ct|].
  set (ss := getField settings "smtpSecure").
  change (ss ||| ev (env_SMTP_SECURE env) ||| JStr "false")
    with (if truthy (if truthy ss then ss else ev (env_SMTP_SECURE env))
          then (if truthy ss then ss else ev (env_SMTP_SECURE env))
          else JStr "false").
  repeat match goal with |- _ /\ _ => split end.
  - intros T. rewrite !T.
    assert (N : notNullish ss = true) by (now destruct ss).
    now rewrite N.
  - intros N E. rewrite N.
    assert (T : truthy ss = false) by (now destruct ss).
    rewrite !T. destruct (env_SMTP_SECURE env) as [e|];
      [|now contradiction E].
    simpl. now destruct e.
  - intros N E. rewrite N, E.
    assert (T : truthy ss = false) by (now destruct ss).
    rewrite !T. simpl. now split.
  - intros N T. rewrite N, !T. split; [now apply toStr_falsy_not_true|].
    reflexivity.
Qed.

End Transporters.

Lemma getTransporter_within_createTransporter_witness :
  exists t',
    createTransporter smtpEnv (JObj []) = Some t'
    /\ forall h p s u pw,
         SmtpServer (JStr "mail.x.com") (JNum 587) false
                    (JStr "mailer") (JStr "pw")
         = SmtpServer h p s u pw ->
         isFinite p = true
         /\ exists p' s',
              t' = SmtpServer h p' s' u pw
              /\ (isFinite p' = false -> p = JNum 587)
              /\ (truthy (getField (JObj []) "smtpPort"
                          ||| ev (env_SMTP_PORT smtpEnv)) = true ->
                  isFinite p' = true -> p = p').
Proof.
  apply (getTransporter_within_createTransporter smtpEnv (JObj [])).
  reflexivity.
Defined.

Lemma transporters_secure_flag_witness :
  exists s',
    createTransporter smtpEnv (JObj [("smtpPort", JStr "465")])
    = Some (SmtpServer (JStr "mail.x.com")
              (smtpPort smtpEnv (JObj [("smtpPort", JStr "465")])) s'
              (JStr "mailer") (JStr "pw"))
    /\ (truthy (getField (JObj [("smtpPort", JStr "465")]) "smtpSecure")
        = true -> false = s')
    /\ (notNullish (getField (JObj [("smtpPort", JStr "465")]) "smtpSecure")
        = false ->
        env_SMTP_SECURE smtpEnv <> None -> false = s')
    /\ (notNullish (getField (JObj [("smtpPort", JStr "465")]) "smtpSecure")
        = false ->
        env_SMTP_SECURE smtpEnv = None ->
        false = false
        /\ s' = strictEqNum
                  (smtpPort smtpEnv (JObj [("smtpPort", JStr "465")])) 465)
    /\ (notNullish (getField (JObj [("smtpPort", JStr "465")]) "smtpSecure")
        = true ->
        truthy (getField (JObj [("smtpPort", JStr "465")]) "smtpSecure")
        = false ->
        s' = false
        /\ false
           = (toLowerCase (toStr (ev (env_SMTP_SECURE smtpEnv) ||| JStr "false"))
              =? "true")).
Proof.
  apply (transporters_secure_flag smtpEnv (JObj [("smtpPort", JStr "465")])
           (JStr "mail.x.com") (JNum 465) false (JStr "mailer") (JStr "pw")).
  reflexivity.
Defined.

(** A port that is not finite: the contact routes fall back on 587,
    the admin routes pass it on. *)
Example sample_transporters_port_infinite :
  getTransporter smtpEnv (JObj [("smtpPort", JStr "Infinity")])
  = Some (SmtpServer (JStr "mail.x.com") (JNum 587) false
                     (JStr "mailer") (JStr "pw"))
  /\ createTransporter smtpEnv (JObj [("smtpPort", JStr "Infinity")])
     = Some (SmtpServer (JStr "mail.x.com") (JInf false) false
                        (JStr "mailer") (JStr "pw")).
Proof. split; reflexivity. Qed.

Example sample_transporters_port_465 :
  getTransporter smtpEnv (JObj [("smtpPort", JStr "465")])
  = Some (SmtpServer (JStr "mail.x.com") (JNum 465) false
                     (JStr "mailer") (JStr "pw"))
  /\ createTransporter smtpEnv (JObj [("smtpPort", JStr "465")])
     = Some (SmtpServer (JStr "mail.x.com") (JNum 465) true
                        (JStr "mailer") (JStr "pw")).
Proof. split; reflexivity. Qed.

(** Mixed credentials: the admin routes sign in to Gmail as the user
    of the settings document with [EMAIL_PASS], the contact routes as
    [EMAIL_USER]. *)
Example sample_transporters_mixed :
  getTransporter gmailEnv (JObj [("smtpUser", JStr "other@gmail.com")])
  = Some (GmailService (JStr "owner@gmail.com") (JStr "app-password"))
  /\ createTransporter gmailEnv (JObj [("smtpUser", JStr "other@gmail.com")])
     = Some (GmailService (JStr "other@gmail.com") (JStr "app-password")).
Proof. split; reflexivity. Qed.
